(** * Cerberus, a USB watchdog: a shallow embedding of the firmware sketch

    The development follows [Software/Cerberus/Cerberus.ino] (firmware
    0.1.5).  Globals of the sketch become fields of one state record, the
    callbacks become state transformers, and every access to a C buffer
    goes through bounds-checked reads and writes: an access outside the
    object it points into makes the whole computation [None].  The module
    [Rev040] follows the keyboard monitor and the table of suspicious
    devices of the later revision of the sketch that [Software/README.md]
    carries.

    Memory is a list of bytes (each a [Z] in [0, 256)), indexed with stdpp's
    list lookup; machine integers are [Z] with the wrap-around written
    out. *)

From Stdlib Require Import ZArith Lia DecimalString.
From stdpp Require Import base option list strings.

Open Scope Z_scope.

(** ** Machine integers *)

Definition u8 (z : Z) : Z := z mod 2 ^ 8.
Definition u16 (z : Z) : Z := z mod 2 ^ 16.
Definition u32 (z : Z) : Z := z mod 2 ^ 32.

(** Conversion of a 32-bit pattern to [int32_t] (the return type of the
    mass-storage callbacks). *)
Definition int32_of (z : Z) : Z :=
  let w := u32 z in if w <? 2 ^ 31 then w else w - 2 ^ 32.

(** ** Byte memory *)

Abbreviation bytes := (list Z).

(** [n] bytes starting at [off]; [None] when the range leaves the object. *)
Definition mem_read (m : bytes) (off n : nat) : option bytes :=
  if decide (off + n <= length m)%nat then Some (take n (drop off m)) else None.

(** Store [data] at [off]; [None] when the range leaves the object. *)
Definition mem_write (m : bytes) (off : nat) (data : bytes) : option bytes :=
  if decide (off + length data <= length m)%nat
  then Some (take off m ++ data ++ drop (off + length data) m)
  else None.

(** One byte store, [p[i] = v]. *)
Definition mem_set (m : bytes) (i : nat) (v : Z) : option bytes :=
  if decide (i < length m)%nat then Some (<[i := v]> m) else None.

(** ** Constants of the sketch *)

Definition DISK_BLOCK_NUM : Z := 0x150.
Definition FAKE_DISK_BLOCK_NUM : Z := 0x800.
Definition DISK_BLOCK_SIZE : Z := 0x200.
Definition BLOCK_AUTORUN : Z := 102.
Definition BLOCK_README : Z := 100.
Definition MAX_DUMP_BYTES : Z := 16.
Definition BYTES_TO_HASH : Z := 512 * 2.
Definition BYTES_TO_HASH_OFFSET : Z := 7.
Definition valid_hash : Z := 2362816530.

(** ** Output devices

    [SerialTinyUSB] is a stream of tokens; the OLED keeps the strings handed
    to [display.print]; the NeoPixel keeps the colours it was set to. *)

Inductive sout :=
| Txt (s : string)   (* literal text of a print or printf *)
| Dec (n : Z)        (* a number printed in decimal *)
| Hex (n : Z)        (* a number printed in hexadecimal *)
| Chr (c : Z)        (* one character, by code *)
| Nl.                (* the line end of println *)

Definition nl : string := String (Ascii.ascii_of_nat 10) EmptyString.

(** ** Cross-core queue (pico-sdk [queue_t]) *)

(** [DisplayMsg]: a 64-byte text field. *)
Record DisplayMsg := { text : bytes }.

Record queue_t := {
  q_capacity : nat;
  q_items : list DisplayMsg
}.

Definition queue_init (element_count : nat) : queue_t :=
  {| q_capacity := element_count; q_items := [] |}.

(** Non-blocking add: [false] and no change when the queue is full. *)
Definition queue_try_add (q : queue_t) (m : DisplayMsg) : queue_t * bool :=
  if decide (length (q_items q) < q_capacity q)%nat
  then ({| q_capacity := q_capacity q; q_items := q_items q ++ [m] |}, true)
  else (q, false).

(** Non-blocking remove of the oldest entry. *)
Definition queue_try_remove (q : queue_t) : queue_t * option DisplayMsg :=
  match q_items q with
  | [] => (q, None)
  | m :: rest => ({| q_capacity := q_capacity q; q_items := rest |}, Some m)
  end.

(** ** HID reports *)

Record hid_keyboard_report_t := {
  modifier : Z;
  reserved : Z;
  keycode : list Z   (* six entries *)
}.

Record hid_mouse_report_t := {
  buttons : Z;
  mouse_x : Z;
  mouse_y : Z;
  wheel : Z;
  pan : Z
}.

(** ** Global state of the sketch *)

Record State := {
  (* USBvalve globals *)
  readme : bool;
  autorun : bool;
  written : bool;
  deleted : bool;
  written_reported : bool;
  deleted_reported : bool;
  hid_sent : bool;
  hid_reported : bool;
  usbkiller : bool;
  hid_event_num : Z;
  (* RAM disk and queue *)
  msc_disk : bytes;
  display_queue : queue_t;
  (* function statics *)
  rst_prev : bool;
  kbd_printed : bool;
  mouse_printed : bool;
  kbd_prev_report : hid_keyboard_report_t;
  mouse_prev_report : hid_mouse_report_t;
  (* devices *)
  msc_begun : bool;            (* usb_msc.begin() has been called *)
  oled : list string;
  serial : list sout;
  pixel : list (Z * Z * Z)
}.

Definition set_readme (b : bool) (s : State) : State :=
  {| readme := b; autorun := autorun s; written := written s; deleted := deleted s;
     written_reported := written_reported s; deleted_reported := deleted_reported s;
     hid_sent := hid_sent s; hid_reported := hid_reported s; usbkiller := usbkiller s;
     hid_event_num := hid_event_num s; msc_disk := msc_disk s;
     display_queue := display_queue s; rst_prev := rst_prev s;
     kbd_printed := kbd_printed s; mouse_printed := mouse_printed s;
     kbd_prev_report := kbd_prev_report s; mouse_prev_report := mouse_prev_report s;
     msc_begun := msc_begun s; oled := oled s; serial := serial s; pixel := pixel s |}.

Definition set_autorun (b : bool) (s : State) : State :=
  {| readme := readme s; autorun := b; written := written s; deleted := deleted s;
     written_reported := written_reported s; deleted_reported := deleted_reported s;
     hid_sent := hid_sent s; hid_reported := hid_reported s; usbkiller := usbkiller s;
     hid_event_num := hid_event_num s; msc_disk := msc_disk s;
     display_queue := display_queue s; rst_prev := rst_prev s;
     kbd_printed := kbd_printed s; mouse_printed := mouse_printed s;
     kbd_prev_report := kbd_prev_report s; mouse_prev_report := mouse_prev_report s;
     msc_begun := msc_begun s; oled := oled s; serial := serial s; pixel := pixel s |}.

Definition set_written (b : bool) (s : State) : State :=
  {| readme := readme s; autorun := autorun s; written := b; deleted := deleted s;
     written_reported := written_reported s; deleted_reported := deleted_reported s;
     hid_sent := hid_sent s; hid_reported := hid_reported s; usbkiller := usbkiller s;
     hid_event_num := hid_event_num s; msc_disk := msc_disk s;
     display_queue := display_queue s; rst_prev := rst_prev s;
     kbd_printed := kbd_printed s; mouse_printed := mouse_printed s;
     kbd_prev_report := kbd_prev_report s; mouse_prev_report := mouse_prev_report s;
     msc_begun := msc_begun s; oled := oled s; serial := serial s; pixel := pixel s |}.

Definition set_deleted (b : bool) (s : State) : State :=
  {| readme := readme s; autorun := autorun s; written := written s; deleted := b;
     written_reported := written_reported s; deleted_reported := deleted_reported s;
     hid_sent := hid_sent s; hid_reported := hid_reported s; usbkiller := usbkiller s;
     hid_event_num := hid_event_num s; msc_disk := msc_disk s;
     display_queue := display_queue s; rst_prev := rst_prev s;
     kbd_printed := kbd_printed s; mouse_printed := mouse_printed s;
     kbd_prev_report := kbd_prev_report s; mouse_prev_report := mouse_prev_report s;
     msc_begun := msc_begun s; oled := oled s; serial := serial s; pixel := pixel s |}.

Definition set_written_reported (b : bool) (s : State) : State :=
  {| readme := readme s; autorun := autorun s; written := written s; deleted := deleted s;
     written_reported := b; deleted_reported := deleted_reported s;
     hid_sent := hid_sent s; hid_reported := hid_reported s; usbkiller := usbkiller s;
     hid_event_num := hid_event_num s; msc_disk := msc_disk s;
     display_queue := display_queue s; rst_prev := rst_prev s;
     kbd_printed := kbd_printed s; mouse_printed := mouse_printed s;
     kbd_prev_report := kbd_prev_report s; mouse_prev_report := mouse_prev_report s;
     msc_begun := msc_begun s; oled := oled s; serial := serial s; pixel := pixel s |}.

Definition set_deleted_reported (b : bool) (s : State) : State :=
  {| readme := readme s; autorun := autorun s; written := written s; deleted := deleted s;
     written_reported := written_reported s; deleted_reported := b;
     hid_sent := hid_sent s; hid_reported := hid_reported s; usbkiller := usbkiller s;
     hid_event_num := hid_event_num s; msc_disk := msc_disk s;
     display_queue := display_queue s; rst_prev := rst_prev s;
     kbd_printed := kbd_printed s; mouse_printed := mouse_printed s;
     kbd_prev_report := kbd_prev_report s; mouse_prev_report := mouse_prev_report s;
     msc_begun := msc_begun s; oled := oled s; serial := serial s; pixel := pixel s |}.

Definition set_hid_sent (b : bool) (s : State) : State :=
  {| readme := readme s; autorun := autorun s; written := written s; deleted := deleted s;
     written_reported := written_reported s; deleted_reported := deleted_reported s;
     hid_sent := b; hid_reported := hid_reported s; usbkiller := usbkiller s;
     hid_event_num := hid_event_num s; msc_disk := msc_disk s;
     display_queue := display_queue s; rst_prev := rst_prev s;
     kbd_printed := kbd_printed s; mouse_printed := mouse_printed s;
     kbd_prev_report := kbd_prev_report s; mouse_prev_report := mouse_prev_report s;
     msc_begun := msc_begun s; oled := oled s; serial := serial s; pixel := pixel s |}.

Definition set_hid_reported (b : bool) (s : State) : State :=
  {| readme := readme s; autorun := autorun s; written := written s; deleted := deleted s;
     written_reported := written_reported s; deleted_reported := deleted_reported s;
     hid_sent := hid_sent s; hid_reported := b; usbkiller := usbkiller s;
     hid_event_num := hid_event_num s; msc_disk := msc_disk s;
     display_queue := display_queue s; rst_prev := rst_prev s;
     kbd_printed := kbd_printed s; mouse_printed := mouse_printed s;
     kbd_prev_report := kbd_prev_report s; mouse_prev_report := mouse_prev_report s;
     msc_begun := msc_begun s; oled := oled s; serial := serial s; pixel := pixel s |}.

Definition set_usbkiller (b : bool) (s : State) : State :=
  {| readme := readme s; autorun := autorun s; written := written s; deleted := deleted s;
     written_reported := written_reported s; deleted_reported := deleted_reported s;
     hid_sent := hid_sent s; hid_reported := hid_reported s; usbkiller := b;
     hid_event_num := hid_event_num s; msc_disk := msc_disk s;
     display_queue := display_queue s; rst_prev := rst_prev s;
     kbd_printed := kbd_printed s; mouse_printed := mouse_printed s;
     kbd_prev_report := kbd_prev_report s; mouse_prev_report := mouse_prev_report s;
     msc_begun := msc_begun s; oled := oled s; serial := serial s; pixel := pixel s |}.

Definition set_hid_event_num (n : Z) (s : State) : State :=
  {| readme := readme s; autorun := autorun s; written := written s; deleted := deleted s;
     written_reported := written_reported s; deleted_reported := deleted_reported s;
     hid_sent := hid_sent s; hid_reported := hid_reported s; usbkiller := usbkiller s;
     hid_event_num := n; msc_disk := msc_disk s;
     display_queue := display_queue s; rst_prev := rst_prev s;
     kbd_printed := kbd_printed s; mouse_printed := mouse_printed s;
     kbd_prev_report := kbd_prev_report s; mouse_prev_report := mouse_prev_report s;
     msc_begun := msc_begun s; oled := oled s; serial := serial s; pixel := pixel s |}.

Definition set_msc_disk (d : bytes) (s : State) : State :=
  {| readme := readme s; autorun := autorun s; written := written s; deleted := deleted s;
     written_reported := written_reported s; deleted_reported := deleted_reported s;
     hid_sent := hid_sent s; hid_reported := hid_reported s; usbkiller := usbkiller s;
     hid_event_num := hid_event_num s; msc_disk := d;
     display_queue := display_queue s; rst_prev := rst_prev s;
     kbd_printed := kbd_printed s; mouse_printed := mouse_printed s;
     kbd_prev_report := kbd_prev_report s; mouse_prev_report := mouse_prev_report s;
     msc_begun := msc_begun s; oled := oled s; serial := serial s; pixel := pixel s |}.

Definition set_display_queue (q : queue_t) (s : State) : State :=
  {| readme := readme s; autorun := autorun s; written := written s; deleted := deleted s;
     written_reported := written_reported s; deleted_reported := deleted_reported s;
     hid_sent := hid_sent s; hid_reported := hid_reported s; usbkiller := usbkiller s;
     hid_event_num := hid_event_num s; msc_disk := msc_disk s;
     display_queue := q; rst_prev := rst_prev s;
     kbd_printed := kbd_printed s; mouse_printed := mouse_printed s;
     kbd_prev_report := kbd_prev_report s; mouse_prev_report := mouse_prev_report s;
     msc_begun := msc_begun s; oled := oled s; serial := serial s; pixel := pixel s |}.

Definition set_rst_prev (b : bool) (s : State) : State :=
  {| readme := readme s; autorun := autorun s; written := written s; deleted := deleted s;
     written_reported := written_reported s; deleted_reported := deleted_reported s;
     hid_sent := hid_sent s; hid_reported := hid_reported s; usbkiller := usbkiller s;
     hid_event_num := hid_event_num s; msc_disk := msc_disk s;
     display_queue := display_queue s; rst_prev := b;
     kbd_printed := kbd_printed s; mouse_printed := mouse_printed s;
     kbd_prev_report := kbd_prev_report s; mouse_prev_report := mouse_prev_report s;
     msc_begun := msc_begun s; oled := oled s; serial := serial s; pixel := pixel s |}.

Definition set_printed (k m : bool) (s : State) : State :=
  {| readme := readme s; autorun := autorun s; written := written s; deleted := deleted s;
     written_reported := written_reported s; deleted_reported := deleted_reported s;
     hid_sent := hid_sent s; hid_reported := hid_reported s; usbkiller := usbkiller s;
     hid_event_num := hid_event_num s; msc_disk := msc_disk s;
     display_queue := display_queue s; rst_prev := rst_prev s;
     kbd_printed := k; mouse_printed := m;
     kbd_prev_report := kbd_prev_report s; mouse_prev_report := mouse_prev_report s;
     msc_begun := msc_begun s; oled := oled s; serial := serial s; pixel := pixel s |}.

Definition set_kbd_prev_report (r : hid_keyboard_report_t) (s : State) : State :=
  {| readme := readme s; autorun := autorun s; written := written s; deleted := deleted s;
     written_reported := written_reported s; deleted_reported := deleted_reported s;
     hid_sent := hid_sent s; hid_reported := hid_reported s; usbkiller := usbkiller s;
     hid_event_num := hid_event_num s; msc_disk := msc_disk s;
     display_queue := display_queue s; rst_prev := rst_prev s;
     kbd_printed := kbd_printed s; mouse_printed := mouse_printed s;
     kbd_prev_report := r; mouse_prev_report := mouse_prev_report s;
     msc_begun := msc_begun s; oled := oled s; serial := serial s; pixel := pixel s |}.

Definition set_mouse_prev_report (r : hid_mouse_report_t) (s : State) : State :=
  {| readme := readme s; autorun := autorun s; written := written s; deleted := deleted s;
     written_reported := written_reported s; deleted_reported := deleted_reported s;
     hid_sent := hid_sent s; hid_reported := hid_reported s; usbkiller := usbkiller s;
     hid_event_num := hid_event_num s; msc_disk := msc_disk s;
     display_queue := display_queue s; rst_prev := rst_prev s;
     kbd_printed := kbd_printed s; mouse_printed := mouse_printed s;
     kbd_prev_report := kbd_prev_report s; mouse_prev_report := r;
     msc_begun := msc_begun s; oled := oled s; serial := serial s; pixel := pixel s |}.

Definition set_msc_begun (b : bool) (s : State) : State :=
  {| readme := readme s; autorun := autorun s; written := written s; deleted := deleted s;
     written_reported := written_reported s; deleted_reported := deleted_reported s;
     hid_sent := hid_sent s; hid_reported := hid_reported s; usbkiller := usbkiller s;
     hid_event_num := hid_event_num s; msc_disk := msc_disk s;
     display_queue := display_queue s; rst_prev := rst_prev s;
     kbd_printed := kbd_printed s; mouse_printed := mouse_printed s;
     kbd_prev_report := kbd_prev_report s; mouse_prev_report := mouse_prev_report s;
     msc_begun := b; oled := oled s; serial := serial s; pixel := pixel s |}.

(** [display.print(str)]: the string is appended to what the OLED shows. *)
Definition display_print (str : string) (s : State) : State :=
  {| readme := readme s; autorun := autorun s; written := written s; deleted := deleted s;
     written_reported := written_reported s; deleted_reported := deleted_reported s;
     hid_sent := hid_sent s; hid_reported := hid_reported s; usbkiller := usbkiller s;
     hid_event_num := hid_event_num s; msc_disk := msc_disk s;
     display_queue := display_queue s; rst_prev := rst_prev s;
     kbd_printed := kbd_printed s; mouse_printed := mouse_printed s;
     kbd_prev_report := kbd_prev_report s; mouse_prev_report := mouse_prev_report s;
     msc_begun := msc_begun s; oled := oled s ++ [str]; serial := serial s;
     pixel := pixel s |}.

(** Tokens sent to [SerialTinyUSB]. *)
Definition ser (out : list sout) (s : State) : State :=
  {| readme := readme s; autorun := autorun s; written := written s; deleted := deleted s;
     written_reported := written_reported s; deleted_reported := deleted_reported s;
     hid_sent := hid_sent s; hid_reported := hid_reported s; usbkiller := usbkiller s;
     hid_event_num := hid_event_num s; msc_disk := msc_disk s;
     display_queue := display_queue s; rst_prev := rst_prev s;
     kbd_printed := kbd_printed s; mouse_printed := mouse_printed s;
     kbd_prev_report := kbd_prev_report s; mouse_prev_report := mouse_prev_report s;
     msc_begun := msc_begun s; oled := oled s; serial := serial s ++ out;
     pixel := pixel s |}.

Definition setNeoColor (r g b : Z) (s : State) : State :=
  {| readme := readme s; autorun := autorun s; written := written s; deleted := deleted s;
     written_reported := written_reported s; deleted_reported := deleted_reported s;
     hid_sent := hid_sent s; hid_reported := hid_reported s; usbkiller := usbkiller s;
     hid_event_num := hid_event_num s; msc_disk := msc_disk s;
     display_queue := display_queue s; rst_prev := rst_prev s;
     kbd_printed := kbd_printed s; mouse_printed := mouse_printed s;
     kbd_prev_report := kbd_prev_report s; mouse_prev_report := mouse_prev_report s;
     msc_begun := msc_begun s; oled := oled s; serial := serial s;
     pixel := pixel s ++ [(r, g, b)] |}.

(** ** Serial helpers *)

(** The characters of a C string stored in [a]: everything before the
    first zero byte. *)
Fixpoint c_str (a : bytes) : bytes :=
  match a with
  | [] => []
  | c :: rest => if c =? 0 then [] else c :: c_str rest
  end.

(** [SerialTinyUSB.println(char_array)]. *)
Definition println_chars (a : bytes) : list sout := map Chr (c_str a) ++ [Nl].

Definition printout (str : string) (s : State) : State :=
  ser [Txt str; Nl] (display_print str s).

(** One turn of the loop of [hexDump]; the accumulator carries [asciitab]
    and the tokens printed so far. *)
Definition hexDump_step (data : bytes) (size : nat)
    (acc : bytes * list sout) (i : nat) : bytes * list sout :=
  let '(asciitab, out) := acc in
  let d := default 0 (data !! i) in
  let out := out ++ [Hex (Z.shiftr d 4); Hex (Z.land d 0x0F)] in
  let asciitab :=
    <[(i mod 16)%nat := if (32 <=? d) && (d <=? 126) then d else 46]> asciitab in
  if ((i + 1) mod 8 =? 0)%nat || (i + 1 =? size)%nat then
    let out := out ++ [Txt " "] in
    if ((i + 1) mod 16 =? 0)%nat then (asciitab, out ++ println_chars asciitab)
    else if (i + 1 =? size)%nat then
      let asciitab := <[((i + 1) mod 16)%nat := 0]> asciitab in
      let out := if ((i + 1) mod 16 <=? 8)%nat then out ++ [Txt " "] else out in
      let out := out ++ repeat (Txt "   ") (16 - (i + 1) mod 16) in
      (asciitab, out ++ [Txt "|  "] ++ println_chars asciitab)
    else (asciitab, out)
  else (asciitab, out).

(** [hexDump(data, size)], on the [size] bytes at [data]. *)
Definition hexDump (data : bytes) : list sout :=
  let size := length data in
  snd (fold_left (hexDump_step data size) (seq 0 size) (repeat 0 17, [])) ++ [Nl].

(** ** Honeypot storage: the mass-storage callbacks *)

(** Byte offset of [msc_disk[lba]] in the backing array. *)
Definition block_addr (lba : Z) : nat := Z.to_nat (lba * DISK_BLOCK_SIZE).

(** READ10.  Returns the new state, the caller's buffer and the result. *)
Definition msc_read_callback (lba : Z) (buffer : bytes) (bufsize : Z) (s : State)
    : option (State * bytes * Z) :=
  let s := if lba =? BLOCK_README then set_readme true s else s in
  let s := if lba =? BLOCK_AUTORUN then set_autorun true s else s in
  buffer ← (if lba <? DISK_BLOCK_NUM - 1
            then data ← mem_read (msc_disk s) (block_addr lba) (Z.to_nat bufsize);
                 mem_write buffer 0 data
            else Some buffer);
  let s := ser [Txt "Read LBA: "; Dec lba; Txt "   Size: "; Dec bufsize; Nl] s in
  s ← (if lba <? DISK_BLOCK_NUM - 1
       then data ← mem_read (msc_disk s) (block_addr lba) (Z.to_nat MAX_DUMP_BYTES);
            Some (ser (hexDump data) s)
       else Some s);
  Some (s, buffer, int32_of bufsize).

(** [buffer[i] == v], faulting outside the buffer. *)
Definition byte_is (buffer : bytes) (i : nat) (v : Z) : option bool :=
  b ← buffer !! i; Some (b =? v).

(** Short-circuit [||] over fallible operands. *)
Definition or_else (a b : option bool) : option bool :=
  x ← a; if (x : bool) then Some true else b.

(** WRITE10.  Returns the new state and the result. *)
Definition msc_write_callback (lba : Z) (buffer : bytes) (bufsize : Z) (s : State)
    : option (State * Z) :=
  s ← (if lba =? 7
       then hit ← or_else (byte_is buffer 32 0xE5)
                    (or_else (byte_is buffer 64 0xE5) (byte_is buffer 160 0xE5));
            Some (if (hit : bool) then set_deleted true s else s)
       else Some s);
  let s := if lba >? 10 then set_written true s else s in
  s ← (if lba <? DISK_BLOCK_NUM - 1
       then data ← mem_read buffer 0 (Z.to_nat bufsize);
            disk ← mem_write (msc_disk s) (block_addr lba) data;
            Some (set_msc_disk disk s)
       else Some s);
  let s := ser [Txt "Write LBA: "; Dec lba; Txt "   Size: "; Dec bufsize; Nl] s in
  s ← (if lba <? DISK_BLOCK_NUM - 1
       then data ← mem_read (msc_disk s) (block_addr lba) (Z.to_nat MAX_DUMP_BYTES);
            Some (ser (hexDump data) s)
       else Some s);
  Some (s, int32_of bufsize).

Definition msc_flush_callback (s : State) : State := s.

(** A request for one whole block against the full backing image.  TinyUSB
    hands the callbacks one endpoint buffer at a time. *)
Definition one_block_request (s : State) (lba : Z) (buffer : bytes) (bufsize : Z) : Prop :=
  0 <= lba < 2 ^ 32 /\
  bufsize = DISK_BLOCK_SIZE /\
  length buffer = Z.to_nat DISK_BLOCK_SIZE /\
  length (msc_disk s) = Z.to_nat (DISK_BLOCK_NUM * DISK_BLOCK_SIZE).

(** The block [msc_disk[lba]]. *)
Definition disk_block (s : State) (lba : Z) : bytes :=
  take (Z.to_nat DISK_BLOCK_SIZE) (drop (block_addr lba) (msc_disk s)).

(** ** Cross-core event bus: [enqueue_display] *)

(** [strncpy(dest, src, n)]: the [n] bytes stored at [dest].  [src] is the
    object holding the source string; running off it before a terminator
    or [n] bytes is a fault. *)
Fixpoint strncpy (src : bytes) (n : nat) : option bytes :=
  match n with
  | O => Some []
  | S n' =>
      match src with
      | [] => None
      | c :: rest =>
          if c =? 0 then Some (repeat 0 (S n'))
          else tl ← strncpy rest n'; Some (c :: tl)
      end
  end.

(** [sizeof(msg.text)]. *)
Definition DISPLAY_TEXT_SIZE : nat := 64.

Definition enqueue_display (str : bytes) (s : State) : option State :=
  copied ← strncpy str (DISPLAY_TEXT_SIZE - 1);
  let msg := {| text := copied ++ [0] |} in
  Some (set_display_queue (fst (queue_try_add (display_queue s) msg)) s).

Definition string_of_bytes (l : bytes) : string :=
  String.string_of_list_ascii (map (fun c => Ascii.ascii_of_N (Z.to_N c)) l).

Definition bytes_of_string (str : string) : bytes :=
  map (fun a => Z.of_N (Ascii.N_of_ascii a)) (String.list_ascii_of_string str).

(** ** Core 0: [setup], [loop], [swreset] *)

(** Where core 0 is: running [loop], stuck in the [while (1)] that follows
    a failed self test, or stuck in [swreset] until the watchdog fires. *)
Inductive core0 := Looping | Stopped | Rebooting.

Definition VERSION : string := "Cerberus - 0.1.5".

Definition display_clear (s : State) : State :=
  {| readme := readme s; autorun := autorun s; written := written s; deleted := deleted s;
     written_reported := written_reported s; deleted_reported := deleted_reported s;
     hid_sent := hid_sent s; hid_reported := hid_reported s; usbkiller := usbkiller s;
     hid_event_num := hid_event_num s; msc_disk := msc_disk s;
     display_queue := display_queue s; rst_prev := rst_prev s;
     kbd_printed := kbd_printed s; mouse_printed := mouse_printed s;
     kbd_prev_report := kbd_prev_report s; mouse_prev_report := mouse_prev_report s;
     msc_begun := msc_begun s; oled := []; serial := serial s; pixel := pixel s |}.

Definition cls (s : State) : State :=
  printout (nl +:+ "-----------------") (printout VERSION (display_clear s)).

(** The bytes handed to the hash: [msc_disk[BYTES_TO_HASH_OFFSET] + 11],
    [BYTES_TO_HASH] of them. *)
Definition hashed_bytes (disk : bytes) : option bytes :=
  mem_read disk (block_addr BYTES_TO_HASH_OFFSET + 11) (Z.to_nat BYTES_TO_HASH).

Section Core0.

(** [XXH32(input, seed)] of the xxHash library. *)
Variable XXH32 : bytes -> Z -> Z.

Definition setup (s : State) : option (State * core0) :=
  let s := set_display_queue (queue_init 16) s in
  input ← hashed_bytes (msc_disk s);
  let computed_hash := XXH32 input 0 in
  let s := if computed_hash =? valid_hash then set_msc_begun true s else s in
  let s := cls s in
  let s := setNeoColor 0 0 255 s in
  if computed_hash =? valid_hash
  then Some (printout (nl +:+ "[+] Selftest: OK") s, Looping)
  else Some (printout (nl +:+ "[!] Stopping...")
               (printout (nl +:+ "[!] Selftest: KO") s), Stopped).

End Core0.

(** The loop that empties the queue onto the display. *)
Fixpoint drain (fuel : nat) (s : State) : State :=
  match fuel with
  | O => s
  | S fuel' =>
      match queue_try_remove (display_queue s) with
      | (q, Some msg) =>
          drain fuel' (printout (string_of_bytes (c_str (text msg)))
                         (set_display_queue q s))
      | (_, None) => s
      end
  end.

Definition drain_queue (s : State) : State :=
  drain (length (q_items (display_queue s))) s.

(** What one pass of [loop] reads from the pins: the level of [BTN_RST]
    ([true] is HIGH) and, when BOOTSEL is held, for how many milliseconds. *)
Record loop_in := {
  btn_rst : bool;
  bootsel : option Z
}.

(** [snprintf(outstr, 21, "\n[+] HID Evt# %d", hid_event_num)]. *)
Definition hid_evt_text (n : Z) : string :=
  String.substring 0 20
    (nl +:+ "[+] HID Evt# " +:+ DecimalString.NilZero.string_of_int (Z.to_int (int32_of n))).

(** The blocks of [loop], in the order of the source. *)

(** [if (rst_now != rst_prev) { ... }]; the boolean tells that [swreset]
    was entered. *)
Definition poll_btn_rst (rst_now : bool) (s : State) : State * bool :=
  if negb (eqb rst_now (rst_prev s))
  then (set_rst_prev rst_now
          (ser [Txt "BTN_RST ";
                Txt (if rst_now then "released" else "PRESSED -> resetting");
                Txt nl] s),
        negb rst_now)
  else (s, false).

Definition report_usbkiller (s : State) : State :=
  if usbkiller s
  then setNeoColor 255 0 0 (set_usbkiller false (printout (nl +:+ "[!!] USB Killer") s))
  else s.

Definition report_readme (s : State) : State :=
  if readme s
  then setNeoColor 0 0 255 (set_readme false (printout (nl +:+ "[!] README (R)") s))
  else s.

Definition report_autorun (s : State) : State :=
  if autorun s
  then setNeoColor 0 0 255 (set_autorun false (printout (nl +:+ "[+] AUTORUN (R)") s))
  else s.

Definition report_deleted (s : State) : State :=
  if deleted s && negb (deleted_reported s)
  then setNeoColor 0 0 255
         (set_deleted_reported true (set_deleted false (printout (nl +:+ "[!] DELETING") s)))
  else s.

Definition report_written (s : State) : State :=
  if written s && negb (written_reported s)
  then setNeoColor 0 0 255
         (set_written_reported true (set_written false (printout (nl +:+ "[!] WRITING") s)))
  else s.

Definition report_hid (s : State) : State :=
  if hid_sent s && negb (hid_reported s)
  then setNeoColor 255 0 0
         (set_hid_reported true (set_hid_sent false (printout (nl +:+ "[!!] HID Sending data") s)))
  else s.

(** [if (BOOTSEL) { ... }]; [held] is the time the button was held, when
    it was. *)
Definition poll_bootsel (held : option Z) (s : State) : State * core0 :=
  match held with
  | None => (s, Looping)
  | Some press_duration =>
      if u32 press_duration >? 2000
      then (printout (hid_evt_text (hid_event_num s)) s, Looping)
      else (printout (nl +:+ "[+] RESETTING") s, Rebooting)
  end.

Definition loop (i : loop_in) (s : State) : State * core0 :=
  let s := drain_queue s in
  let '(s, in_swreset) := poll_btn_rst (btn_rst i) s in
  if in_swreset then (s, Rebooting) else
  poll_bootsel (bootsel i)
    (report_hid (report_written (report_deleted
       (report_autorun (report_readme (report_usbkiller s)))))).

(** The interrupt handler of [KILLER_PIN]; [pin] is the level read. *)
Definition detectUSBKiller (pin : bool) (s : State) : State :=
  if negb pin then set_usbkiller true s else s.

(** ** Descriptor decoder: UTF-16LE to UTF-8, in place

    [m] is the memory from [temp_buf] to the end of the object it lies in;
    the UTF-16 source and the UTF-8 destination are the same bytes. *)

(** [((uint16_t * ) m)[k]], little endian. *)
Definition read_u16 (m : bytes) (k : nat) : option Z :=
  lo ← m !! (2 * k)%nat; hi ← m !! (2 * k + 1)%nat; Some (lo + 256 * hi).

(** Number of UTF-8 bytes one code unit takes. *)
Definition utf8_size (chr : Z) : Z :=
  if chr <? 0x80 then 1 else if chr <? 0x800 then 2 else 3.

(** The UTF-8 bytes one code unit is turned into. *)
Definition utf8_encode (chr : Z) : bytes :=
  if chr <? 0x80 then [Z.land chr 0xff]
  else if chr <? 0x800 then
    [u8 (Z.lor 0xC0 (Z.land (Z.shiftr chr 6) 0x1F));
     u8 (Z.lor 0x80 (Z.land (Z.shiftr chr 0) 0x3F))]
  else
    [u8 (Z.lor 0xE0 (Z.land (Z.shiftr chr 12) 0x0F));
     u8 (Z.lor 0x80 (Z.land (Z.shiftr chr 6) 0x3F));
     u8 (Z.lor 0x80 (Z.land (Z.shiftr chr 0) 0x3F))].

(** [*utf8++ = b] for each byte of [bs], starting at offset [p]. *)
Fixpoint store_bytes (m : bytes) (p : nat) (bs : bytes) : option bytes :=
  match bs with
  | [] => Some m
  | b :: rest => m ← mem_set m p b; store_bytes m (S p) rest
  end.

(** The loop of [_convert_utf16le_to_utf8]: [n] turns are left, the next
    code unit is [utf16[i]], the next output byte goes to offset [p].
    [utf16] is the index of the first code unit. *)
Fixpoint convert_loop (m : bytes) (utf16 i n p : nat) : option bytes :=
  match n with
  | O => Some m
  | S n' =>
      chr ← read_u16 m (utf16 + i);
      m ← store_bytes m p (utf8_encode chr);
      convert_loop m utf16 (S i) n' (p + length (utf8_encode chr))
  end.

(** The destination size [utf8_len] is received and not used. *)
Definition _convert_utf16le_to_utf8 (m : bytes) (utf16 : nat) (utf16_len : Z)
    (utf8 : nat) (utf8_len : Z) : option bytes :=
  convert_loop m utf16 0 (Z.to_nat utf16_len) utf8.

Fixpoint count_loop (m : bytes) (buf i n : nat) (total_bytes : Z) : option Z :=
  match n with
  | O => Some total_bytes
  | S n' =>
      chr ← read_u16 m (buf + i);
      count_loop m buf (S i) n' (u32 (total_bytes + utf8_size chr))
  end.

Definition _count_utf8_bytes (m : bytes) (buf : nat) (len : Z) : option Z :=
  total ← count_loop m buf 0 (Z.to_nat len) 0; Some (int32_of total).

(** [((temp_buf[0] & 0xff) - 2) / sizeof(uint16_t)]: the subtraction is
    done in [int], the division in [size_t]. *)
Definition descriptor_units (first : Z) : Z :=
  u32 (Z.land first 0xff - 2) / 2.

Definition utf16_to_utf8 (temp_buf : bytes) (buf_len : Z) : option bytes :=
  first ← read_u16 temp_buf 0;
  let utf16_len := descriptor_units first in
  counted ← _count_utf8_bytes temp_buf 1 utf16_len;
  let utf8_len := u32 counted in
  m ← _convert_utf16le_to_utf8 temp_buf 1 utf16_len 0 buf_len;
  mem_set m (Z.to_nat utf8_len) 0.

(** ** HID monitor

    The modifier bits, mouse buttons and interface protocols are those of
    TinyUSB's [hid.h]. *)

Definition KEYBOARD_MODIFIER_LEFTCTRL : Z := 1.
Definition KEYBOARD_MODIFIER_LEFTSHIFT : Z := 2.
Definition KEYBOARD_MODIFIER_LEFTALT : Z := 4.
Definition KEYBOARD_MODIFIER_LEFTGUI : Z := 8.
Definition KEYBOARD_MODIFIER_RIGHTCTRL : Z := 16.
Definition KEYBOARD_MODIFIER_RIGHTSHIFT : Z := 32.
Definition KEYBOARD_MODIFIER_RIGHTALT : Z := 64.
Definition KEYBOARD_MODIFIER_RIGHTGUI : Z := 128.

Definition MOUSE_BUTTON_LEFT : Z := 1.
Definition MOUSE_BUTTON_RIGHT : Z := 2.
Definition MOUSE_BUTTON_MIDDLE : Z := 4.

Definition HID_ITF_PROTOCOL_NONE : Z := 0.
Definition HID_ITF_PROTOCOL_KEYBOARD : Z := 1.
Definition HID_ITF_PROTOCOL_MOUSE : Z := 2.

(** The markers of [check_special_key], keyed by HID usage code, in the
    order of the tests in the source.  [HID_KEY_NUM_LOCK] (0x53) prints
    the marker of the right arrow, as the source has it. *)
Definition special_keys : list (Z * string) :=
  [ (0x4F, "<ARROWRIGHT>"); (0x50, "<ARROWLEFT>"); (0x51, "<ARROWDOWN>");
    (0x52, "<ARROWUP>"); (0x4A, "<HOME>");
    (0x59, "<KEYPAD_1>"); (0x5A, "<KEYPAD_2>"); (0x5B, "<KEYPAD_3>");
    (0x5C, "<KEYPAD_4>"); (0x5D, "<KEYPAD_5>"); (0x5E, "<KEYPAD_6>");
    (0x5F, "<KEYPAD_7>"); (0x60, "<KEYPAD_8>"); (0x61, "<KEYPAD_9>");
    (0x62, "<KEYPAD_0>");
    (0x3A, "<F1>"); (0x3B, "<F2>"); (0x3C, "<F3>"); (0x3D, "<F4>");
    (0x3E, "<F5>"); (0x3F, "<F6>"); (0x40, "<F7>"); (0x41, "<F8>");
    (0x42, "<F9>"); (0x43, "<F10>"); (0x44, "<F11>"); (0x45, "<F12>");
    (0x46, "<PRNT>"); (0x47, "<SCRLL>"); (0x48, "<PAUSE>"); (0x49, "<INSERT>");
    (0x4B, "<PAGEUP>"); (0x4C, "<DEL>"); (0x4D, "<END>"); (0x4E, "<PAGEDOWN>");
    (0x53, "<ARROWRIGHT>");
    (0x54, "<KEYPAD_DIV>"); (0x55, "<KEYPAD_MUL>"); (0x56, "<KEYPAD_SUB>");
    (0x57, "<KEYPAD_ADD>"); (0x63, "<KEYPAD_DECIMAL>") ].

(** One [if (code == K) SerialTinyUSB.print(marker);] per table row. *)
Definition check_special_key (code : Z) : list sout :=
  flat_map (fun row => if code =? fst row then [Txt (snd row)] else []) special_keys.

Definition find_key_in_report (report : hid_keyboard_report_t) (kc : Z) : bool :=
  existsb (fun k => k =? kc) (take 6 (keycode report)).

(** A key of the current report that the previous report does not hold. *)
Definition fresh_key (prev : hid_keyboard_report_t) (kc : Z) : bool :=
  negb (kc =? 0) && negb (find_key_in_report prev kc).

(** The cast [(hid_keyboard_report_t const * )report] over the bytes of the
    endpoint buffer. *)
Definition kbd_report_of (report : bytes) : option hid_keyboard_report_t :=
  raw ← mem_read report 0 8;
  match raw with
  | m :: r :: keys => Some {| modifier := m; reserved := r; keycode := keys |}
  | _ => None
  end.

Definition int8_of (b : Z) : Z := if b <? 128 then b else b - 256.

Definition mouse_report_of (report : bytes) : option hid_mouse_report_t :=
  raw ← mem_read report 0 5;
  match raw with
  | [b; x; y; w; p] =>
      Some {| buttons := b; mouse_x := int8_of x; mouse_y := int8_of y;
              wheel := int8_of w; pan := int8_of p |}
  | _ => None
  end.

Section HidMonitor.

(** The table [keycode2ascii[128][2]], filled from TinyUSB's
    [HID_KEYCODE_TO_ASCII]: one row per key code, plain and shifted. *)
Variable keycode2ascii : list (Z * Z).

(** What [process_kbd_report] prints for the key in one slot. *)
Definition kbd_slot (prev report : hid_keyboard_report_t) (kc : Z)
    : option (list sout) :=
  if fresh_key prev kc then
    let is_shift :=
      negb (Z.land (modifier report)
              (Z.lor KEYBOARD_MODIFIER_LEFTSHIFT KEYBOARD_MODIFIER_RIGHTSHIFT) =? 0) in
    row ← keycode2ascii !! Z.to_nat kc;
    let ch := if is_shift then snd row else fst row in
    let is_gui :=
      negb (Z.land (modifier report)
              (Z.lor KEYBOARD_MODIFIER_LEFTGUI KEYBOARD_MODIFIER_RIGHTGUI) =? 0) in
    let is_alt :=
      negb (Z.land (modifier report)
              (Z.lor KEYBOARD_MODIFIER_LEFTALT KEYBOARD_MODIFIER_RIGHTALT) =? 0) in
    Some ((if is_gui then [Txt "GUI+"] else []) ++
          (if is_alt then [Txt "ALT+"] else []) ++
          check_special_key kc ++
          [Chr ch] ++
          (if ch =? 13 then [Txt nl] else []))
  else Some [].

(** The [for] over the six slots. *)
Fixpoint kbd_slots (prev report : hid_keyboard_report_t) (keys : list Z)
    : option (list sout) :=
  match keys with
  | [] => Some []
  | kc :: rest =>
      out ← kbd_slot prev report kc;
      more ← kbd_slots prev report rest;
      Some (out ++ more)
  end.

Definition process_kbd_report (report : hid_keyboard_report_t) (s : State)
    : option State :=
  out ← kbd_slots (kbd_prev_report s) report (take 6 (keycode report));
  Some (set_kbd_prev_report report (ser out s)).

Definition cursor_movement (x y w : Z) : list sout :=
  [Txt "("; Dec x; Txt " "; Dec y; Txt " "; Dec w; Txt (")" +:+ String (Ascii.ascii_of_nat 13) nl)].

(** The static [prev_report] of the source is never assigned. *)
Definition process_mouse_report (report : hid_mouse_report_t) (s : State) : State :=
  let button_changed_mask := Z.lxor (buttons report) (buttons (mouse_prev_report s)) in
  let pressed :=
    if Z.land button_changed_mask (buttons report) =? 0 then []
    else [Txt "MOUSE: ";
          Chr (if Z.land (buttons report) MOUSE_BUTTON_LEFT =? 0 then 45 else 76);
          Chr (if Z.land (buttons report) MOUSE_BUTTON_MIDDLE =? 0 then 45 else 77);
          Chr (if Z.land (buttons report) MOUSE_BUTTON_RIGHT =? 0 then 45 else 82);
          Txt " "] in
  ser (pressed ++ cursor_movement (mouse_x report) (mouse_y report) (wheel report)) s.

(** [hid_event_num++] on a 32-bit [uint]. *)
Definition incr_hid_event_num (s : State) : State :=
  set_hid_event_num (u32 (hid_event_num s + 1)) s.

(** [itf_protocol] is what [tuh_hid_interface_protocol] answers and
    [rearmed] what [tuh_hid_receive_report] answers. *)
Definition tuh_hid_report_received_cb (itf_protocol : Z) (report : bytes)
    (rearmed : bool) (s : State) : option State :=
  let s := set_hid_sent true s in
  s ← (if itf_protocol =? HID_ITF_PROTOCOL_KEYBOARD then
         let s := if kbd_printed s then s
                  else set_printed true false
                         (ser [Txt "HID received keyboard report"; Nl] s) in
         r ← kbd_report_of report;
         s ← process_kbd_report r s;
         Some (incr_hid_event_num s)
       else if itf_protocol =? HID_ITF_PROTOCOL_MOUSE then
         let s := if kbd_printed s then s
                  else set_printed false true
                         (ser [Txt "HID receive mouse report"; Nl] s) in
         r ← mouse_report_of report;
         Some (incr_hid_event_num (process_mouse_report r s))
       else
         r ← kbd_report_of report;
         s ← process_kbd_report r s;
         Some (incr_hid_event_num s));
  Some (if rearmed then s
        else ser [Txt "Error: cannot request to receive report"; Nl] s).

End HidMonitor.

Definition tuh_hid_umount_cb (dev_addr instance : Z) (s : State) : State :=
  let s := ser [Txt "HID device address = "; Dec dev_addr; Txt ", instance = ";
                Dec instance; Txt (" unmounted" +:+ String (Ascii.ascii_of_nat 13) nl)] s in
  set_hid_event_num 0 (set_hid_reported false (set_hid_sent false s)).

Definition protocol_str : list string := ["None"; "Keyboard"; "Mouse"].

(** [protocol_str[itf_protocol]] is read without a check on the index. *)
Definition tuh_hid_mount_cb (dev_addr instance vid pid itf_protocol : Z)
    (rearmed : bool) (s : State) : option State :=
  let s := setNeoColor 255 0 0 (printout (nl +:+ "[!!] HID Device") s) in
  name ← protocol_str !! Z.to_nat itf_protocol;
  let s := ser [Txt "HID device address = "; Dec dev_addr; Txt ", instance = ";
                Dec instance; Txt " mounted"; Nl;
                Txt "VID = "; Hex vid; Txt ", PID = "; Hex pid; Nl;
                Txt "HID Interface Protocol = "; Txt name; Nl] s in
  Some (if rearmed then s
        else ser [Txt "Error: cannot request to receive report"; Nl] s).

Definition tuh_msc_mount_cb (dev_addr : Z) (s : State) : State :=
  ser [Txt "Mass Device attached, address = "; Dec dev_addr; Nl]
    (setNeoColor 0 255 0 (printout (nl +:+ "[++] Mass Device") s)).

Definition tuh_cdc_mount_cb (idx : Z) (s : State) : State :=
  ser [Txt "CDC Device attached, idx = "; Dec idx; Nl]
    (setNeoColor 0 255 0 (printout (nl +:+ "[++] CDC Device") s)).

(** ** The firmware as a machine

    An event is one activation of an entry point of the sketch: a pass of
    [loop] on core 0, a turn of the delay loop that follows a failed self
    test, the interrupt of the kill pin, or a callback of the USB device or
    host stack.  The storage callbacks exist for the host only once
    [usb_msc.begin()] has been called.  The callbacks that print descriptors
    work on [dev_info] and the serial port only and are left out. *)

Inductive event :=
| EvLoop (i : loop_in)
| EvDelay
| EvKiller (pin : bool)
| EvRead (lba : Z) (buffer : bytes) (bufsize : Z)
| EvWrite (lba : Z) (buffer : bytes) (bufsize : Z)
| EvFlush
| EvHidMount (dev_addr instance vid pid itf_protocol : Z) (rearmed : bool)
| EvHidReport (itf_protocol : Z) (report : bytes) (rearmed : bool)
| EvHidUmount (dev_addr instance : Z)
| EvMscMount (dev_addr : Z)
| EvCdcMount (idx : Z).

Definition machine : Type := core0 * State.

Definition zero_kbd_report : hid_keyboard_report_t :=
  {| modifier := 0; reserved := 0; keycode := [0; 0; 0; 0; 0; 0] |}.

Definition zero_mouse_report : hid_mouse_report_t :=
  {| buttons := 0; mouse_x := 0; mouse_y := 0; wheel := 0; pan := 0 |}.

(** The globals as their initialisers leave them; [image] is the content
    of [msc_disk] given in [ramdisk.h]. *)
Definition power_on (image : bytes) : State :=
  {| readme := false; autorun := false; written := false; deleted := false;
     written_reported := false; deleted_reported := false;
     hid_sent := false; hid_reported := false; usbkiller := false;
     hid_event_num := 0; msc_disk := image;
     display_queue := queue_init 0; rst_prev := true;
     kbd_printed := false; mouse_printed := false;
     kbd_prev_report := zero_kbd_report; mouse_prev_report := zero_mouse_report;
     msc_begun := false; oled := []; serial := []; pixel := [] |}.

Section Machine.

Variable XXH32 : bytes -> Z -> Z.
Variable keycode2ascii : list (Z * Z).

(** The machine after [setup] has run on the power-on state. *)
Definition boot (image : bytes) : option machine :=
  r ← setup XXH32 (power_on image); Some (snd r, fst r).

Inductive step : machine -> event -> machine -> Prop :=
| step_loop i s s' c :
    loop i s = (s', c) -> step (Looping, s) (EvLoop i) (c, s')
| step_delay s :
    step (Stopped, s) EvDelay (Stopped, s)
| step_killer c pin s :
    step (c, s) (EvKiller pin) (c, detectUSBKiller pin s)
| step_read c lba buffer bufsize s s' buffer' r :
    msc_begun s = true ->
    msc_read_callback lba buffer bufsize s = Some (s', buffer', r) ->
    step (c, s) (EvRead lba buffer bufsize) (c, s')
| step_write c lba buffer bufsize s s' r :
    msc_begun s = true ->
    msc_write_callback lba buffer bufsize s = Some (s', r) ->
    step (c, s) (EvWrite lba buffer bufsize) (c, s')
| step_flush c s :
    msc_begun s = true ->
    step (c, s) EvFlush (c, msc_flush_callback s)
| step_hid_mount c a i v p itf ok s s' :
    tuh_hid_mount_cb a i v p itf ok s = Some s' ->
    step (c, s) (EvHidMount a i v p itf ok) (c, s')
| step_hid_report c itf report ok s s' :
    tuh_hid_report_received_cb keycode2ascii itf report ok s = Some s' ->
    step (c, s) (EvHidReport itf report ok) (c, s')
| step_hid_umount c a i s :
    step (c, s) (EvHidUmount a i) (c, tuh_hid_umount_cb a i s)
| step_msc_mount c a s :
    step (c, s) (EvMscMount a) (c, tuh_msc_mount_cb a s)
| step_cdc_mount c idx s :
    step (c, s) (EvCdcMount idx) (c, tuh_cdc_mount_cb idx s).

(** A run: the events in order, from one machine state to another. *)
Inductive run : machine -> list event -> machine -> Prop :=
| run_nil m : run m [] m
| run_cons m e m' tr m'' : step m e m' -> run m' tr m'' -> run m (e :: tr) m''.

End Machine.

(** How often the display was handed the string [msg]. *)
Definition shown (msg : string) (s : State) : nat :=
  length (filter (fun x => x = msg) (oled s)).

Definition MSG_WRITING : string := nl +:+ "[!] WRITING".
Definition MSG_DELETING : string := nl +:+ "[!] DELETING".
Definition MSG_README : string := nl +:+ "[!] README (R)".
Definition MSG_AUTORUN : string := nl +:+ "[+] AUTORUN (R)".

(** ** Definitions used by the statements *)

Definition blank_disk : bytes := repeat 0 (Z.to_nat (DISK_BLOCK_NUM * DISK_BLOCK_SIZE)).

(** A directory sector in which the entry at offset 64 is marked deleted. *)
Definition tombstone_sector : bytes := <[64%nat := 0xE5]> (repeat 0 512%nat).

(** A backing image whose every byte is 0xAA. *)
Definition marked_disk : bytes := repeat 0xAA (Z.to_nat (DISK_BLOCK_NUM * DISK_BLOCK_SIZE)).

(** The object a C string with the characters [chars] lies in. *)
Definition terminated (chars : bytes) : bytes := chars ++ [0].

(** The string a message holds once [str] was copied into it. *)
Definition truncated (str : bytes) : bytes := take (DISPLAY_TEXT_SIZE - 1) (c_str str).

(** The message [enqueue_display] builds from the string at [str]. *)
Definition DisplayMsg_of (str : bytes) : DisplayMsg :=
  {| text := truncated str ++
             repeat 0 (DISPLAY_TEXT_SIZE - 1 - length (c_str str)) ++ [0] |}.

(** Pushing the strings of a list, oldest first. *)
Fixpoint enqueue_all (strs : list bytes) (s : State) : option State :=
  match strs with
  | [] => Some s
  | str :: rest => s' ← enqueue_display str s; enqueue_all rest s'
  end.

(** Seventeen one-letter strings, "A" to "Q". *)
Definition seventeen : list bytes := map (fun n => [65 + Z.of_nat n]) (seq 0 17).

(** The part of the state the reports of [loop] and the boot depend on. *)
Definition report_view (s : State)
    : list string * queue_t * bool * bool * bool :=
  (oled s, display_queue s, written_reported s, deleted_reported s, msc_begun s).

(** What the blocks of [loop] leave alone: the queue, the storage gate and
    the state of a block that comes later in the pass. *)
Definition same_flags (s s' : State) : Prop :=
  display_queue s' = display_queue s /\ msc_begun s' = msc_begun s /\
  hid_event_num s' = hid_event_num s.

(** The six reports in a row. *)
Definition loop_reports (s : State) : State :=
  report_hid (report_written (report_deleted
    (report_autorun (report_readme (report_usbkiller s))))).

(** Invariant of the reports: the queue is empty (nothing in the sketch
    calls [enqueue_display]), and each of the two one-shot reports has been
    shown exactly when its [_reported] flag is set. *)
Definition notified_once (s : State) : Prop :=
  q_items (display_queue s) = [] /\
  shown MSG_WRITING s = Nat.b2n (written_reported s) /\
  shown MSG_DELETING s = Nat.b2n (deleted_reported s).

(** Events that are neither a pass of [loop] nor a storage callback. *)
Definition core0_idle (e : event) : Prop :=
  match e with
  | EvLoop _ | EvRead _ _ _ | EvWrite _ _ _ | EvFlush => False
  | _ => True
  end.

(** Two stand-ins for the hash, one that accepts every image and one that
    accepts none. *)
Definition accepting_hash (input : bytes) (seed : Z) : Z := valid_hash.
Definition rejecting_hash (input : bytes) (seed : Z) : Z := seed.

(** A code unit as two bytes, low byte first. *)
Definition le16 (u : Z) : bytes := [u mod 256; u / 256].

(** A USB string descriptor: total length, type 3, then the code units. *)
Definition string_descriptor (units : list Z) : bytes :=
  [2 + 2 * Z.of_nat (length units); 3] ++ flat_map le16 units.

(** What the specification says the decoder leaves in the buffer for the
    code units [units]: the UTF-8 bytes of each unit, then a terminator. *)
Definition claimed_decoding (units : list Z) : bytes :=
  flat_map utf8_encode units ++ [0].

(** The memory that follows [manufacturer] in [dev_info_t]: [product],
    [serial], [mounted] and a padding byte, filled with marks. *)
Definition after_manufacturer : bytes :=
  repeat 0x11 96%nat ++ repeat 0x22 32%nat ++ [1; 0].

(** Rows 0x00 to 0x1D of [HID_KEYCODE_TO_ASCII]: four empty rows, then the
    letters, plain and shifted. *)
Definition letter_rows : list (Z * Z) :=
  repeat (0, 0) 4 ++ map (fun n => (97 + Z.of_nat n, 65 + Z.of_nat n)) (seq 0 26).

(** Number of fresh key presses a report carries. *)
Definition fresh_presses (prev report : hid_keyboard_report_t) : nat :=
  length (List.filter (fresh_key prev) (take 6 (keycode report))).

(** A report carries CTRL. *)
Definition has_ctrl (report : hid_keyboard_report_t) : bool :=
  negb (Z.land (modifier report)
          (Z.lor KEYBOARD_MODIFIER_LEFTCTRL KEYBOARD_MODIFIER_RIGHTCTRL) =? 0).

(** Keyboard reports handed to [process_kbd_report] one after the other. *)
Fixpoint process_kbd_reports (k2a : list (Z * Z))
    (reports : list hid_keyboard_report_t) (s : State) : option State :=
  match reports with
  | [] => Some s
  | r :: rest => s1 ← process_kbd_report k2a r s; process_kbd_reports k2a rest s1
  end.

(** Reports as they arrive: protocol, endpoint buffer, answer of the
    re-arming call. *)
Fixpoint receive_reports (k2a : list (Z * Z))
    (reports : list (Z * bytes * bool)) (s : State) : option State :=
  match reports with
  | [] => Some s
  | (itf, report, ok) :: rest =>
      s1 ← tuh_hid_report_received_cb k2a itf report ok s;
      receive_reports k2a rest s1
  end.

(** The buffer holds a keyboard report whose key codes index the table. *)
Definition report_fits (k2a : list (Z * Z)) (report : bytes) : Prop :=
  exists r, kbd_report_of report = Some r /\
            Forall (fun kc => (Z.to_nat kc < length k2a)%nat) (keycode r).

(** The buffer holds what the branch of the callback for the protocol
    [itf] reads: for a mouse the five bytes of a mouse report, for a
    keyboard or any other protocol a keyboard report whose key codes index
    the table. *)
Definition report_in_bounds (k2a : list (Z * Z)) (itf : Z) (report : bytes) : Prop :=
  if itf =? HID_ITF_PROTOCOL_KEYBOARD then report_fits k2a report
  else if itf =? HID_ITF_PROTOCOL_MOUSE then (5 <= length report)%nat
  else report_fits k2a report.

(** Two reports that differ at most in the two CTRL bits. *)
Definition same_but_ctrl (r r' : hid_keyboard_report_t) : Prop :=
  keycode r' = keycode r /\ Z.land (modifier r') 0xEE = Z.land (modifier r) 0xEE.

(** The claim about the counter, as the specification words it: a report
    adds its number of fresh key presses to [hid_event_num]. *)
Definition claimed_key_event_counter (k2a : list (Z * Z)) : Prop :=
  forall itf report ok r s s',
    kbd_report_of report = Some r ->
    tuh_hid_report_received_cb k2a itf report ok s = Some s' ->
    hid_event_num s' = hid_event_num s + Z.of_nat (fresh_presses (kbd_prev_report s) r).

(** The end of the claim about the CTRL filter, as the specification words
    it: once a fresh key press has arrived without CTRL, the next fresh
    press that carries CTRL is printed with the prefix. *)
Definition claimed_ctrl_prefix_returns (k2a : list (Z * Z)) : Prop :=
  forall prev plain ctrl out,
    (0 < fresh_presses prev plain)%nat -> has_ctrl plain = false ->
    (0 < fresh_presses plain ctrl)%nat -> has_ctrl ctrl = true ->
    kbd_slots k2a plain ctrl (take 6 (keycode ctrl)) = Some out ->
    In (Txt "CTRL+") out.

Definition key_report (modifier_bits kc : Z) : hid_keyboard_report_t :=
  {| modifier := modifier_bits; reserved := 0; keycode := [kc; 0; 0; 0; 0; 0] |}.

(** A pass of [loop] with no button touched. *)
Definition idle_pass : loop_in := {| btn_rst := true; bootsel := None |}.

(** A host that writes block 400 twice, with a pass of [loop] after each
    write. *)
Definition two_writes : list event :=
  [EvWrite 400 [] 512; EvLoop idle_pass; EvWrite 400 [] 512; EvLoop idle_pass].

(** ** The HID monitor of the later revision

    The text of [Software/README.md] is followed by a later revision of the
    sketch (firmware 0.4.0), in which [process_kbd_report] counts the
    reports that carry CTRL, filters the CTRL prefix, and counts the fresh
    key presses in [last_device.hid_events].  This module follows that
    function.  Its call [update_hid_speed()] reads the clock and updates the
    globals of the rate detector, which the function does not read; it
    prints nothing and is left out. *)

Module Rev040.

Definition CTRL_SPURIOUS_THRESHOLD : Z := 3.

(** Usage codes of TinyUSB's [hid.h]. *)
Definition HID_KEY_ENTER : Z := 0x28.
Definition HID_KEY_KEYPAD_ENTER : Z := 0x58.
Definition HID_KEY_CONTROL_LEFT : Z := 0xE0.
Definition HID_KEY_ALT_LEFT : Z := 0xE2.
Definition HID_KEY_GUI_LEFT : Z := 0xE3.
Definition HID_KEY_CONTROL_RIGHT : Z := 0xE4.
Definition HID_KEY_ALT_RIGHT : Z := 0xE6.
Definition HID_KEY_GUI_RIGHT : Z := 0xE7.

(** The cases of the [switch] of [get_special_key_marker]. *)
Definition special_key_markers : list (Z * string) :=
  [ (0x4F, "<ARROWRIGHT>"); (0x50, "<ARROWLEFT>"); (0x51, "<ARROWDOWN>");
    (0x52, "<ARROWUP>");
    (0x4A, "<HOME>"); (0x4D, "<END>"); (0x4B, "<PAGEUP>"); (0x4E, "<PAGEDOWN>");
    (0x49, "<INSERT>"); (0x4C, "<DEL>");
    (0x3A, "<F1>"); (0x3B, "<F2>"); (0x3C, "<F3>"); (0x3D, "<F4>");
    (0x3E, "<F5>"); (0x3F, "<F6>"); (0x40, "<F7>"); (0x41, "<F8>");
    (0x42, "<F9>"); (0x43, "<F10>"); (0x44, "<F11>"); (0x45, "<F12>");
    (0x59, "1"); (0x5A, "2"); (0x5B, "3"); (0x5C, "4"); (0x5D, "5");
    (0x5E, "6"); (0x5F, "7"); (0x60, "8"); (0x61, "9"); (0x62, "0");
    (0x63, "."); (0x54, "/"); (0x55, "*"); (0x56, "-"); (0x57, "+");
    (0x58, "<ENTER>");
    (0x46, "<PRNT>"); (0x47, "<SCRLL>"); (0x48, "<PAUSE>"); (0x53, "<NUMLOCK>");
    (0x39, "<CAPSLOCK>"); (0x29, "<ESC>");
    (0xE0, "<CTRL>"); (0xE4, "<CTRL>"); (0xE2, "<ALT>"); (0xE6, "<ALT>");
    (0xE3, "<WIN>"); (0xE7, "<WIN>"); (0xE1, "<SHIFT>"); (0xE5, "<SHIFT>");
    (0x65, "<MENU>");
    (0x2C, " "); (0x28, "<ENTER>"); (0x2B, "<TAB>"); (0x2A, "<BACKSPACE>") ].

(** [None] is the [NULL] of the [default] case. *)
Definition get_special_key_marker (code : Z) : option string :=
  snd <$> List.find (fun row => fst row =? code) special_key_markers.

(** The statics of [process_kbd_report], the counter
    [last_device.hid_events] (a [uint16_t]) and the serial output. *)
Record kbd_state := {
  prev_report : hid_keyboard_report_t;
  ctrl_seq_count : Z;
  ctrl_is_spurious : bool;
  hid_events : Z;
  printed : list sout
}.

Definition print (out : list sout) (st : kbd_state) : kbd_state :=
  {| prev_report := prev_report st; ctrl_seq_count := ctrl_seq_count st;
     ctrl_is_spurious := ctrl_is_spurious st; hid_events := hid_events st;
     printed := printed st ++ out |}.

(** [(m & mask) != 0]. *)
Definition bit_set (m mask : Z) : bool := negb (Z.land m mask =? 0).

Definition CTRL_BITS : Z := Z.lor KEYBOARD_MODIFIER_LEFTCTRL KEYBOARD_MODIFIER_RIGHTCTRL.
Definition GUI_BITS : Z := Z.lor KEYBOARD_MODIFIER_LEFTGUI KEYBOARD_MODIFIER_RIGHTGUI.
Definition ALT_BITS : Z := Z.lor KEYBOARD_MODIFIER_LEFTALT KEYBOARD_MODIFIER_RIGHTALT.
Definition SHIFT_BITS : Z := Z.lor KEYBOARD_MODIFIER_LEFTSHIFT KEYBOARD_MODIFIER_RIGHTSHIFT.

(** [m &= ~mask] on a byte. *)
Definition clear_bits (m mask : Z) : Z := Z.land m (Z.lxor 0xFF mask).

Definition report_has_ctrl (report : hid_keyboard_report_t) : bool :=
  bit_set (modifier report) CTRL_BITS.

Definition report_has_key (report : hid_keyboard_report_t) : bool :=
  existsb (fun k => negb (k =? 0)) (take 6 (keycode report)).

(** The spurious-CTRL detection at the head of the function. *)
Definition ctrl_detection (show_hid_debug : bool) (report : hid_keyboard_report_t)
    (st : kbd_state) : kbd_state :=
  if report_has_key report then
    if report_has_ctrl report then
      let count := if ctrl_seq_count st <? 255 then ctrl_seq_count st + 1
                   else ctrl_seq_count st in
      if negb (ctrl_is_spurious st) && (CTRL_SPURIOUS_THRESHOLD <=? count)
      then {| prev_report := prev_report st; ctrl_seq_count := count;
              ctrl_is_spurious := true; hid_events := hid_events st;
              printed := printed st ++ [Txt " [CTRL-filtered]"] |}
      else {| prev_report := prev_report st; ctrl_seq_count := count;
              ctrl_is_spurious := ctrl_is_spurious st; hid_events := hid_events st;
              printed := printed st |}
    else
      {| prev_report := prev_report st; ctrl_seq_count := 0;
         ctrl_is_spurious := false; hid_events := hid_events st;
         printed := printed st ++
                    (if ctrl_is_spurious st && show_hid_debug
                     then [Txt " [CTRL-filter-off]"] else []) |}
  else st.

(** [has_output] for the key code and its character. *)
Definition has_output (keycode ch : Z) : bool :=
  let is_special :=
    match get_special_key_marker keycode with Some _ => true | None => false end in
  let is_printable := negb is_special && ((0x20 <=? ch) && (ch <? 0x7F)) in
  let is_ctrl_char :=
    negb is_special && negb is_printable &&
    ((ch =? 13) || (ch =? 9) || (ch =? 8) || (ch =? 0x1B)) in
  is_special || is_printable || is_ctrl_char.

(** What is printed for a fresh key, after the debug token: nothing when
    the key has no display form ([continue]), else the prefixes and the
    key. *)
Definition key_output (spurious : bool) (modifier_byte keycode ch : Z) : list sout :=
  let m := modifier_byte in
  let m := if (keycode =? HID_KEY_CONTROL_LEFT) || (keycode =? HID_KEY_CONTROL_RIGHT)
           then clear_bits m CTRL_BITS else m in
  let m := if (keycode =? HID_KEY_GUI_LEFT) || (keycode =? HID_KEY_GUI_RIGHT)
           then clear_bits m GUI_BITS else m in
  let m := if (keycode =? HID_KEY_ALT_LEFT) || (keycode =? HID_KEY_ALT_RIGHT)
           then clear_bits m ALT_BITS else m in
  let is_ctrl := bit_set m CTRL_BITS in
  let is_gui := bit_set m GUI_BITS in
  let is_alt := bit_set m ALT_BITS in
  if negb (has_output keycode ch) then [] else
  let print_ctrl := is_ctrl && negb spurious in
  (if print_ctrl then [Txt "CTRL+"] else []) ++
  (if is_gui then [Txt "GUI+"] else []) ++
  (if is_alt then [Txt "ALT+"] else []) ++
  match get_special_key_marker keycode with
  | Some marker =>
      Txt marker ::
      (if (keycode =? HID_KEY_ENTER) || (keycode =? HID_KEY_KEYPAD_ENTER)
       then [Txt nl] else [])
  | None =>
      if (0x20 <=? ch) && (ch <? 0x7F) then [Chr ch]
      else if ch =? 13 then [Txt ("<ENTER>" +:+ nl)]
      else if ch =? 9 then [Txt "<TAB>"]
      else if ch =? 8 then [Txt "<BACKSPACE>"]
      else if ch =? 0x1B then [Txt "<ESC>"]
      else []
  end.

Section Monitor.

(** [keycode2ascii[128][2]] and the toggle [show_hid_debug]. *)
Variable keycode2ascii : list (Z * Z).
Variable show_hid_debug : bool.

(** One slot of the [for] over the six key codes. *)
Definition kbd_slot (report : hid_keyboard_report_t) (kc : Z) (st : kbd_state)
    : option kbd_state :=
  if fresh_key (prev_report st) kc then
    let st := if show_hid_debug then print [Txt "[key=0x"; Hex kc; Txt "]"] st else st in
    let st := {| prev_report := prev_report st; ctrl_seq_count := ctrl_seq_count st;
                 ctrl_is_spurious := ctrl_is_spurious st;
                 hid_events := u16 (hid_events st + 1); printed := printed st |} in
    row ← keycode2ascii !! Z.to_nat kc;
    let ch := if bit_set (modifier report) SHIFT_BITS then snd row else fst row in
    Some (print (key_output (ctrl_is_spurious st) (modifier report) kc ch) st)
  else Some st.

Fixpoint kbd_slots (report : hid_keyboard_report_t) (keys : list Z) (st : kbd_state)
    : option kbd_state :=
  match keys with
  | [] => Some st
  | kc :: rest => st ← kbd_slot report kc st; kbd_slots report rest st
  end.

Definition process_kbd_report (report : hid_keyboard_report_t) (st : kbd_state)
    : option kbd_state :=
  let st := ctrl_detection show_hid_debug report st in
  let st := if show_hid_debug && negb (modifier report =? 0)
            then print [Txt "[mod=0x"; Hex (modifier report); Txt "]"] st else st in
  st ← kbd_slots report (take 6 (keycode report)) st;
  Some {| prev_report := report; ctrl_seq_count := ctrl_seq_count st;
          ctrl_is_spurious := ctrl_is_spurious st; hid_events := hid_events st;
          printed := printed st |}.

(** Reports handed to the function one after the other. *)
Fixpoint process_kbd_reports (reports : list hid_keyboard_report_t) (st : kbd_state)
    : option kbd_state :=
  match reports with
  | [] => Some st
  | r :: rest => st ← process_kbd_report r st; process_kbd_reports rest st
  end.

End Monitor.

(** The statics as their initialisers leave them. *)
Definition kbd_start : kbd_state :=
  {| prev_report := zero_kbd_report; ctrl_seq_count := 0; ctrl_is_spurious := false;
     hid_events := 0; printed := [] |}.

(** A report that is not a key press without CTRL. *)
Definition no_plain_press (r : hid_keyboard_report_t) : Prop :=
  report_has_key r = true -> report_has_ctrl r = true.

(** Number of reports of a list that hold a key. *)
Definition key_reports (rs : list hid_keyboard_report_t) : nat :=
  length (List.filter report_has_key rs).

(** Number of fresh key presses of a list of reports that follows the
    report [prev]. *)
Fixpoint fresh_presses_of (prev : hid_keyboard_report_t)
    (rs : list hid_keyboard_report_t) : nat :=
  match rs with
  | [] => 0%nat
  | r :: rest => (fresh_presses prev r + fresh_presses_of r rest)%nat
  end.

(** The key [kc] of a report with modifier byte [m] has a display form and
    is no CTRL key. *)
Definition displayed_key (keycode2ascii : list (Z * Z)) (m kc : Z) : Prop :=
  exists row,
    keycode2ascii !! Z.to_nat kc = Some row /\
    has_output kc (if bit_set m SHIFT_BITS then snd row else fst row) = true /\
    kc <> HID_KEY_CONTROL_LEFT /\ kc <> HID_KEY_CONTROL_RIGHT.

(** ** The table of suspicious devices *)

(** [suspicious_device_t]; [name] is [None] for the [NULL] of the end
    marker. *)
Record suspicious_device_t := {
  vid : Z;
  pid : Z;
  name : option string
}.

Definition SUSPICIOUS_DEVICES : list suspicious_device_t :=
  [ {| vid := 0x05AC; pid := 0x0000; name := Some "Apple(Spoof?)" |};
    {| vid := 0x16C0; pid := 0x0477; name := Some "DigiSpark" |};
    {| vid := 0x16C0; pid := 0x05DF; name := Some "USBasp/Digi" |};
    {| vid := 0x16C0; pid := 0x27DB; name := Some "HID Digi" |};
    {| vid := 0x16C0; pid := 0x27DA; name := Some "CDC Digi" |};
    {| vid := 0x16C0; pid := 0x0486; name := Some "Teensy HID" |};
    {| vid := 0x16C0; pid := 0x0487; name := Some "Teensy MIDI" |};
    {| vid := 0x16C0; pid := 0x0488; name := Some "Teensy Serial" |};
    {| vid := 0x16C0; pid := 0x04D0; name := Some "Teensy40 HID" |};
    {| vid := 0x16C0; pid := 0x04D1; name := Some "Teensy40 Ser" |};
    {| vid := 0x2341; pid := 0x8036; name := Some "Arduino Leo" |};
    {| vid := 0x2341; pid := 0x8037; name := Some "Arduino Micro" |};
    {| vid := 0x2341; pid := 0x0036; name := Some "Arduino Leo BL" |};
    {| vid := 0x2341; pid := 0x0037; name := Some "Arduino Micro BL" |};
    {| vid := 0x1B4F; pid := 0x9205; name := Some "ProMicro 5V" |};
    {| vid := 0x1B4F; pid := 0x9206; name := Some "ProMicro 3.3V" |};
    {| vid := 0x1B4F; pid := 0x9207; name := Some "LilyPad USB" |};
    {| vid := 0x1B4F; pid := 0x0000; name := Some "Malduino?" |};
    {| vid := 0x0483; pid := 0x5740; name := Some "Flipper Zero" |};
    {| vid := 0x046D; pid := 0xC52B; name := Some "Logitech(OMG?)" |};
    {| vid := 0x1A86; pid := 0x7523; name := Some "CH340" |};
    {| vid := 0x1A86; pid := 0x5523; name := Some "CH341" |};
    {| vid := 0x0525; pid := 0xA4A6; name := Some "USBarmory" |};
    {| vid := 0x0525; pid := 0xA4A7; name := Some "LAN Turtle?" |};
    {| vid := 0x2E8A; pid := 0x0005; name := Some "RPi Pico HID" |};
    {| vid := 0x303A; pid := 0x0002; name := Some "ESP32-S2" |};
    {| vid := 0x303A; pid := 0x1001; name := Some "ESP32-S3" |};
    {| vid := 0x0557; pid := 0x2008; name := Some "ATEN Serial" |};
    {| vid := 0x0000; pid := 0x0000; name := None |} ].

(** [sizeof(SUSPICIOUS_DEVICES) / sizeof(SUSPICIOUS_DEVICES[0]) - 1]. *)
Definition SUSPICIOUS_COUNT : nat := (length SUSPICIOUS_DEVICES - 1)%nat.

(** The test of one row against the identifiers of a device. *)
Definition row_matches (v p : Z) (dev : suspicious_device_t) : bool :=
  (vid dev =? v) && ((pid dev =? 0x0000) || (pid dev =? p)).

(** The loop of [check_suspicious_device] over the rows [i, i+1, ...] that
    are left, [rows] being the rows below [SUSPICIOUS_COUNT]; the result
    is the [name] pointer of the first row that matches, [None] for
    [NULL]. *)
Fixpoint check_rows (v p : Z) (rows : list suspicious_device_t) : option string :=
  match rows with
  | [] => None
  | dev :: rest =>
      if vid dev =? v
      then if (pid dev =? 0x0000) || (pid dev =? p)
           then name dev
           else check_rows v p rest
      else check_rows v p rest
  end.

Definition check_suspicious_device (v p : Z) : option string :=
  check_rows v p (take SUSPICIOUS_COUNT SUSPICIOUS_DEVICES).

End Rev040.

(** ** Definitions used by the statements about the HID monitor *)

(** The character [keycode2ascii[kc][is_shift ? 1 : 0]] of a table row. *)
Definition key_char (row : Z * Z) (modifier_bits : Z) : Z :=
  if negb (Z.land modifier_bits
             (Z.lor KEYBOARD_MODIFIER_LEFTSHIFT KEYBOARD_MODIFIER_RIGHTSHIFT) =? 0)
  then snd row else fst row.

(** A key stroke: the modifier byte and the key code. *)
Definition stroke : Type := Z * Z.

(** The reports of a text typed key by key: each key goes down alone and
    is released before the next one. *)
Definition typed (strokes : list stroke) : list hid_keyboard_report_t :=
  flat_map (fun k => [key_report (fst k) (snd k); key_report 0 0]) strokes.

(** A stroke of a plain key: a key code with a row in the table and no
    marker of [check_special_key], and neither GUI nor ALT held. *)
Definition plain_stroke (k2a : list (Z * Z)) (k : stroke) : Prop :=
  snd k <> 0 /\ (Z.to_nat (snd k) < length k2a)%nat /\
  check_special_key (snd k) = [] /\
  Z.land (fst k)
    (Z.lor (Z.lor KEYBOARD_MODIFIER_LEFTGUI KEYBOARD_MODIFIER_RIGHTGUI)
           (Z.lor KEYBOARD_MODIFIER_LEFTALT KEYBOARD_MODIFIER_RIGHTALT)) = 0.

(** What the monitor prints for a plain stroke: the character, and a line
    feed after a carriage return. *)
Definition stroke_log (k2a : list (Z * Z)) (k : stroke) : list sout :=
  let ch := key_char (default (0, 0) (k2a !! Z.to_nat (snd k))) (fst k) in
  Chr ch :: (if ch =? 13 then [Txt nl] else []).

#[global] Instance sout_eq_dec : EqDecision sout.
Proof. solve_decision. Defined.

(** How often the token [t] occurs in an output. *)
Definition printed_times (t : sout) (out : list sout) : nat :=
  length (filter (fun x => x = t) out).

Definition KBD_BANNER : sout := Txt "HID received keyboard report".
Definition MOUSE_BANNER : sout := Txt "HID receive mouse report".
Definition MOUSE_BUTTONS : sout := Txt "MOUSE: ".

(** Among the reports that arrive, the mouse reports that come before the
    first keyboard report. *)
Fixpoint mouse_before_keyboard (reports : list (Z * bytes * bool)) : nat :=
  match reports with
  | [] => 0%nat
  | (itf, _, _) :: rest =>
      if (itf =? HID_ITF_PROTOCOL_KEYBOARD)%Z then 0%nat
      else ((if (itf =? HID_ITF_PROTOCOL_MOUSE)%Z then 1 else 0) +
            mouse_before_keyboard rest)%nat
  end.

(** There is a keyboard report among the reports. *)
Definition has_keyboard_report (reports : list (Z * bytes * bool)) : bool :=
  existsb (fun r => fst (fst r) =? HID_ITF_PROTOCOL_KEYBOARD) reports.

(** A mouse report whose first byte, the buttons, is not zero. *)
Definition button_down (r : Z * bytes * bool) : bool :=
  (fst (fst r) =? HID_ITF_PROTOCOL_MOUSE) && negb (default 0 (head (snd (fst r))) =? 0).

(** ** Definitions used by the statements about [loop] *)

Definition RED : Z * Z * Z := (255, 0, 0).
Definition BLUE : Z * Z * Z := (0, 0, 255).

Definition MSG_KILLER : string := nl +:+ "[!!] USB Killer".
Definition MSG_HID : string := nl +:+ "[!!] HID Sending data".
Definition MSG_RESETTING : string := nl +:+ "[+] RESETTING".

(** The alerts a pass of [loop] has to make, in the order of its tests,
    each with the colour it sets the pixel to. *)
Definition pending_alerts (s : State) : list (string * (Z * Z * Z)) :=
  (if usbkiller s then [(MSG_KILLER, RED)] else []) ++
  (if readme s then [(MSG_README, BLUE)] else []) ++
  (if autorun s then [(MSG_AUTORUN, BLUE)] else []) ++
  (if deleted s && negb (deleted_reported s) then [(MSG_DELETING, BLUE)] else []) ++
  (if written s && negb (written_reported s) then [(MSG_WRITING, BLUE)] else []) ++
  (if hid_sent s && negb (hid_reported s) then [(MSG_HID, RED)] else []).

(** The flags the alerts depend on. *)
Definition alert_flags (s : State)
    : bool * bool * bool * bool * bool * bool * bool * bool * bool :=
  (usbkiller s, readme s, autorun s, deleted s, deleted_reported s,
   written s, written_reported s, hid_sent s, hid_reported s).

(** The texts waiting in the queue, oldest first. *)
Definition queued_texts (s : State) : list string :=
  map (fun m => string_of_bytes (c_str (text m))) (q_items (display_queue s)).

(** The pass sees [BTN_RST] go from high to low. *)
Definition reset_pressed (i : loop_in) (s : State) : bool :=
  rst_prev s && negb (btn_rst i).

(** What the BOOTSEL block of a pass shows. *)
Definition bootsel_text (i : loop_in) (s : State) : list string :=
  match bootsel i with
  | None => []
  | Some d => [if u32 d >? 2000 then hid_evt_text (hid_event_num s) else MSG_RESETTING]
  end.

(** BOOTSEL was held for at most two seconds. *)
Definition bootsel_short (i : loop_in) : bool :=
  match bootsel i with
  | None => false
  | Some d => negb (u32 d >? 2000)
  end.

(** Number of HID unmounts in a trace. *)
Fixpoint hid_umounts (tr : list event) : nat :=
  match tr with
  | [] => 0
  | EvHidUmount _ _ :: rest => S (hid_umounts rest)
  | _ :: rest => hid_umounts rest
  end.

(** The smallest image [setup] can hash: zeros up to the end of the hashed
    range. *)
Definition short_image : bytes := repeat 0 4619%nat.

(** A keyboard is plugged, types "a", is unplugged and plugged again, with
    a pass of [loop] after each report. *)
Definition two_sessions : list event :=
  [EvHidReport 1 [0; 0; 4; 0; 0; 0; 0; 0] true; EvLoop idle_pass;
   EvHidUmount 1 0;
   EvHidReport 1 [0; 0; 4; 0; 0; 0; 0; 0] true; EvLoop idle_pass].

(** ** Definitions used by the statements about [hexDump] *)

(** The two hexadecimal digits of a byte. *)
Definition hex_pair (d : Z) : list sout := [Hex (Z.shiftr d 4); Hex (Z.land d 0x0F)].

(** The character shown for a byte in the text column. *)
Definition dump_char (d : Z) : Z := if (32 <=? d) && (d <=? 126) then d else 46.

(** The numbers printed in hexadecimal, in order. *)
Fixpoint hex_digits (out : list sout) : list Z :=
  match out with
  | [] => []
  | Hex n :: rest => n :: hex_digits rest
  | _ :: rest => hex_digits rest
  end.

(** Digits read two by two, high digit first. *)
Fixpoint pair_up (digits : list Z) : bytes :=
  match digits with
  | hi :: lo :: rest => (16 * hi + lo) :: pair_up rest
  | _ => []
  end.

(** ** Device information: [dev_info], [tuh_mount_cb], [print_device_descriptor]

    [dev_info] is one array of [CFG_TUH_DEVICE_MAX] entries of [dev_info_t];
    it is modelled as the bytes of the array, so that a store that leaves a
    field lands where it lands in memory.  An entry is the 18 bytes of the
    device descriptor (a packed struct, laid out as on the wire), then the
    buffers [manufacturer] (64 bytes), [product] (96) and [serial] (32),
    then [mounted] and one byte of padding. *)

Definition DEV_INFO_SIZE : nat := 212.
Definition OFF_MANUFACTURER : nat := 18.
Definition OFF_PRODUCT : nat := 82.
Definition OFF_SERIAL : nat := 178.
Definition OFF_MOUNTED : nat := 210.
Definition SIZE_MANUFACTURER : nat := 64.
Definition SIZE_PRODUCT : nat := 96.
Definition SIZE_SERIAL : nat := 32.

(** Byte offset of [dev_info[daddr - 1]]; there is no entry before the
    first. *)
Definition dev_entry (daddr : Z) : option nat :=
  if 1 <=? daddr then Some (Z.to_nat (daddr - 1) * DEV_INFO_SIZE)%nat else None.

(** [tusb_desc_device_t]. *)
Record tusb_desc_device_t := {
  bLength : Z;
  bDescriptorType : Z;
  bcdUSB : Z;
  bDeviceClass : Z;
  bDeviceSubClass : Z;
  bDeviceProtocol : Z;
  bMaxPacketSize0 : Z;
  idVendor : Z;
  idProduct : Z;
  bcdDevice : Z;
  iManufacturer : Z;
  iProduct : Z;
  iSerialNumber : Z;
  bNumConfigurations : Z
}.

(** The descriptor held in the 18 bytes at [off]. *)
Definition desc_device_at (m : bytes) (off : nat) : option tusb_desc_device_t :=
  raw ← mem_read m off 18;
  match raw with
  | [len; ty; usb0; usb1; cls; sub; pro; mps; vid0; vid1; pid0; pid1; dev0; dev1;
     im; ip; isn; ncfg] =>
      Some {| bLength := len; bDescriptorType := ty; bcdUSB := usb0 + 256 * usb1;
              bDeviceClass := cls; bDeviceSubClass := sub; bDeviceProtocol := pro;
              bMaxPacketSize0 := mps; idVendor := vid0 + 256 * vid1;
              idProduct := pid0 + 256 * pid1; bcdDevice := dev0 + 256 * dev1;
              iManufacturer := im; iProduct := ip; iSerialNumber := isn;
              bNumConfigurations := ncfg |}
  | _ => None
  end.

Definition crlf : string := String (Ascii.ascii_of_nat 13) nl.
Definition cr : string := String (Ascii.ascii_of_nat 13) EmptyString.

Definition tuh_mount_cb (daddr : Z) (dev_info : bytes) : option (bytes * list sout) :=
  let out := [Txt "Device attached, address = "; Dec daddr; Txt crlf] in
  dev ← dev_entry daddr;
  m ← mem_set dev_info (dev + OFF_MOUNTED) 1;
  Some (m, out).

Definition tuh_umount_cb (daddr : Z) (dev_info : bytes) : option (bytes * list sout) :=
  let out := [Txt "Device removed, address = "; Dec daddr; Txt crlf] in
  dev ← dev_entry daddr;
  m ← mem_set dev_info (dev + OFF_MOUNTED) 0;
  Some (m, out).

(** The characters [%s] prints: those before the first zero byte, which
    has to come before the end of the object. *)
Fixpoint c_string (a : bytes) : option bytes :=
  match a with
  | [] => None
  | c :: rest => if c =? 0 then Some [] else s ← c_string rest; Some (c :: s)
  end.

(** One of the three string blocks of [print_device_descriptor], for the
    buffer of [size] bytes at [off].  [index] is the string index of the
    descriptor; [fetched] is what [tuh_descriptor_get_..._string_sync]
    answers when called: nothing when the transfer fails (the buffer is
    then taken to be as before), else the bytes of the descriptor, of which
    the transfer stores at most [size]. *)
Definition string_block (index : Z) (fetched : option bytes) (off size : nat) (m : bytes)
    : option (bytes * list sout) :=
  if index =? 0 then Some (m, []) else
  match fetched with
  | None => Some (m, [])
  | Some data =>
      m ← mem_write m off (take size data);
      decoded ← utf16_to_utf8 (drop off m) (Z.of_nat size);
      str ← c_string decoded;
      Some (take off m ++ decoded, [Txt " --- "] ++ map Chr str ++ [Txt cr])
  end.

(** The text of [%04x] for a 16-bit value: four hexadecimal digits, in
    lower case, with leading zeros. *)
Definition hex_digit (d : Z) : Ascii.ascii :=
  List.nth (Z.to_nat d) (String.list_ascii_of_string "0123456789abcdef") (Ascii.ascii_of_nat 48).

Definition hex4 (n : Z) : string :=
  String.string_of_list_ascii
    [hex_digit (n / 4096 mod 16); hex_digit (n / 256 mod 16);
     hex_digit (n / 16 mod 16); hex_digit (n mod 16)].

(** [xfer_ok] is [xfer->result == XFER_RESULT_SUCCESS], [daddr] is
    [xfer->daddr]. *)
Definition print_device_descriptor (xfer_ok : bool) (daddr : Z)
    (manufacturer product serial_number : option bytes) (dev_info : bytes)
    : option (bytes * list sout) :=
  if negb xfer_ok then Some (dev_info, [Txt ("Failed to get device descriptor" +:+ crlf)])
  else
    dev ← dev_entry daddr;
    desc ← desc_device_at dev_info dev;
    let out :=
      [Txt (crlf +:+ "Device "); Dec daddr; Txt ": ID "; Txt (hex4 (idVendor desc)); Txt ":";
       Txt (hex4 (idProduct desc)); Txt crlf;
       Txt ("Device Descriptor:" +:+ crlf);
       Txt "  bLength             "; Dec (bLength desc); Txt crlf;
       Txt "  bDescriptorType     "; Dec (bDescriptorType desc); Txt crlf;
       Txt "  bcdUSB              "; Txt (hex4 (bcdUSB desc)); Txt crlf;
       Txt "  bDeviceClass        "; Dec (bDeviceClass desc); Txt crlf;
       Txt "  bDeviceSubClass     "; Dec (bDeviceSubClass desc); Txt crlf;
       Txt "  bDeviceProtocol     "; Dec (bDeviceProtocol desc); Txt crlf;
       Txt "  bMaxPacketSize0     "; Dec (bMaxPacketSize0 desc); Txt crlf;
       Txt "  idVendor            0x"; Txt (hex4 (idVendor desc)); Txt crlf;
       Txt "  idProduct           0x"; Txt (hex4 (idProduct desc)); Txt crlf;
       Txt "  bcdDevice           "; Txt (hex4 (bcdDevice desc)); Txt crlf;
       Txt "  iManufacturer       "; Dec (iManufacturer desc); Txt cr] in
    r ← string_block (iManufacturer desc) manufacturer
          (dev + OFF_MANUFACTURER) SIZE_MANUFACTURER dev_info;
    let out := out ++ snd r ++
               [Txt nl; Txt "  iProduct            "; Dec (iProduct desc); Txt cr] in
    r ← string_block (iProduct desc) product (dev + OFF_PRODUCT) SIZE_PRODUCT (fst r);
    let out := out ++ snd r ++
               [Txt nl; Txt "  iSerialNumber       "; Dec (iSerialNumber desc); Txt cr] in
    r ← string_block (iSerialNumber desc) serial_number (dev + OFF_SERIAL) SIZE_SERIAL (fst r);
    let out := out ++ snd r ++
               [Txt nl; Txt "  bNumConfigurations  "; Dec (bNumConfigurations desc); Txt crlf;
                Txt ("======================================" +:+ crlf)] in
    Some (fst r, out).

(** The characters printed one by one, in order. *)
Fixpoint chars_of (out : list sout) : bytes :=
  match out with
  | [] => []
  | Chr c :: rest => c :: chars_of rest
  | _ :: rest => chars_of rest
  end.

(** A string that [manufacturer], [product] or [serial] can hold with its
    descriptor header: code units of one or two UTF-8 bytes, none zero. *)
Definition short_string (size : nat) (units : list Z) : Prop :=
  Forall (fun u => 0 < u < 0x800) units /\ (2 + 2 * length units <= size)%nat.

(** The code unit that stands at the head of a UTF-8 text, and the text
    after it: the reading that undoes [utf8_encode] (used to show that
    the output of the decoder is unambiguous). *)
Definition utf8_head (text : bytes) : option (Z * bytes) :=
  match text with
  | [] => None
  | b0 :: rest =>
      if b0 <? 0x80 then Some (b0, rest)
      else if b0 <? 0xE0 then
        match rest with
        | b1 :: rest => Some ((b0 - 0xC0) * 64 + (b1 - 0x80), rest)
        | _ => None
        end
      else
        match rest with
        | b1 :: b2 :: rest =>
            Some ((b0 - 0xE0) * 4096 + (b1 - 0x80) * 64 + (b2 - 0x80), rest)
        | _ => None
        end
  end.

(** * Properties *)

(** ** Byte memory *)

Lemma mem_read_ok (m : bytes) (off n : nat) :
  (off + n <= length m)%nat -> mem_read m off n = Some (take n (drop off m)).
Proof. intros H. unfold mem_read. destruct (decide _); [reflexivity | lia]. Qed.

Lemma mem_read_length (m data : bytes) (off n : nat) :
  mem_read m off n = Some data -> length data = n.
Proof.
  unfold mem_read. destruct (decide _) as [H|]; [|discriminate].
  intros [= <-]. rewrite length_take, length_drop. lia.
Qed.

Lemma mem_write_ok (m data : bytes) (off : nat) :
  (off + length data <= length m)%nat ->
  mem_write m off data = Some (take off m ++ data ++ drop (off + length data) m).
Proof. intros H. unfold mem_write. destruct (decide _); [reflexivity | lia]. Qed.

Lemma mem_write_length (m m' data : bytes) (off : nat) :
  mem_write m off data = Some m' -> length m' = length m.
Proof.
  unfold mem_write. destruct (decide _) as [H|]; [|discriminate].
  intros [= <-]. rewrite !length_app, length_take, length_drop. lia.
Qed.

Lemma int32_of_small (z : Z) : 0 <= z < 2 ^ 31 -> int32_of z = z.
Proof.
  intros H. unfold int32_of, u32. rewrite Z.mod_small by lia.
  destruct (Z.ltb_spec z (2 ^ 31)); [reflexivity | lia].
Qed.

(** ** Honeypot storage *)

(** Beyond the guard [lba < DISK_BLOCK_NUM - 1] a read is the two flag
    tests and the serial line, whatever the backing array holds. *)
Lemma read_beyond_guard (s : State) (lba bufsize : Z) (buffer : bytes) :
  DISK_BLOCK_NUM - 1 <= lba ->
  msc_read_callback lba buffer bufsize s =
    Some (ser [Txt "Read LBA: "; Dec lba; Txt "   Size: "; Dec bufsize; Nl] s,
          buffer, int32_of bufsize).
Proof.
  intros H. unfold msc_read_callback, DISK_BLOCK_NUM, BLOCK_README, BLOCK_AUTORUN in *.
  destruct (Z.eqb_spec lba 100); [lia|].
  destruct (Z.eqb_spec lba 102); [lia|].
  destruct (Z.ltb_spec lba (336 - 1)); [lia|]. reflexivity.
Qed.

Lemma write_beyond_guard (s : State) (lba bufsize : Z) (buffer : bytes) :
  DISK_BLOCK_NUM - 1 <= lba ->
  msc_write_callback lba buffer bufsize s =
    Some (ser [Txt "Write LBA: "; Dec lba; Txt "   Size: "; Dec bufsize; Nl]
            (set_written true s), int32_of bufsize).
Proof.
  intros H. unfold msc_write_callback, DISK_BLOCK_NUM in *.
  destruct (Z.eqb_spec lba 7); [lia|].
  destruct (Z.gtb_spec lba 10); [|lia].
  destruct (Z.ltb_spec lba (336 - 1)); [lia|]. reflexivity.
Qed.

(** C1.  A read or a write of a block index at or beyond [DISK_BLOCK_NUM]
    never touches [msc_disk]: for every state, hence for every content and
    size of the backing array (an access to it would be a fault on an array
    too short), the callback returns, the read hands back the caller's
    buffer as it was, the write leaves the backing array as it was, and the
    result is the requested size [bufsize]. *)
Theorem out_of_range_block_is_bounded
    (s : State) (lba bufsize : Z) (buffer : bytes) :
  DISK_BLOCK_NUM <= lba ->
  0 <= bufsize < 2 ^ 31 ->
  (exists s', msc_read_callback lba buffer bufsize s = Some (s', buffer, bufsize) /\
              msc_disk s' = msc_disk s) /\
  (exists s', msc_write_callback lba buffer bufsize s = Some (s', bufsize) /\
              msc_disk s' = msc_disk s).
Proof.
  intros Hlba Hsize. split; eexists; split.
  - rewrite read_beyond_guard by lia. rewrite int32_of_small by lia. reflexivity.
  - reflexivity.
  - rewrite write_beyond_guard by lia. rewrite int32_of_small by lia. reflexivity.
  - reflexivity.
Qed.

Lemma out_of_range_block_is_bounded_witness :
  (exists s', msc_read_callback 0x150 [1; 2; 3] 512 (power_on []) = Some (s', [1; 2; 3], 512) /\
              msc_disk s' = []) /\
  (exists s', msc_write_callback 0x150 [1; 2; 3] 512 (power_on []) = Some (s', 512) /\
              msc_disk s' = []).
Proof.
  apply (out_of_range_block_is_bounded (power_on []) 0x150 512 [1; 2; 3]).
  - unfold DISK_BLOCK_NUM. lia.
  - lia.
Defined.

(** Below the guard a one-block read copies the block into the buffer. *)
Lemma read_below_guard (s : State) (lba bufsize : Z) (buffer : bytes) :
  one_block_request s lba buffer bufsize ->
  lba < DISK_BLOCK_NUM - 1 ->
  exists s', msc_read_callback lba buffer bufsize s = Some (s', disk_block s lba, bufsize) /\
             readme s' = readme s || (lba =? BLOCK_README) /\
             autorun s' = autorun s || (lba =? BLOCK_AUTORUN) /\
             written s' = written s /\ deleted s' = deleted s /\
             msc_disk s' = msc_disk s.
Proof.
  intros (Hlba & -> & Hbuf & Hdisk) Hin.
  unfold msc_read_callback, disk_block.
  destruct (Z.ltb_spec lba (DISK_BLOCK_NUM - 1)) as [_|]; [|lia].
  assert (Hfit : (block_addr lba + Z.to_nat DISK_BLOCK_SIZE <= length (msc_disk s))%nat).
  { rewrite Hdisk. unfold block_addr, DISK_BLOCK_NUM, DISK_BLOCK_SIZE in *. lia. }
  assert (Hdump : (block_addr lba + Z.to_nat MAX_DUMP_BYTES <= length (msc_disk s))%nat).
  { unfold MAX_DUMP_BYTES, DISK_BLOCK_SIZE in *. lia. }
  set (data := take (Z.to_nat DISK_BLOCK_SIZE) (drop (block_addr lba) (msc_disk s))).
  assert (Hlen : length data = Z.to_nat DISK_BLOCK_SIZE).
  { subst data. rewrite length_take, length_drop. lia. }
  assert (Hw : mem_write buffer 0 data = Some data).
  { rewrite mem_write_ok by lia.
    rewrite take_0, Nat.add_0_l, drop_ge by lia. cbn [app]. rewrite app_nil_r. reflexivity. }
  destruct (lba =? BLOCK_README), (lba =? BLOCK_AUTORUN); cbn -[hexDump Z.to_nat];
    rewrite !mem_read_ok by assumption; cbn -[hexDump Z.to_nat]; fold data;
    rewrite Hw; cbn -[hexDump Z.to_nat];
    (eexists; split;
     [rewrite int32_of_small by (unfold DISK_BLOCK_SIZE; lia); reflexivity
     | cbn; rewrite ?orb_true_r, ?orb_false_r; auto]).
Qed.

(** The three tombstone tests on a buffer that holds a whole block. *)
Lemma tombstone_tests (buffer : bytes) :
  length buffer = Z.to_nat DISK_BLOCK_SIZE ->
  or_else (byte_is buffer 32 0xE5)
    (or_else (byte_is buffer 64 0xE5) (byte_is buffer 160 0xE5)) =
  Some ((default 0 (buffer !! 32%nat) =? 0xE5) ||
        (default 0 (buffer !! 64%nat) =? 0xE5) ||
        (default 0 (buffer !! 160%nat) =? 0xE5)).
Proof.
  intros Hlen. unfold DISK_BLOCK_SIZE in Hlen.
  destruct (lookup_lt_is_Some_2 buffer 32) as [b32 H32]; [lia|].
  destruct (lookup_lt_is_Some_2 buffer 64) as [b64 H64]; [lia|].
  destruct (lookup_lt_is_Some_2 buffer 160) as [b160 H160]; [lia|].
  unfold or_else, byte_is. rewrite H32, H64, H160. cbn.
  destruct (b32 =? 229), (b64 =? 229), (b160 =? 229); reflexivity.
Qed.

(** The state and result of a one-block write below the guard. *)
(** The first step of a chain of fallible steps succeeded. *)
Lemma bind_Some {A B : Type} (f : A -> option B) (x : A) : Some x ≫= f = f x.
Proof. reflexivity. Qed.

Lemma write_below_guard (s : State) (lba bufsize : Z) (buffer : bytes) :
  one_block_request s lba buffer bufsize ->
  lba < DISK_BLOCK_NUM - 1 ->
  exists s', msc_write_callback lba buffer bufsize s = Some (s', bufsize) /\
             deleted s' = deleted s ||
               ((lba =? 7) && ((default 0 (buffer !! 32%nat) =? 0xE5) ||
                               (default 0 (buffer !! 64%nat) =? 0xE5) ||
                               (default 0 (buffer !! 160%nat) =? 0xE5))) /\
             written s' = written s || (lba >? 10) /\
             readme s' = readme s /\ autorun s' = autorun s /\
             length (msc_disk s') = length (msc_disk s) /\
             disk_block s' lba = buffer.
Proof.
  intros (Hlba & -> & Hbuf & Hdisk) Hin.
  unfold msc_write_callback, disk_block.
  destruct (Z.ltb_spec lba (DISK_BLOCK_NUM - 1)) as [_|]; [|lia].
  rewrite (tombstone_tests buffer Hbuf).
  remember ((default 0 (buffer !! 32%nat) =? 229) || _ || _) as hit eqn:Hhit.
  clear Hhit.
  assert (Hfit : (block_addr lba + length buffer <= length (msc_disk s))%nat).
  { rewrite Hdisk, Hbuf. unfold block_addr, DISK_BLOCK_NUM, DISK_BLOCK_SIZE in *. lia. }
  assert (Hrd : mem_read buffer 0 (Z.to_nat DISK_BLOCK_SIZE) = Some buffer).
  { rewrite mem_read_ok by lia. rewrite drop_0, take_ge by lia. reflexivity. }
  pose proof (mem_write_ok _ _ _ Hfit) as Hwr.
  remember (take (block_addr lba) (msc_disk s) ++ buffer ++
            drop (block_addr lba + length buffer) (msc_disk s)) as disk' eqn:Hdisk'.
  assert (Hlen' : length disk' = length (msc_disk s)).
  { subst disk'. rewrite !length_app, length_take, length_drop. lia. }
  assert (Hdump : (block_addr lba + Z.to_nat MAX_DUMP_BYTES <= length disk')%nat).
  { rewrite Hlen'. rewrite Hbuf in Hfit. unfold MAX_DUMP_BYTES, DISK_BLOCK_SIZE in *. lia. }
  pose proof (mem_read_ok _ _ _ Hdump) as Hrd'.
  assert (Hblock : take (Z.to_nat DISK_BLOCK_SIZE) (drop (block_addr lba) disk') = buffer).
  { subst disk'. rewrite drop_app_length' by (rewrite length_take; lia).
    rewrite take_app_length' by lia. reflexivity. }
  clear Hdisk' Hfit Hdump.
  rewrite (int32_of_small DISK_BLOCK_SIZE) by (unfold DISK_BLOCK_SIZE; lia).
  destruct (lba =? 7), hit, (lba >? 10); cbv iota;
    rewrite ?bind_Some; cbv beta; cbn [msc_disk set_written set_deleted];
    rewrite Hrd, bind_Some; cbv beta;
    rewrite Hwr, !bind_Some; cbv beta; cbn [msc_disk set_msc_disk ser];
    rewrite Hrd', bind_Some; cbv beta;
    (eexists; split; [reflexivity|]);
    cbn [deleted written readme autorun msc_disk ser set_msc_disk set_written set_deleted
         andb orb];
    rewrite ?orb_true_r, ?orb_false_r; repeat split; assumption.
Qed.

(** C4.  Flags raised by the honeypot, for a one-block request: a read
    raises [readme] exactly when the index is [BLOCK_README] and [autorun]
    exactly when it is [BLOCK_AUTORUN], raises nothing else, and it is a
    boolean that one call sets; a write raises [deleted] when the index is
    7 and the buffer holds 0xE5 at offset 32, 64 or 160, and raises
    [written] exactly when the index is above 10. *)
Theorem honeypot_flags (s : State) (lba bufsize : Z) (buffer : bytes) :
  one_block_request s lba buffer bufsize ->
  (exists s' buffer' r,
      msc_read_callback lba buffer bufsize s = Some (s', buffer', r) /\
      readme s' = readme s || (lba =? BLOCK_README) /\
      autorun s' = autorun s || (lba =? BLOCK_AUTORUN) /\
      written s' = written s /\ deleted s' = deleted s) /\
  (exists s' r,
      msc_write_callback lba buffer bufsize s = Some (s', r) /\
      deleted s' = deleted s ||
        ((lba =? 7) && ((default 0 (buffer !! 32%nat) =? 0xE5) ||
                        (default 0 (buffer !! 64%nat) =? 0xE5) ||
                        (default 0 (buffer !! 160%nat) =? 0xE5))) /\
      written s' = written s || (lba >? 10) /\
      readme s' = readme s /\ autorun s' = autorun s).
Proof.
  intros Hreq.
  destruct (Z.lt_ge_cases lba (DISK_BLOCK_NUM - 1)) as [Hin | Hout].
  - destruct (read_below_guard s lba bufsize buffer Hreq Hin)
      as (s1 & Hrd & Hr & Ha & Hw & Hd & _).
    destruct (write_below_guard s lba bufsize buffer Hreq Hin)
      as (s2 & Hwr & Hd2 & Hw2 & Hr2 & Ha2 & _).
    split; [exists s1, (disk_block s lba), bufsize | exists s2, bufsize]; auto 6.
  - rewrite (read_beyond_guard s lba bufsize buffer Hout).
    rewrite (write_beyond_guard s lba bufsize buffer Hout).
    unfold DISK_BLOCK_NUM, BLOCK_README, BLOCK_AUTORUN in *.
    destruct (Z.eqb_spec lba 100); [lia|].
    destruct (Z.eqb_spec lba 102); [lia|].
    destruct (Z.eqb_spec lba 7); [lia|].
    destruct (Z.gtb_spec lba 10); [|lia].
    split; repeat eexists; cbn; rewrite ?orb_true_r, ?orb_false_r; reflexivity.
Qed.

Lemma blank_one_block (lba : Z) (buffer : bytes) :
  0 <= lba < 2 ^ 32 -> length buffer = 512%nat ->
  one_block_request (power_on blank_disk) lba buffer 512.
Proof.
  intros Hlba Hlen. unfold one_block_request.
  split; [exact Hlba|]. split; [reflexivity|]. split; [exact Hlen|].
  cbn [msc_disk power_on]. unfold blank_disk. apply repeat_length.
Qed.

Lemma honeypot_flags_witness :
  (exists s' buffer' r,
      msc_read_callback 7 tombstone_sector 512 (power_on blank_disk)
        = Some (s', buffer', r) /\
      readme s' = false || (7 =? BLOCK_README) /\
      autorun s' = false || (7 =? BLOCK_AUTORUN) /\
      written s' = false /\ deleted s' = false) /\
  (exists s' r,
      msc_write_callback 7 tombstone_sector 512 (power_on blank_disk) = Some (s', r) /\
      deleted s' = false ||
        ((7 =? 7) && ((default 0 (tombstone_sector !! 32%nat) =? 0xE5) ||
                      (default 0 (tombstone_sector !! 64%nat) =? 0xE5) ||
                      (default 0 (tombstone_sector !! 160%nat) =? 0xE5))) /\
      written s' = false || (7 >? 10) /\
      readme s' = false /\ autorun s' = false).
Proof.
  apply (honeypot_flags (power_on blank_disk) 7 512 tombstone_sector).
  apply blank_one_block; [lia | reflexivity].
Defined.

(** C2 (counterexample).  A one-block read of the last block of the
    backing array, index [DISK_BLOCK_NUM - 1], is a well-formed request for
    an index in [0, DISK_BLOCK_NUM) and the block holds 0xAA bytes, yet the
    callback hands back the caller's zeroed buffer as it was, not the
    block: the guard of the copy is [lba < DISK_BLOCK_NUM - 1]. *)
Lemma last_real_block_is_not_copied :
  one_block_request (power_on marked_disk) (DISK_BLOCK_NUM - 1) (repeat 0 512%nat) 512 /\
  0 <= DISK_BLOCK_NUM - 1 < DISK_BLOCK_NUM /\
  disk_block (power_on marked_disk) (DISK_BLOCK_NUM - 1) = repeat 0xAA 512%nat /\
  (exists s', msc_read_callback (DISK_BLOCK_NUM - 1) (repeat 0 512%nat) 512
                (power_on marked_disk) = Some (s', repeat 0 512%nat, 512) /\
              msc_disk s' = msc_disk (power_on marked_disk)) /\
  ~ (exists s' r, msc_read_callback (DISK_BLOCK_NUM - 1) (repeat 0 512%nat) 512
                    (power_on marked_disk)
                  = Some (s', disk_block (power_on marked_disk) (DISK_BLOCK_NUM - 1), r)).
Proof.
  assert (Hblock : disk_block (power_on marked_disk) (DISK_BLOCK_NUM - 1)
                   = repeat 0xAA 512%nat) by (vm_compute; reflexivity).
  split; [|split; [|split; [|split]]].
  - unfold one_block_request. split; [unfold DISK_BLOCK_NUM; lia|].
    split; [reflexivity|]. split; [reflexivity|].
    cbn [msc_disk power_on]. unfold marked_disk. apply repeat_length.
  - unfold DISK_BLOCK_NUM. lia.
  - exact Hblock.
  - rewrite read_beyond_guard by lia. eexists. split; reflexivity.
  - intros (s' & r & Hrd). rewrite read_beyond_guard in Hrd by lia.
    rewrite Hblock in Hrd.
    apply (f_equal (fun o : option (State * bytes * Z) =>
                      match o with
                      | Some (_, b, _) => head b
                      | None => None
                      end)) in Hrd.
    discriminate Hrd.
Qed.

(** C2 (as amended).  A one-block read of a block of the backing array,
    [0 <= lba < DISK_BLOCK_NUM], returns and hands back the size.  For the
    blocks below the last one, [lba < DISK_BLOCK_NUM - 1], the buffer
    handed back is the block [msc_disk[lba]]; for the last block the guard
    of the copy fails and the buffer handed back is the caller's buffer as
    it was.  The backing array is not changed. *)
Theorem read_copies_below_last_block_only
    (s : State) (lba bufsize : Z) (buffer : bytes) :
  one_block_request s lba buffer bufsize ->
  lba < DISK_BLOCK_NUM ->
  exists s',
    msc_read_callback lba buffer bufsize s =
      Some (s', if lba <? DISK_BLOCK_NUM - 1 then disk_block s lba else buffer, bufsize) /\
    msc_disk s' = msc_disk s.
Proof.
  intros Hreq Hin.
  destruct (Z.ltb_spec lba (DISK_BLOCK_NUM - 1)) as [Hlt|Hge].
  - destruct (read_below_guard s lba bufsize buffer Hreq Hlt) as (s' & Hrd & Hrest).
    exists s'. split; [exact Hrd|]. apply Hrest.
  - rewrite read_beyond_guard by exact Hge.
    destruct Hreq as (_ & -> & _). eexists. split; reflexivity.
Qed.

Lemma read_copies_below_last_block_only_witness :
  exists s',
    msc_read_callback 335 (repeat 0 512%nat) 512 (power_on marked_disk) =
      Some (s', if 335 <? DISK_BLOCK_NUM - 1
                then disk_block (power_on marked_disk) 335
                else repeat 0 512%nat, 512) /\
    msc_disk s' = msc_disk (power_on marked_disk).
Proof.
  apply (read_copies_below_last_block_only (power_on marked_disk) 335 512
           (repeat 0 512%nat)).
  - unfold one_block_request. split; [lia|]. split; [reflexivity|].
    split; [reflexivity|]. cbn [msc_disk power_on]. unfold marked_disk. apply repeat_length.
  - unfold DISK_BLOCK_NUM. lia.
Defined.

(** The sibling guard of the write: a one-block write to the last block of
    the backing array stores nothing. *)
Lemma last_real_block_is_not_written (s : State) (buffer : bytes) (bufsize : Z) :
  exists s', msc_write_callback (DISK_BLOCK_NUM - 1) buffer bufsize s
               = Some (s', int32_of bufsize) /\
             msc_disk s' = msc_disk s.
Proof. rewrite write_beyond_guard by lia. eexists. split; reflexivity. Qed.

(** X6.  Below the guard, that is for the blocks 0 to [DISK_BLOCK_NUM - 2],
    a one-block read returns, hands back the block [msc_disk[lba]] and the
    size, and leaves the backing array as it was. *)
Theorem read_copies_blocks_below_last (s : State) (lba bufsize : Z) (buffer : bytes) :
  one_block_request s lba buffer bufsize ->
  lba < DISK_BLOCK_NUM - 1 ->
  exists s', msc_read_callback lba buffer bufsize s = Some (s', disk_block s lba, bufsize) /\
             msc_disk s' = msc_disk s.
Proof.
  intros Hreq Hin.
  destruct (read_below_guard s lba bufsize buffer Hreq Hin) as (s' & Hrd & Hrest).
  exists s'. split; [exact Hrd|]. apply Hrest.
Qed.

Lemma read_copies_blocks_below_last_witness :
  exists s', msc_read_callback 334 (repeat 0 512%nat) 512 (power_on marked_disk)
               = Some (s', disk_block (power_on marked_disk) 334, 512) /\
             msc_disk s' = msc_disk (power_on marked_disk).
Proof.
  apply (read_copies_blocks_below_last (power_on marked_disk) 334 512 (repeat 0 512%nat)).
  - unfold one_block_request. split; [lia|]. split; [reflexivity|].
    split; [reflexivity|]. cbn [msc_disk power_on]. unfold marked_disk. apply repeat_length.
  - unfold DISK_BLOCK_NUM. lia.
Defined.

(** X7.  Below the guard the honeypot is a RAM disk: a one-block write
    followed by a one-block read of the same block hands back the bytes
    written. *)
Theorem written_block_reads_back
    (s : State) (lba bufsize : Z) (buffer buffer0 : bytes) :
  one_block_request s lba buffer bufsize ->
  length buffer0 = Z.to_nat DISK_BLOCK_SIZE ->
  lba < DISK_BLOCK_NUM - 1 ->
  exists s1 s2,
    msc_write_callback lba buffer bufsize s = Some (s1, bufsize) /\
    msc_read_callback lba buffer0 bufsize s1 = Some (s2, buffer, bufsize).
Proof.
  intros Hreq Hlen0 Hin.
  destruct (write_below_guard s lba bufsize buffer Hreq Hin)
    as (s1 & Hwr & _ & _ & _ & _ & Hlen & Hblock).
  destruct Hreq as (Hlba & Hsize & _ & Hdisk).
  assert (Hreq1 : one_block_request s1 lba buffer0 bufsize).
  { unfold one_block_request. rewrite Hlen. auto. }
  destruct (read_below_guard s1 lba bufsize buffer0 Hreq1 Hin) as (s2 & Hrd & _).
  exists s1, s2. split; [exact Hwr|]. rewrite Hrd, Hblock. reflexivity.
Qed.

Lemma written_block_reads_back_witness :
  exists s1 s2,
    msc_write_callback 7 tombstone_sector 512 (power_on blank_disk) = Some (s1, 512) /\
    msc_read_callback 7 (repeat 0 512%nat) 512 s1 = Some (s2, tombstone_sector, 512).
Proof.
  apply (written_block_reads_back (power_on blank_disk) 7 512 tombstone_sector
           (repeat 0 512%nat)).
  - apply blank_one_block; [lia | reflexivity].
  - reflexivity.
  - unfold DISK_BLOCK_NUM. lia.
Defined.

(** ** Cross-core event bus *)

Lemma c_str_nonzero (a : bytes) : Forall (fun c => c <> 0) (c_str a).
Proof.
  induction a as [|c a IH]; cbn; [constructor|].
  destruct (Z.eqb_spec c 0); [constructor|]. constructor; assumption.
Qed.

Lemma c_str_terminated (chars rest : bytes) :
  Forall (fun c => c <> 0) chars -> c_str (chars ++ 0 :: rest) = chars.
Proof.
  induction 1 as [|c chars Hc _ IH]; cbn; [reflexivity|].
  destruct (Z.eqb_spec c 0); [contradiction|]. rewrite IH. reflexivity.
Qed.

Lemma strncpy_terminated (chars : bytes) (n : nat) :
  strncpy (terminated chars) n =
    Some (take n (c_str (terminated chars)) ++
          repeat 0 (n - length (c_str (terminated chars)))).
Proof.
  unfold terminated. revert n. induction chars as [|c chars IH]; intros [|n]; cbn; try reflexivity.
  destruct (Z.eqb_spec c 0); cbn; [reflexivity|].
  rewrite IH. reflexivity.
Qed.

Lemma DisplayMsg_of_text (str : bytes) :
  length (text (DisplayMsg_of str)) = DISPLAY_TEXT_SIZE /\
  c_str (text (DisplayMsg_of str)) = truncated str.
Proof.
  unfold DisplayMsg_of, truncated, DISPLAY_TEXT_SIZE. cbn [text]. split.
  - rewrite !length_app, length_take, repeat_length. cbn [length]. lia.
  - assert (Hnz : Forall (fun c => c <> 0) (take (64 - 1) (c_str str)))
      by (apply Forall_take, c_str_nonzero).
    destruct (repeat 0 (64 - 1 - length (c_str str))) as [|z pad] eqn:Hpad.
    + apply c_str_terminated, Hnz.
    + assert (z = 0) as ->.
      { apply (repeat_spec (64 - 1 - length (c_str str)) 0 z).
        rewrite Hpad. apply in_eq. }
      cbn [app]. apply c_str_terminated, Hnz.
Qed.

Lemma set_display_queue_same (s : State) : set_display_queue (display_queue s) s = s.
Proof. destruct s. reflexivity. Qed.

(** One push: stored at the back while there is room, dropped otherwise. *)
Lemma enqueue_display_terminated (chars : bytes) (s : State) :
  enqueue_display (terminated chars) s =
    Some (if decide (length (q_items (display_queue s)) < q_capacity (display_queue s))%nat
          then set_display_queue
                 {| q_capacity := q_capacity (display_queue s);
                    q_items := q_items (display_queue s) ++ [DisplayMsg_of (terminated chars)] |} s
          else s).
Proof.
  unfold enqueue_display. rewrite strncpy_terminated. cbn [mbind option_bind].
  unfold queue_try_add.
  destruct (decide _); cbn [fst].
  - unfold DisplayMsg_of, truncated. rewrite <- app_assoc. reflexivity.
  - rewrite set_display_queue_same. reflexivity.
Qed.

Lemma enqueue_all_spec (strs : list bytes) (s : State) :
  (length (q_items (display_queue s)) <= q_capacity (display_queue s))%nat ->
  exists s',
    enqueue_all (map terminated strs) s = Some s' /\
    q_capacity (display_queue s') = q_capacity (display_queue s) /\
    q_items (display_queue s') =
      take (q_capacity (display_queue s))
        (q_items (display_queue s) ++ map DisplayMsg_of (map terminated strs)) /\
    oled s' = oled s.
Proof.
  revert s. induction strs as [|str strs IH]; intros s Hle.
  - exists s. cbn. rewrite app_nil_r, take_ge by lia. auto.
  - cbn [map enqueue_all].
    rewrite enqueue_display_terminated. cbn [mbind option_bind].
    destruct (decide _) as [Hroom | Hfull].
    + match goal with |- context [enqueue_all _ ?s1] => destruct (IH s1) as (s' & He & Hc & Hi & Ho) end.
      { cbn. rewrite length_app. cbn. lia. }
      exists s'. split; [exact He|]. cbn in Hc, Hi, Ho.
      rewrite Hc, Hi, Ho, <- app_assoc. auto.
    + destruct (IH s Hle) as (s' & He & Hc & Hi & Ho).
      exists s'. split; [exact He|]. rewrite Hc, Hi, Ho. repeat split.
      rewrite !take_app_le by lia. reflexivity.
Qed.

(** The consumer side: [loop] empties the queue onto the display, oldest
    entry first. *)
Lemma drain_spec (items : list DisplayMsg) (s : State) :
  q_items (display_queue s) = items ->
  oled (drain (length items) s) =
    oled s ++ map (fun m => string_of_bytes (c_str (text m))) items /\
  q_items (display_queue (drain (length items) s)) = [].
Proof.
  revert s. induction items as [|m items IH]; intros s Hq.
  - cbn. rewrite app_nil_r. auto.
  - cbn [length drain]. unfold queue_try_remove. rewrite Hq.
    match goal with |- context [drain _ ?s1] => destruct (IH s1) as [Ho Hi] end;
      [reflexivity|].
    rewrite Ho, Hi. cbn. rewrite <- app_assoc. auto.
Qed.

(** A bus of 16 entries.  Pushing the strings [strs] one after the other,
    with nothing drained, never blocks or fails; the queue then holds the
    messages of the first 16 strings, in the order pushed, each a 64-byte
    text whose string is the first 63 characters of the string pushed;
    [loop] retrieves exactly these, oldest first; and once 16 are held a
    further push leaves the whole state as it was. *)
Lemma bus_of_16_keeps_oldest (strs : list bytes) (s : State) :
  display_queue s = queue_init 16 ->
  exists s',
    enqueue_all (map terminated strs) s = Some s' /\
    q_items (display_queue s') = map DisplayMsg_of (map terminated (take 16 strs)) /\
    length (q_items (display_queue s')) = Nat.min 16 (length strs) /\
    Forall (fun m => length (text m) = 64%nat) (q_items (display_queue s')) /\
    oled (drain_queue s') =
      oled s ++ map (fun str => string_of_bytes (take 63 (c_str (terminated str))))
                  (take 16 strs) /\
    q_items (display_queue (drain_queue s')) = [] /\
    ((16 <= length strs)%nat ->
     forall extra, enqueue_display (terminated extra) s' = Some s').
Proof.
  intros Hq.
  destruct (enqueue_all_spec strs s) as (s' & He & Hc & Hi & Ho).
  { rewrite Hq. cbn. lia. }
  rewrite Hq in Hc, Hi. cbn in Hc, Hi.
  assert (Hitems : q_items (display_queue s') =
                   map DisplayMsg_of (map terminated (take 16 strs))).
  { rewrite Hi, !firstn_map. reflexivity. }
  assert (Hlen : length (q_items (display_queue s')) = Nat.min 16 (length strs)).
  { rewrite Hitems, !length_map, length_take. reflexivity. }
  destruct (drain_spec (q_items (display_queue s')) s' eq_refl) as [Hd Hempty].
  exists s'. split; [exact He|]. split; [exact Hitems|]. split; [exact Hlen|].
  split; [|split; [|split]].
  - rewrite Hitems. apply Forall_forall. intros m Hm.
    apply list_elem_of_In, in_map_iff in Hm as (str & <- & _). apply DisplayMsg_of_text.
  - unfold drain_queue. rewrite Hd, Ho, Hitems, !map_map. f_equal.
    apply map_ext. intros str.
    destruct (DisplayMsg_of_text (terminated str)) as [_ ->]. reflexivity.
  - exact Hempty.
  - intros Hfull extra. rewrite enqueue_display_terminated.
    destruct (decide _) as [Hroom|]; [|reflexivity].
    rewrite Hc, Hlen in Hroom. lia.
Qed.

(** The byte form of a string pushed through the bus comes back as the
    string: a 70-character line is cut to 63. *)
Example enqueue_long_line :
  let line := repeat 120 70 in
  c_str (text (DisplayMsg_of (terminated line))) = repeat 120 63.
Proof. vm_compute. reflexivity. Qed.

(** ** What the callbacks leave alone *)

(** Inversion of a successful chain of fallible steps. *)
Ltac bind_inv :=
  repeat match goal with
         | H : context [match ?m with Some _ => _ | None => None end] |- _ =>
             destruct m eqn:?; [|discriminate H]
         | H : Some _ = Some _ |- _ => injection H as H; try subst
         | H : (_, _) = (_, _) |- _ => injection H as ? H; try subst
         end.

Lemma read_view (s s' : State) (lba bufsize r : Z) (buffer buffer' : bytes) :
  msc_read_callback lba buffer bufsize s = Some (s', buffer', r) ->
  report_view s' = report_view s /\
  readme s' = readme s || (lba =? BLOCK_README) /\
  autorun s' = autorun s || (lba =? BLOCK_AUTORUN).
Proof.
  unfold msc_read_callback, mbind, option_bind. intros H.
  destruct (lba =? BLOCK_README), (lba =? BLOCK_AUTORUN), (lba <? DISK_BLOCK_NUM - 1);
    bind_inv; cbn; rewrite ?orb_true_r, ?orb_false_r; auto.
Qed.

Lemma write_view (s s' : State) (lba bufsize r : Z) (buffer : bytes) :
  msc_write_callback lba buffer bufsize s = Some (s', r) ->
  report_view s' = report_view s /\
  ((lba >? 10) = true -> written s' = true).
Proof.
  unfold msc_write_callback, mbind, option_bind. intros H.
  destruct (lba =? 7), (lba >? 10), (lba <? DISK_BLOCK_NUM - 1);
    bind_inv; repeat case_match;
    (split; [reflexivity | intros; first [discriminate | reflexivity]]).
Qed.

Lemma hid_report_view (k2a : list (Z * Z)) (itf : Z) (report : bytes) (ok : bool)
    (s s' : State) :
  tuh_hid_report_received_cb k2a itf report ok s = Some s' ->
  report_view s' = report_view s /\
  hid_event_num s' = u32 (hid_event_num s + 1).
Proof.
  unfold tuh_hid_report_received_cb, process_kbd_report, mbind, option_bind.
  intros H.
  destruct (itf =? HID_ITF_PROTOCOL_KEYBOARD), (itf =? HID_ITF_PROTOCOL_MOUSE),
    (kbd_printed (set_hid_sent true s)), ok;
    bind_inv; split; reflexivity.
Qed.

Lemma hid_mount_view (a i v p itf : Z) (ok : bool) (s s' : State) :
  tuh_hid_mount_cb a i v p itf ok s = Some s' ->
  oled s' = oled s ++ [nl +:+ "[!!] HID Device"] /\
  display_queue s' = display_queue s /\
  written_reported s' = written_reported s /\
  deleted_reported s' = deleted_reported s /\
  msc_begun s' = msc_begun s.
Proof.
  unfold tuh_hid_mount_cb, mbind, option_bind. intros H.
  destruct ok; bind_inv; repeat split; reflexivity.
Qed.

(** ** The reports of [loop] *)

Lemma shown_snoc (msg m : string) (s s' : State) :
  oled s' = oled s ++ [m] ->
  shown msg s' = (shown msg s + Nat.b2n (bool_decide (m = msg)))%nat.
Proof.
  intros H. unfold shown. rewrite H, filter_app, length_app. f_equal.
  rewrite filter_cons, filter_nil. unfold bool_decide.
  destruct (decide_rel eq m msg); reflexivity.
Qed.

Lemma shown_same (msg : string) (s s' : State) :
  oled s' = oled s -> shown msg s' = shown msg s.
Proof. intros H. unfold shown. rewrite H. reflexivity. Qed.

Lemma report_usbkiller_spec (s : State) (msg : string) :
  same_flags s (report_usbkiller s) /\
  readme (report_usbkiller s) = readme s /\
  autorun (report_usbkiller s) = autorun s /\
  deleted (report_usbkiller s) = deleted s /\
  deleted_reported (report_usbkiller s) = deleted_reported s /\
  written (report_usbkiller s) = written s /\
  written_reported (report_usbkiller s) = written_reported s /\
  shown msg (report_usbkiller s) =
    (shown msg s +
     if usbkiller s then Nat.b2n (bool_decide (nl +:+ "[!!] USB Killer" = msg)) else 0)%nat.
Proof.
  unfold report_usbkiller, same_flags. destruct (usbkiller s).
  - repeat split. apply shown_snoc. reflexivity.
  - repeat split. lia.
Qed.

Lemma report_readme_spec (s : State) (msg : string) :
  same_flags s (report_readme s) /\
  autorun (report_readme s) = autorun s /\
  deleted (report_readme s) = deleted s /\
  deleted_reported (report_readme s) = deleted_reported s /\
  written (report_readme s) = written s /\
  written_reported (report_readme s) = written_reported s /\
  shown msg (report_readme s) =
    (shown msg s + if readme s then Nat.b2n (bool_decide (MSG_README = msg)) else 0)%nat.
Proof.
  unfold report_readme, same_flags. destruct (readme s).
  - repeat split. apply shown_snoc. reflexivity.
  - repeat split. lia.
Qed.

Lemma report_autorun_spec (s : State) (msg : string) :
  same_flags s (report_autorun s) /\
  deleted (report_autorun s) = deleted s /\
  deleted_reported (report_autorun s) = deleted_reported s /\
  written (report_autorun s) = written s /\
  written_reported (report_autorun s) = written_reported s /\
  shown msg (report_autorun s) =
    (shown msg s + if autorun s then Nat.b2n (bool_decide (MSG_AUTORUN = msg)) else 0)%nat.
Proof.
  unfold report_autorun, same_flags. destruct (autorun s).
  - repeat split. apply shown_snoc. reflexivity.
  - repeat split. lia.
Qed.

Lemma report_deleted_spec (s : State) (msg : string) :
  same_flags s (report_deleted s) /\
  deleted_reported (report_deleted s) = deleted_reported s || deleted s /\
  written (report_deleted s) = written s /\
  written_reported (report_deleted s) = written_reported s /\
  shown msg (report_deleted s) =
    (shown msg s + if deleted s && negb (deleted_reported s)
                   then Nat.b2n (bool_decide (MSG_DELETING = msg)) else 0)%nat.
Proof.
  unfold report_deleted, same_flags.
  destruct (deleted s) eqn:Hd, (deleted_reported s) eqn:Hr; cbn [andb negb orb];
    repeat split; cbn -[shown]; rewrite ?Hd, ?Hr; try reflexivity; try lia.
  apply shown_snoc. reflexivity.
Qed.

Lemma report_written_spec (s : State) (msg : string) :
  same_flags s (report_written s) /\
  deleted_reported (report_written s) = deleted_reported s /\
  written_reported (report_written s) = written_reported s || written s /\
  shown msg (report_written s) =
    (shown msg s + if written s && negb (written_reported s)
                   then Nat.b2n (bool_decide (MSG_WRITING = msg)) else 0)%nat.
Proof.
  unfold report_written, same_flags.
  destruct (written s) eqn:Hw, (written_reported s) eqn:Hr; cbn [andb negb orb];
    repeat split; cbn -[shown]; rewrite ?Hw, ?Hr; try reflexivity; try lia.
  apply shown_snoc. reflexivity.
Qed.

Lemma report_hid_spec (s : State) (msg : string) :
  same_flags s (report_hid s) /\
  deleted_reported (report_hid s) = deleted_reported s /\
  written_reported (report_hid s) = written_reported s /\
  shown msg (report_hid s) =
    (shown msg s + if hid_sent s && negb (hid_reported s)
                   then Nat.b2n (bool_decide (nl +:+ "[!!] HID Sending data" = msg))
                   else 0)%nat.
Proof.
  unfold report_hid, same_flags. destruct (hid_sent s && negb (hid_reported s)).
  - repeat split. apply shown_snoc. reflexivity.
  - repeat split. lia.
Qed.

Lemma hid_evt_text_prefix (n : Z) :
  exists rest, hid_evt_text n = nl +:+ "[+] H" +:+ rest.
Proof. unfold hid_evt_text. cbn. eexists. reflexivity. Qed.

(** The text of the event counter is none of the four honeypot reports. *)
Lemma hid_evt_text_other (n : Z) (msg : string) :
  msg = MSG_WRITING \/ msg = MSG_DELETING \/ msg = MSG_README \/ msg = MSG_AUTORUN ->
  bool_decide (hid_evt_text n = msg) = false.
Proof.
  intros Hmsg. apply bool_decide_eq_false. intros E.
  destruct (hid_evt_text_prefix n) as [rest Hrest]. rewrite Hrest in E.
  destruct Hmsg as [-> | [-> | [-> | ->]]]; discriminate E.
Qed.

(** Comparison of two message texts that are known. *)
Ltac decide_msgs :=
  repeat match goal with
         | |- context [bool_decide (?a = ?b)] =>
             first [ rewrite (bool_decide_eq_true_2 (a = b)) by reflexivity
                   | rewrite (bool_decide_eq_false_2 (a = b))
                       by (let E := fresh in intro E; vm_compute in E; discriminate E) ]
         end.

Lemma poll_bootsel_spec (held : option Z) (s s' : State) (c : core0) (msg : string) :
  poll_bootsel held s = (s', c) ->
  same_flags s s' /\
  deleted_reported s' = deleted_reported s /\
  written_reported s' = written_reported s /\
  (msg = MSG_WRITING \/ msg = MSG_DELETING \/ msg = MSG_README \/ msg = MSG_AUTORUN ->
   shown msg s' = shown msg s).
Proof.
  unfold poll_bootsel, same_flags. intros H.
  destruct held as [d|]; [destruct (u32 d >? 2000)|]; injection H as <- <-.
  - repeat split. intros Hmsg.
    rewrite (shown_snoc msg (hid_evt_text (hid_event_num s)) s) by reflexivity.
    rewrite hid_evt_text_other by exact Hmsg. cbn. lia.
  - repeat split. intros Hmsg.
    rewrite (shown_snoc msg (nl +:+ "[+] RESETTING") s) by reflexivity.
    destruct Hmsg as [-> | [-> | [-> | ->]]]; decide_msgs; cbn; lia.
  - repeat split.
Qed.

Lemma poll_btn_rst_spec (rst_now : bool) (s s' : State) (in_swreset : bool) :
  poll_btn_rst rst_now s = (s', in_swreset) ->
  same_flags s s' /\ oled s' = oled s /\
  usbkiller s' = usbkiller s /\ readme s' = readme s /\ autorun s' = autorun s /\
  deleted s' = deleted s /\ deleted_reported s' = deleted_reported s /\
  written s' = written s /\ written_reported s' = written_reported s /\
  in_swreset = negb (eqb rst_now (rst_prev s)) && negb rst_now.
Proof.
  unfold poll_btn_rst, same_flags. intros H.
  destruct (negb (eqb rst_now (rst_prev s))); injection H as <- <-; repeat split.
Qed.

Lemma drain_queue_empty (s : State) :
  q_items (display_queue s) = [] -> drain_queue s = s.
Proof. intros H. unfold drain_queue. rewrite H. reflexivity. Qed.

Lemma loop_reports_spec (s : State) :
  same_flags s (loop_reports s) /\
  deleted_reported (loop_reports s) = deleted_reported s || deleted s /\
  written_reported (loop_reports s) = written_reported s || written s /\
  shown MSG_WRITING (loop_reports s) =
    (shown MSG_WRITING s + Nat.b2n (written s && negb (written_reported s)))%nat /\
  shown MSG_DELETING (loop_reports s) =
    (shown MSG_DELETING s + Nat.b2n (deleted s && negb (deleted_reported s)))%nat /\
  shown MSG_README (loop_reports s) = (shown MSG_README s + Nat.b2n (readme s))%nat /\
  shown MSG_AUTORUN (loop_reports s) = (shown MSG_AUTORUN s + Nat.b2n (autorun s))%nat.
Proof.
  unfold loop_reports.
  set (s1 := report_usbkiller s). set (s2 := report_readme s1).
  set (s3 := report_autorun s2). set (s4 := report_deleted s3).
  set (s5 := report_written s4).
  assert (K : forall msg, _) by (intros msg; exact (report_usbkiller_spec s msg)).
  assert (R : forall msg, _) by (intros msg; exact (report_readme_spec s1 msg)).
  assert (A : forall msg, _) by (intros msg; exact (report_autorun_spec s2 msg)).
  assert (D : forall msg, _) by (intros msg; exact (report_deleted_spec s3 msg)).
  assert (W : forall msg, _) by (intros msg; exact (report_written_spec s4 msg)).
  assert (H : forall msg, _) by (intros msg; exact (report_hid_spec s5 msg)).
  fold s1 in K. fold s2 in R. fold s3 in A. fold s4 in D. fold s5 in W.
  clearbody s1 s2 s3 s4 s5. unfold same_flags in *.
  destruct (K MSG_WRITING) as ((Kq & Kb & Kn) & Kr & Ka & Kd & Kdr & Kw & Kwr & KW).
  destruct (K MSG_DELETING) as (_ & _ & _ & _ & _ & _ & _ & KD).
  destruct (K MSG_README) as (_ & _ & _ & _ & _ & _ & _ & KR).
  destruct (K MSG_AUTORUN) as (_ & _ & _ & _ & _ & _ & _ & KA).
  destruct (R MSG_WRITING) as ((Rq & Rb & Rn) & Ra & Rd & Rdr & Rw & Rwr & RW).
  destruct (R MSG_DELETING) as (_ & _ & _ & _ & _ & _ & RD).
  destruct (R MSG_README) as (_ & _ & _ & _ & _ & _ & RR).
  destruct (R MSG_AUTORUN) as (_ & _ & _ & _ & _ & _ & RA).
  destruct (A MSG_WRITING) as ((Aq & Ab & An) & Ad & Adr & Aw & Awr & AW).
  destruct (A MSG_DELETING) as (_ & _ & _ & _ & _ & AD).
  destruct (A MSG_README) as (_ & _ & _ & _ & _ & AR).
  destruct (A MSG_AUTORUN) as (_ & _ & _ & _ & _ & AA).
  destruct (D MSG_WRITING) as ((Dq & Db & Dn) & Ddr & Dw & Dwr & DW).
  destruct (D MSG_DELETING) as (_ & _ & _ & _ & DD).
  destruct (D MSG_README) as (_ & _ & _ & _ & DR).
  destruct (D MSG_AUTORUN) as (_ & _ & _ & _ & DA).
  destruct (W MSG_WRITING) as ((Wq & Wb & Wn) & Wdr & Wwr & WW).
  destruct (W MSG_DELETING) as (_ & _ & _ & WD).
  destruct (W MSG_README) as (_ & _ & _ & WR).
  destruct (W MSG_AUTORUN) as (_ & _ & _ & WA).
  destruct (H MSG_WRITING) as ((Hq & Hb & Hn) & Hdr & Hwr & HW).
  destruct (H MSG_DELETING) as (_ & _ & _ & HD).
  destruct (H MSG_README) as (_ & _ & _ & HR).
  destruct (H MSG_AUTORUN) as (_ & _ & _ & HA).
  clear K R A D W H.
  repeat split; try congruence.
  - rewrite HW, WW, DW, AW, RW, KW, Dwr, Awr, Rwr, Kwr, Dw, Aw, Rw, Kw.
    decide_msgs.
    repeat match goal with |- context [if ?b then _ else _] => destruct b end; cbn; lia.
  - rewrite HD, WD, DD, AD, RD, KD, Adr, Rdr, Kdr, Ad, Rd, Kd.
    decide_msgs.
    repeat match goal with |- context [if ?b then _ else _] => destruct b end; cbn; lia.
  - rewrite HR, WR, DR, AR, RR, KR, Kr.
    decide_msgs.
    repeat match goal with |- context [if ?b then _ else _] => destruct b end; cbn; lia.
  - rewrite HA, WA, DA, AA, RA, KA, Ra, Ka.
    decide_msgs.
    repeat match goal with |- context [if ?b then _ else _] => destruct b end; cbn; lia.
Qed.

(** One pass of [loop] on an empty queue.  [pressed] tells that the pass
    saw [BTN_RST] go low and ended in [swreset] before any report. *)
Lemma loop_spec (i : loop_in) (s s' : State) (c : core0) :
  q_items (display_queue s) = [] ->
  loop i s = (s', c) ->
  let pressed := negb (eqb (btn_rst i) (rst_prev s)) && negb (btn_rst i) in
  same_flags s s' /\
  if pressed then
    c = Rebooting /\ oled s' = oled s /\
    written_reported s' = written_reported s /\
    deleted_reported s' = deleted_reported s
  else
    written_reported s' = written_reported s || written s /\
    deleted_reported s' = deleted_reported s || deleted s /\
    shown MSG_WRITING s' =
      (shown MSG_WRITING s + Nat.b2n (written s && negb (written_reported s)))%nat /\
    shown MSG_DELETING s' =
      (shown MSG_DELETING s + Nat.b2n (deleted s && negb (deleted_reported s)))%nat /\
    shown MSG_README s' = (shown MSG_README s + Nat.b2n (readme s))%nat /\
    shown MSG_AUTORUN s' = (shown MSG_AUTORUN s + Nat.b2n (autorun s))%nat.
Proof.
  intros Hq Hloop. unfold loop in Hloop. rewrite (drain_queue_empty s Hq) in Hloop.
  destruct (poll_btn_rst (btn_rst i) s) as [s1 r] eqn:Hbtn.
  destruct (poll_btn_rst_spec _ _ _ _ Hbtn)
    as ((Bq & Bb & Bn) & Bo & Bk & Br & Ba & Bd & Bdr & Bw & Bwr & ->).
  cbv zeta. unfold same_flags.
  destruct (negb (eqb (btn_rst i) (rst_prev s)) && negb (btn_rst i)).
  - injection Hloop as <- <-. repeat split; assumption.
  - fold (loop_reports s1) in Hloop.
    destruct (loop_reports_spec s1) as ((Lq & Lb & Ln) & Ldr & Lwr & LW & LD & LR & LA).
    pose proof (poll_bootsel_spec _ _ _ _ MSG_WRITING Hloop)
      as ((Pq & Pb & Pn) & Pdr & Pwr & PW).
    pose proof (poll_bootsel_spec _ _ _ _ MSG_DELETING Hloop) as (_ & _ & _ & PD).
    pose proof (poll_bootsel_spec _ _ _ _ MSG_README Hloop) as (_ & _ & _ & PR).
    pose proof (poll_bootsel_spec _ _ _ _ MSG_AUTORUN Hloop) as (_ & _ & _ & PA).
    rewrite (shown_same MSG_WRITING s s1 Bo) in LW.
    rewrite (shown_same MSG_DELETING s s1 Bo) in LD.
    rewrite (shown_same MSG_README s s1 Bo) in LR.
    rewrite (shown_same MSG_AUTORUN s s1 Bo) in LA.
    repeat split; try congruence.
    + rewrite PW by auto. congruence.
    + rewrite PD by auto. congruence.
    + rewrite PR by auto. congruence.
    + rewrite PA by auto. congruence.
Qed.

Lemma view_notified_once (s s' : State) :
  report_view s' = report_view s -> notified_once s -> notified_once s'.
Proof.
  unfold report_view, notified_once, shown. intros [= Ho Hq Hw Hd Hb].
  rewrite Ho, Hq, Hw, Hd. auto.
Qed.

Lemma loop_notified_once (i : loop_in) (s s' : State) (c : core0) :
  notified_once s -> loop i s = (s', c) ->
  notified_once s' /\
  (written_reported s = true -> written_reported s' = true) /\
  (deleted_reported s = true -> deleted_reported s' = true) /\
  msc_begun s' = msc_begun s.
Proof.
  intros (Hq & HW & HD) Hloop.
  destruct (loop_spec i s s' c Hq Hloop) as ((Lq & Lb & _) & Hcase).
  unfold notified_once.
  destruct (negb (eqb (btn_rst i) (rst_prev s)) && negb (btn_rst i)).
  - destruct Hcase as (_ & Ho & Hwr & Hdr).
    rewrite Lq, (shown_same _ _ _ Ho), (shown_same _ _ _ Ho), Hwr, Hdr. auto.
  - destruct Hcase as (Hwr & Hdr & SW & SD & _).
    rewrite Lq, SW, SD, HW, HD, Hwr, Hdr.
    destruct (written_reported s), (deleted_reported s), (written s), (deleted s);
      cbn; auto.
Qed.

Section MachineFacts.

Variable XXH32 : bytes -> Z -> Z.
Variable keycode2ascii : list (Z * Z).

(** Every step keeps the invariant, keeps the storage gate and the two
    [_reported] flags once set, and only a pass of [loop] changes where
    core 0 is. *)
Lemma step_notified_once (m m' : machine) (e : event) :
  step keycode2ascii m e m' ->
  notified_once (snd m) ->
  notified_once (snd m') /\
  (written_reported (snd m) = true -> written_reported (snd m') = true) /\
  (deleted_reported (snd m) = true -> deleted_reported (snd m') = true) /\
  msc_begun (snd m') = msc_begun (snd m) /\
  (fst m' = fst m \/ fst m = Looping /\ exists i, e = EvLoop i).
Proof.
  intros Hstep Hinv.
  destruct Hstep as
    [ i s s' c Hloop | s | c pin s | c lba buffer bufsize s s' buffer' r Hb Hrd
    | c lba buffer bufsize s s' r Hb Hwr | c s Hb | c a i v p itf ok s s' Hm
    | c itf report ok s s' Hr | c a i s | c a s | c idx s ]; cbn [fst snd] in *;
    refine (conj _ (conj _ (conj _ (conj _ _)))); try (left; reflexivity);
    try match goal with
        | H : msc_read_callback _ _ _ _ = Some _ |- _ =>
            destruct (read_view _ _ _ _ _ _ _ H) as (Hv & _)
        | H : msc_write_callback _ _ _ _ = Some _ |- _ =>
            destruct (write_view _ _ _ _ _ _ H) as (Hv & _)
        | H : tuh_hid_report_received_cb _ _ _ _ _ = Some _ |- _ =>
            destruct (hid_report_view _ _ _ _ _ _ H) as (Hv & _)
        | |- context [detectUSBKiller ?pin ?s] =>
            assert (Hv : report_view (detectUSBKiller pin s) = report_view s)
              by (unfold detectUSBKiller; destruct pin; reflexivity)
        | |- context [tuh_hid_umount_cb ?a ?i ?s] =>
            assert (Hv : report_view (tuh_hid_umount_cb a i s) = report_view s)
              by reflexivity
        end;
    try (first [ exact (view_notified_once _ _ Hv Hinv)
               | injection Hv as _ _ Hw Hd Hg; congruence ]);
    auto.
  - apply (loop_notified_once i s s' c Hinv Hloop).
  - apply (loop_notified_once i s s' c Hinv Hloop).
  - apply (loop_notified_once i s s' c Hinv Hloop).
  - apply (loop_notified_once i s s' c Hinv Hloop).
  - right. split; [reflexivity|]. exists i. reflexivity.
  - destruct (hid_mount_view _ _ _ _ _ _ _ _ Hm) as (Ho & Hq & Hw & Hd & Hg).
    destruct Hinv as (Iq & IW & ID). unfold notified_once.
    rewrite (shown_snoc MSG_WRITING _ _ _ Ho), (shown_snoc MSG_DELETING _ _ _ Ho).
    decide_msgs. rewrite Hq, Hw, Hd, IW, ID. cbn. repeat split; auto; lia.
  - destruct (hid_mount_view _ _ _ _ _ _ _ _ Hm) as (_ & _ & -> & _). auto.
  - destruct (hid_mount_view _ _ _ _ _ _ _ _ Hm) as (_ & _ & _ & -> & _). auto.
  - destruct (hid_mount_view _ _ _ _ _ _ _ _ Hm) as (_ & _ & _ & _ & ->). auto.
  - destruct Hinv as (Iq & IW & ID). unfold notified_once.
    rewrite (shown_snoc MSG_WRITING (nl +:+ "[++] Mass Device") s) by reflexivity.
    rewrite (shown_snoc MSG_DELETING (nl +:+ "[++] Mass Device") s) by reflexivity.
    decide_msgs. cbn -[shown]. rewrite IW, ID. repeat split; auto; lia.
  - destruct Hinv as (Iq & IW & ID). unfold notified_once.
    rewrite (shown_snoc MSG_WRITING (nl +:+ "[++] CDC Device") s) by reflexivity.
    rewrite (shown_snoc MSG_DELETING (nl +:+ "[++] CDC Device") s) by reflexivity.
    decide_msgs. cbn -[shown]. rewrite IW, ID. repeat split; auto; lia.
Qed.

Lemma run_notified_once (m m' : machine) (tr : list event) :
  run keycode2ascii m tr m' ->
  notified_once (snd m) ->
  notified_once (snd m') /\
  (written_reported (snd m) = true -> written_reported (snd m') = true) /\
  (deleted_reported (snd m) = true -> deleted_reported (snd m') = true) /\
  msc_begun (snd m') = msc_begun (snd m).
Proof.
  induction 1 as [m | m e m1 tr m2 Hstep _ IH]; intros Hinv; [auto|].
  destruct (step_notified_once _ _ _ Hstep Hinv) as (H1 & H2 & H3 & H4 & _).
  destruct (IH H1) as (K1 & K2 & K3 & K4).
  refine (conj K1 (conj _ (conj _ _))); auto. congruence.
Qed.

End MachineFacts.

(** ** Boot-time integrity gate *)

Lemma hashed_bytes_ok (image : bytes) :
  length image = Z.to_nat (DISK_BLOCK_NUM * DISK_BLOCK_SIZE) ->
  hashed_bytes image =
    Some (take (Z.to_nat BYTES_TO_HASH)
            (drop (Z.to_nat (BYTES_TO_HASH_OFFSET * DISK_BLOCK_SIZE) + 11) image)).
Proof.
  intros Hlen. unfold hashed_bytes. apply mem_read_ok. rewrite Hlen.
  unfold block_addr, BYTES_TO_HASH, BYTES_TO_HASH_OFFSET, DISK_BLOCK_NUM, DISK_BLOCK_SIZE.
  lia.
Qed.

Lemma shown_printout (msg m : string) (s : State) :
  shown msg (printout m s) = (shown msg s + Nat.b2n (bool_decide (m = msg)))%nat.
Proof. apply shown_snoc. reflexivity. Qed.

Section BootFacts.

Variable XXH32 : bytes -> Z -> Z.
Variable keycode2ascii : list (Z * Z).

(** The state [setup] leaves: gate and place of core 0 by the outcome of
    the comparison, no one-shot report shown yet. *)
Lemma boot_spec (image : bytes) (m : machine) :
  boot XXH32 image = Some m ->
  exists input,
    hashed_bytes image = Some input /\
    msc_begun (snd m) = (XXH32 input 0 =? valid_hash) /\
    fst m = (if XXH32 input 0 =? valid_hash then Looping else Stopped) /\
    notified_once (snd m) /\
    written_reported (snd m) = false /\ deleted_reported (snd m) = false /\
    shown MSG_README (snd m) = 0%nat /\ shown MSG_AUTORUN (snd m) = 0%nat.
Proof.
  unfold boot, setup, mbind, option_bind. cbn [msc_disk set_display_queue power_on].
  intros H. destruct (hashed_bytes image) as [input|]; [|discriminate H].
  exists input. split; [reflexivity|].
  destruct (XXH32 input 0 =? valid_hash); injection H as <-; cbn [fst snd];
    (split; [reflexivity|]); (split; [reflexivity|]);
    unfold notified_once, cls; rewrite !shown_printout;
    (split; [split; [reflexivity|]|]); decide_msgs; repeat split.
Qed.

(** [setup] returns as soon as the hashed range lies in the image. *)
Lemma boot_total (image input : bytes) :
  hashed_bytes image = Some input -> exists m, boot XXH32 image = Some m.
Proof.
  intros H. unfold boot, setup. cbn [msc_disk set_display_queue power_on].
  rewrite H, bind_Some. cbv beta zeta.
  destruct (XXH32 input 0 =? valid_hash); rewrite bind_Some; eexists; reflexivity.
Qed.

(** After a failed self test nothing moves core 0 and nothing opens the
    storage gate. *)
Lemma step_stopped (s : State) (e : event) (m' : machine) :
  step keycode2ascii (Stopped, s) e m' ->
  msc_begun s = false ->
  fst m' = Stopped /\ msc_begun (snd m') = false /\ core0_idle e.
Proof.
  intros Hstep Hgate. inversion Hstep; subst; cbn [fst snd core0_idle];
    try congruence;
    try match goal with
        | H : tuh_hid_mount_cb _ _ _ _ _ _ _ = Some _ |- _ =>
            destruct (hid_mount_view _ _ _ _ _ _ _ _ H) as (_ & _ & _ & _ & ->)
        | H : tuh_hid_report_received_cb _ _ _ _ _ = Some _ |- _ =>
            destruct (hid_report_view _ _ _ _ _ _ H) as ([= _ _ _ _ ->] & _)
        end;
    repeat split; try assumption.
  unfold detectUSBKiller. destruct pin; assumption.
Qed.

Lemma stopped_forever (m m' : machine) (tr : list event) :
  run keycode2ascii m tr m' ->
  fst m = Stopped -> msc_begun (snd m) = false ->
  fst m' = Stopped /\ msc_begun (snd m') = false /\ Forall core0_idle tr.
Proof.
  induction 1 as [m | m e m1 tr m2 Hstep _ IH]; intros Hc Hgate.
  - repeat split; auto.
  - destruct m as [c s]. cbn in Hc, Hgate. subst c.
    destruct (step_stopped _ _ _ Hstep Hgate) as (H1 & H2 & H3).
    destruct (IH H1 H2) as (K1 & K2 & K3). repeat split; auto.
Qed.

(** C3 (as amended).  At boot [setup] hashes [BYTES_TO_HASH] bytes of the
    backing image, starting 11 bytes into block [BYTES_TO_HASH_OFFSET],
    with XXH32 and seed 0, and compares the result with [valid_hash].
    [usb_msc.begin()] is called if and only if they match, and then core 0
    goes on to [loop].  On a mismatch core 0 is left in the delay loop for
    good: in every run from there it stays stopped, the storage gate stays
    closed, and the run holds no pass of [loop] and no storage callback.
    The halt is that of core 0: the runs quantified over still hold the
    callbacks of the USB host on core 1 and the interrupt of the kill
    pin. *)
Theorem selftest_gates_storage (image : bytes) :
  length image = Z.to_nat (DISK_BLOCK_NUM * DISK_BLOCK_SIZE) ->
  let input :=
    take (Z.to_nat BYTES_TO_HASH)
      (drop (Z.to_nat (BYTES_TO_HASH_OFFSET * DISK_BLOCK_SIZE) + 11) image) in
  exists m,
    boot XXH32 image = Some m /\
    (msc_begun (snd m) = true <-> XXH32 input 0 = valid_hash) /\
    (XXH32 input 0 = valid_hash -> fst m = Looping) /\
    (XXH32 input 0 <> valid_hash ->
     fst m = Stopped /\
     forall tr m', run keycode2ascii m tr m' ->
       fst m' = Stopped /\ msc_begun (snd m') = false /\ Forall core0_idle tr).
Proof.
  intros Hlen input.
  pose proof (hashed_bytes_ok image Hlen) as Hin. fold input in Hin.
  destruct (boot_total image input Hin) as [m Hboot].
  destruct (boot_spec image m Hboot) as (input' & Hin' & Hgate & Hc & _).
  rewrite Hin in Hin'. injection Hin' as <-.
  exists m. split; [exact Hboot|].
  destruct (XXH32 input 0 =? valid_hash) eqn:E.
  - apply Z.eqb_eq in E.
    split; [split; auto|]. split; [auto|]. intros Hne. contradiction.
  - apply Z.eqb_neq in E.
    split; [split; [rewrite Hgate; discriminate | contradiction]|].
    split; [contradiction|]. intros _. split; [exact Hc|].
    intros tr m' Hrun. exact (stopped_forever m m' tr Hrun Hc Hgate).
Qed.

End BootFacts.

Lemma selftest_gates_storage_witness :
  let input :=
    take (Z.to_nat BYTES_TO_HASH)
      (drop (Z.to_nat (BYTES_TO_HASH_OFFSET * DISK_BLOCK_SIZE) + 11) blank_disk) in
  exists m,
    boot rejecting_hash blank_disk = Some m /\
    (msc_begun (snd m) = true <-> rejecting_hash input 0 = valid_hash) /\
    (rejecting_hash input 0 = valid_hash -> fst m = Looping) /\
    (rejecting_hash input 0 <> valid_hash ->
     fst m = Stopped /\
     forall tr m', run [] m tr m' ->
       fst m' = Stopped /\ msc_begun (snd m') = false /\ Forall core0_idle tr).
Proof.
  apply (selftest_gates_storage rejecting_hash [] blank_disk).
  unfold blank_disk. apply repeat_length.
Defined.

(** C3 (counterexample).  The halt is not one "from which no further
    operation runs".  After a failed self test core 0 sits in the delay
    loop, and a keyboard is plugged into the host port: the mount callback
    of the USB host, which runs on core 1, still shows its alert on the
    display and sets the pixel to red. *)
Lemma failed_selftest_leaves_host_running :
  exists m m',
    boot rejecting_hash blank_disk = Some m /\
    fst m = Stopped /\ msc_begun (snd m) = false /\
    step [] m (EvHidMount 1 0 0x046D 0xC31C 1 true) m' /\
    fst m' = Stopped /\
    oled (snd m') = oled (snd m) ++ [nl +:+ "[!!] HID Device"] /\
    pixel (snd m') = pixel (snd m) ++ [(255, 0, 0)] /\
    snd m' <> snd m.
Proof.
  assert (Hlen : length blank_disk = Z.to_nat (DISK_BLOCK_NUM * DISK_BLOCK_SIZE))
    by (unfold blank_disk; apply repeat_length).
  destruct (boot_total rejecting_hash blank_disk _ (hashed_bytes_ok blank_disk Hlen))
    as [[c0 s0] Hboot].
  destruct (boot_spec rejecting_hash blank_disk _ Hboot) as (input & _ & Hgate & Hc & _).
  cbn [fst snd] in Hgate, Hc. unfold rejecting_hash in Hgate, Hc.
  change (0 =? valid_hash) with false in Hgate, Hc. subst c0.
  destruct (tuh_hid_mount_cb 1 0 0x046D 0xC31C 1 true s0) as [s1|] eqn:Hm;
    [|discriminate Hm].
  assert (Hpix : pixel s1 = pixel s0 ++ [(255, 0, 0)])
    by (injection Hm as <-; reflexivity).
  destruct (hid_mount_view _ _ _ _ _ _ _ _ Hm) as (Ho & _).
  exists (Stopped, s0), (Stopped, s1). cbn [fst snd].
  split; [exact Hboot|]. split; [reflexivity|]. split; [exact Hgate|].
  split; [apply step_hid_mount; exact Hm|]. split; [reflexivity|].
  split; [exact Ho|]. split; [exact Hpix|].
  intros E. rewrite E in Hpix. apply (f_equal (@length (Z * Z * Z))) in Hpix.
  rewrite length_app in Hpix. cbn [length] in Hpix. lia.
Qed.

(** ** The event bus of a booted machine *)

Section BusFacts.

Variable XXH32 : bytes -> Z -> Z.
Variable keycode2ascii : list (Z * Z).

(** [setup] leaves the queue as [queue_init] made it, with room for 16
    entries. *)
Lemma boot_queue (image : bytes) (m : machine) :
  boot XXH32 image = Some m -> display_queue (snd m) = queue_init 16.
Proof.
  unfold boot, setup, mbind, option_bind. cbn [msc_disk set_display_queue power_on].
  intros H. destruct (hashed_bytes image) as [input|]; [|discriminate H].
  destruct (XXH32 input 0 =? valid_hash); injection H as <-; reflexivity.
Qed.

(** No callback touches the queue, and a pass of [loop] leaves an empty
    queue as it is. *)
Lemma step_keeps_queue (m m' : machine) (e : event) :
  step keycode2ascii m e m' ->
  q_items (display_queue (snd m)) = [] ->
  display_queue (snd m') = display_queue (snd m).
Proof.
  intros Hstep Hq.
  destruct Hstep as
    [ i s s' c Hloop | s | c pin s | c lba buffer bufsize s s' buffer' r Hb Hrd
    | c lba buffer bufsize s s' r Hb Hwr | c s Hb | c a i v p itf ok s s' Hm
    | c itf report ok s s' Hr | c a i s | c a s | c idx s ]; cbn [fst snd] in *.
  - destruct (loop_spec i s s' c Hq Hloop) as ((Lq & _) & _). exact Lq.
  - reflexivity.
  - unfold detectUSBKiller. destruct pin; reflexivity.
  - destruct (read_view _ _ _ _ _ _ _ Hrd) as ([= _ Hv _ _ _] & _). exact Hv.
  - destruct (write_view _ _ _ _ _ _ Hwr) as ([= _ Hv _ _ _] & _). exact Hv.
  - reflexivity.
  - destruct (hid_mount_view _ _ _ _ _ _ _ _ Hm) as (_ & Hv & _). exact Hv.
  - destruct (hid_report_view _ _ _ _ _ _ Hr) as ([= _ Hv _ _ _] & _). exact Hv.
  - reflexivity.
  - reflexivity.
  - reflexivity.
Qed.

Lemma run_keeps_queue (m m' : machine) (tr : list event) :
  run keycode2ascii m tr m' ->
  q_items (display_queue (snd m)) = [] ->
  display_queue (snd m') = display_queue (snd m).
Proof.
  induction 1 as [m | m e m1 tr m2 Hstep _ IH]; intros Hq; [reflexivity|].
  pose proof (step_keeps_queue _ _ _ Hstep Hq) as H1.
  rewrite IH by (rewrite H1; exact Hq). exact H1.
Qed.

(** C9.  The event bus is the queue that [setup] creates with 16 entries,
    and in every run of the firmware from boot it is that queue, empty
    (nothing in the sketch pushes, a pass of [loop] drains).  Pushing the
    strings [strs] one after the other on the state reached, with nothing
    drained, never blocks or fails; the queue then holds the messages of
    the first 16 strings, in the order pushed, each a 64-byte text whose
    string is the first 63 characters of the string pushed; [loop]
    retrieves exactly these, oldest first; and once 16 are held a further
    push leaves the whole state as it was.  With 17 strings pushed, 16 are
    retrieved. *)
Theorem event_bus_keeps_oldest_16
    (image : bytes) (m m' : machine) (tr : list event) (strs : list bytes) :
  boot XXH32 image = Some m ->
  run keycode2ascii m tr m' ->
  q_capacity (display_queue (snd m')) = 16%nat /\
  q_items (display_queue (snd m')) = [] /\
  exists s',
    enqueue_all (map terminated strs) (snd m') = Some s' /\
    q_capacity (display_queue s') = 16%nat /\
    q_items (display_queue s') = map DisplayMsg_of (map terminated (take 16 strs)) /\
    length (q_items (display_queue s')) = Nat.min 16 (length strs) /\
    Forall (fun m => length (text m) = 64%nat) (q_items (display_queue s')) /\
    oled (drain_queue s') =
      oled (snd m') ++
      map (fun str => string_of_bytes (take 63 (c_str (terminated str)))) (take 16 strs) /\
    q_items (display_queue (drain_queue s')) = [] /\
    ((16 <= length strs)%nat ->
     forall extra, enqueue_display (terminated extra) s' = Some s').
Proof.
  intros Hboot Hrun.
  pose proof (boot_queue image m Hboot) as Hq0.
  assert (Hq : display_queue (snd m') = queue_init 16).
  { rewrite (run_keeps_queue m m' tr Hrun) by (rewrite Hq0; reflexivity). exact Hq0. }
  split; [rewrite Hq; reflexivity|]. split; [rewrite Hq; reflexivity|].
  destruct (bus_of_16_keeps_oldest strs (snd m') Hq)
    as (s' & He & Hi & Hl & Hf & Ho & Hd & Hfull).
  destruct (enqueue_all_spec strs (snd m')) as (s2 & He2 & Hc2 & _).
  { rewrite Hq. cbn. lia. }
  rewrite He in He2. injection He2 as <-.
  exists s'. rewrite Hc2, Hq. repeat split; assumption.
Qed.

End BusFacts.

Lemma event_bus_keeps_oldest_16_witness :
  exists m m',
    boot accepting_hash blank_disk = Some m /\
    run [] m [EvHidMount 1 0 0x046D 0xC31C 1 true; EvLoop idle_pass] m' /\
    q_capacity (display_queue (snd m')) = 16%nat /\
    q_items (display_queue (snd m')) = [] /\
    exists s',
      enqueue_all (map terminated seventeen) (snd m') = Some s' /\
      q_capacity (display_queue s') = 16%nat /\
      q_items (display_queue s') = map DisplayMsg_of (map terminated (take 16 seventeen)) /\
      length (q_items (display_queue s')) = Nat.min 16 (length seventeen) /\
      Forall (fun m => length (text m) = 64%nat) (q_items (display_queue s')) /\
      oled (drain_queue s') =
        oled (snd m') ++
        map (fun str => string_of_bytes (take 63 (c_str (terminated str))))
          (take 16 seventeen) /\
      q_items (display_queue (drain_queue s')) = [] /\
      ((16 <= length seventeen)%nat ->
       forall extra, enqueue_display (terminated extra) s' = Some s').
Proof.
  assert (Hlen : length blank_disk = Z.to_nat (DISK_BLOCK_NUM * DISK_BLOCK_SIZE))
    by (unfold blank_disk; apply repeat_length).
  destruct (boot_total accepting_hash blank_disk _ (hashed_bytes_ok blank_disk Hlen))
    as [[c0 s0] Hboot].
  destruct (boot_spec accepting_hash blank_disk _ Hboot) as (input & _ & _ & Hc & _).
  cbn [fst snd] in Hc. unfold accepting_hash in Hc. rewrite Z.eqb_refl in Hc. subst c0.
  destruct (tuh_hid_mount_cb 1 0 0x046D 0xC31C 1 true s0) as [s1|] eqn:Hm;
    [|discriminate Hm].
  destruct (loop idle_pass s1) as [s2 c2] eqn:Hl.
  assert (Hrun : run [] (Looping, s0)
                   [EvHidMount 1 0 0x046D 0xC31C 1 true; EvLoop idle_pass] (c2, s2)).
  { eapply run_cons; [apply step_hid_mount; exact Hm|].
    eapply run_cons; [apply step_loop; exact Hl|]. apply run_nil. }
  exists (Looping, s0), (c2, s2).
  split; [exact Hboot|]. split; [exact Hrun|].
  exact (event_bus_keeps_oldest_16 accepting_hash [] blank_disk
           (Looping, s0) (c2, s2) _ seventeen Hboot Hrun).
Defined.

(** ** One-shot and recurring reports *)

(** A completed write to the directory block with a tombstone at one of
    the three offsets raises [deleted]. *)
Lemma write_tombstone (s s' : State) (buffer : bytes) (bufsize r : Z) :
  msc_write_callback 7 buffer bufsize s = Some (s', r) ->
  buffer !! 32%nat = Some 0xE5 \/ buffer !! 64%nat = Some 0xE5 \/
  buffer !! 160%nat = Some 0xE5 ->
  deleted s' = true.
Proof.
  unfold msc_write_callback, or_else, byte_is, mbind, option_bind.
  change (7 =? 7) with true. change (7 >? 10) with false.
  change (7 <? DISK_BLOCK_NUM - 1) with true. cbv iota.
  intros H Htomb.
  destruct (buffer !! 32%nat) as [b32|] eqn:E32; [|discriminate H].
  destruct (Z.eqb_spec b32 229) as [->|N32].
  - bind_inv. reflexivity.
  - destruct (buffer !! 64%nat) as [b64|] eqn:E64; [|discriminate H].
    destruct (Z.eqb_spec b64 229) as [->|N64].
    + bind_inv. reflexivity.
    + destruct (buffer !! 160%nat) as [b160|] eqn:E160; [|discriminate H].
      destruct (Z.eqb_spec b160 229) as [->|N160].
      * bind_inv. reflexivity.
      * destruct Htomb as [[= ?] | [[= ?] | [= ?]]]; contradiction.
Qed.

Section ReportFacts.

Variable XXH32 : bytes -> Z -> Z.
Variable keycode2ascii : list (Z * Z).

(** C10.  In every run of the firmware from power-on, "[!] WRITING" and
    "[!] DELETING" are each shown at most once.  Once [written_reported]
    (resp. [deleted_reported]) is set no later step clears it and the
    count of the report stays where it is, although a later write above
    block 10 (resp. a later tombstone in block 7) raises [written]
    (resp. [deleted]) again.  The bait reports are not one-shot: at any
    point of a run, a read of [BLOCK_README] (resp. [BLOCK_AUTORUN])
    followed by a pass of [loop] that is not cut short by the reset button
    shows "[!] README (R)" (resp. "[+] AUTORUN (R)") once more. *)
Theorem one_shot_reports (image : bytes) (m m' : machine) (tr : list event) :
  boot XXH32 image = Some m ->
  run keycode2ascii m tr m' ->
  ((shown MSG_WRITING (snd m') <= 1)%nat /\ (shown MSG_DELETING (snd m') <= 1)%nat) /\
  (forall tr2 m2, run keycode2ascii m' tr2 m2 ->
     (written_reported (snd m') = true ->
      written_reported (snd m2) = true /\
      shown MSG_WRITING (snd m2) = shown MSG_WRITING (snd m')) /\
     (deleted_reported (snd m') = true ->
      deleted_reported (snd m2) = true /\
      shown MSG_DELETING (snd m2) = shown MSG_DELETING (snd m'))) /\
  (forall lba buffer bufsize s1 r,
     msc_write_callback lba buffer bufsize (snd m') = Some (s1, r) ->
     (10 < lba -> written s1 = true) /\
     (lba = 7 ->
      buffer !! 32%nat = Some 0xE5 \/ buffer !! 64%nat = Some 0xE5 \/
      buffer !! 160%nat = Some 0xE5 ->
      deleted s1 = true)) /\
  (forall lba buffer bufsize s1 buffer' r i s2 c,
     msc_read_callback lba buffer bufsize (snd m') = Some (s1, buffer', r) ->
     btn_rst i = true ->
     loop i s1 = (s2, c) ->
     (lba = BLOCK_README -> shown MSG_README s2 = S (shown MSG_README (snd m'))) /\
     (lba = BLOCK_AUTORUN -> shown MSG_AUTORUN s2 = S (shown MSG_AUTORUN (snd m')))).
Proof.
  intros Hboot Hrun.
  destruct (boot_spec XXH32 image m Hboot) as (_ & _ & _ & _ & Hinv & _).
  destruct (run_notified_once keycode2ascii m m' tr Hrun Hinv)
    as (Hinv' & _ & _ & _).
  pose proof Hinv' as (Hq & HW & HD).
  split; [|split; [|split]].
  - rewrite HW, HD. destruct (written_reported (snd m')), (deleted_reported (snd m'));
      cbn; lia.
  - intros tr2 m2 Hrun2.
    destruct (run_notified_once keycode2ascii m' m2 tr2 Hrun2 Hinv')
      as ((_ & HW2 & HD2) & Hw & Hd & _).
    split; intros Hset.
    + split; [auto|]. rewrite HW2, HW, Hset, (Hw Hset). reflexivity.
    + split; [auto|]. rewrite HD2, HD, Hset, (Hd Hset). reflexivity.
  - intros lba buffer bufsize s1 r Hwr. split.
    + intros Hlba. apply (write_view _ _ _ _ _ _ Hwr).
      apply Z.gtb_lt. lia.
    + intros -> Htomb. exact (write_tombstone _ _ _ _ _ Hwr Htomb).
  - intros lba buffer bufsize s1 buffer' r i s2 c Hrd Hbtn Hloop.
    destruct (read_view _ _ _ _ _ _ _ Hrd) as (Hv & Hr & Ha).
    injection Hv as Ho Hq1 _ _ _.
    assert (Hq' : q_items (display_queue s1) = []) by (rewrite Hq1; exact Hq).
    pose proof (loop_spec i s1 s2 c Hq' Hloop) as (_ & Hcase).
    rewrite Hbtn, andb_false_r in Hcase. cbv zeta iota in Hcase.
    destruct Hcase as (_ & _ & _ & _ & HR & HA).
    rewrite (shown_same MSG_README _ _ Ho) in HR.
    rewrite (shown_same MSG_AUTORUN _ _ Ho) in HA.
    split; intros ->.
    + rewrite HR, Hr, Z.eqb_refl, orb_true_r. cbn. lia.
    + rewrite HA, Ha, Z.eqb_refl, orb_true_r. cbn. lia.
Qed.

End ReportFacts.

(** ** Descriptor decoder *)

(** The descriptor of "AB" decodes to "AB" and a terminator. *)
Example decode_AB :
  exists m, utf16_to_utf8 (string_descriptor [65; 66] ++ repeat 0 58%nat) 64 = Some m /\
            take 3 m = [65; 66; 0] /\ c_str m = [65; 66] /\
            take 3 m = claimed_decoding [65; 66].
Proof. eexists. split; [vm_compute; reflexivity|]. repeat split. Qed.

(** A length byte below 2 wraps around in the conversion to [size_t]. *)
Example descriptor_units_wraps :
  descriptor_units 0 = 2 ^ 31 - 1 /\ descriptor_units 1 = 2 ^ 31 - 1 /\
  descriptor_units 6 = 2.
Proof. repeat split. Qed.

(** C6 (the code at the failing input).  The product descriptor of a
    device named with three HIRAGANA A (U+3042) and "A", in the 96-byte
    [product] buffer: the three-byte output of the third unit lands on the
    low byte of the fourth unit before that unit is read, so the fourth
    unit is read as U+0082 and encoded as C2 82, and the terminator, placed
    by the count of the bytes of the original units, then replaces the 82.
    The per-unit encoding of the four units with a terminator is
    E3 81 82, E3 81 82, E3 81 82, 41, 00. *)
Theorem decoder_reads_its_own_output :
  let units := [0x3042; 0x3042; 0x3042; 0x41] in
  let temp_buf := string_descriptor units ++ repeat 0 86%nat in
  length temp_buf = 96%nat /\
  claimed_decoding units = [0xE3; 0x81; 0x82; 0xE3; 0x81; 0x82; 0xE3; 0x81; 0x82; 0x41; 0] /\
  exists m, utf16_to_utf8 temp_buf 96 = Some m /\
            take 11 m = [0xE3; 0x81; 0x82; 0xE3; 0x81; 0x82; 0xE3; 0x81; 0x82; 0xC2; 0].
Proof.
  cbv zeta. split; [reflexivity|]. split; [reflexivity|].
  eexists. split; [vm_compute; reflexivity | reflexivity].
Qed.

(** C5 (the code at the failing input).  A manufacturer descriptor that
    fills the 64-byte [manufacturer] buffer with 31 code units U+3042: the
    conversion is handed [buf_len = 64], returns, and has stored 30 bytes
    past the end of the buffer, over the first bytes of [product]. *)
Theorem decoder_writes_past_destination :
  let temp_buf := string_descriptor (repeat 0x3042 31%nat) in
  length temp_buf = 64%nat /\
  exists m, utf16_to_utf8 (temp_buf ++ after_manufacturer) 64 = Some m /\
            drop 64 m <> after_manufacturer /\
            take 30 (drop 64 m) =
              [186; 170; 234; 138; 162; 234; 171; 170; 238; 174; 175; 234; 186; 171; 234;
               139; 174; 238; 170; 174; 232; 170; 170; 234; 191; 171; 238; 186; 170; 0] /\
            drop 94 m = drop 30 after_manufacturer.
Proof.
  cbv zeta. split; [reflexivity|].
  eexists. split; [vm_compute; reflexivity|].
  split; [discriminate|]. split; reflexivity.
Qed.

(** *** The decoder where output does not overtake input *)

Lemma store_bytes_spec (bs m : bytes) (p : nat) :
  (p + length bs <= length m)%nat ->
  store_bytes m p bs = Some (take p m ++ bs ++ drop (p + length bs) m).
Proof.
  revert m p. induction bs as [|b bs IH]; intros m p Hfit; cbn [store_bytes length] in *.
  - rewrite Nat.add_0_r. cbn [app]. rewrite take_drop. reflexivity.
  - unfold mem_set. destruct (decide (p < length m)%nat) as [Hp|]; [|lia].
    rewrite bind_Some. rewrite IH by (rewrite length_insert; lia).
    rewrite take_insert_lt by lia. rewrite drop_insert_lt by lia.
    destruct (lookup_lt_is_Some_2 m p Hp) as [x Hx].
    rewrite (take_S_r m p x Hx).
    rewrite insert_app_r_alt by (rewrite length_take; lia).
    rewrite length_take. replace (p - p `min` length m)%nat with 0%nat by lia.
    cbn [insert list_insert]. rewrite <- app_assoc. cbn [app plus].
    replace (S (p + length bs)) with (p + S (length bs))%nat by lia. reflexivity.
Qed.

Lemma utf8_encode_length (chr : Z) : Z.of_nat (length (utf8_encode chr)) = utf8_size chr.
Proof.
  unfold utf8_encode, utf8_size.
  destruct (chr <? 128); [reflexivity|]. destruct (chr <? 2048); reflexivity.
Qed.

Lemma utf8_encode_length_le (chr : Z) : (1 <= length (utf8_encode chr) <= 3)%nat.
Proof.
  unfold utf8_encode.
  destruct (chr <? 128); [cbn; lia|]. destruct (chr <? 2048); cbn; lia.
Qed.

(** Reading a code unit that is still as the device sent it. *)
Lemma read_u16_le16 (m rest : bytes) (i : nat) (u : Z) :
  0 <= u < 2 ^ 16 ->
  drop (2 * i) m = le16 u ++ rest ->
  read_u16 m i = Some u.
Proof.
  intros Hu Hdrop. unfold read_u16.
  assert (H0 : m !! (2 * i)%nat = Some (u mod 256)).
  { rewrite <- (Nat.add_0_r (2 * i)), <- lookup_drop, Hdrop. reflexivity. }
  assert (H1 : m !! (2 * i + 1)%nat = Some (u / 256)).
  { rewrite <- lookup_drop, Hdrop. reflexivity. }
  rewrite H0, H1. cbn [mbind option_bind]. f_equal.
  pose proof (Z.div_mod u 256). lia.
Qed.

Lemma convert_loop_spec (pad rest : bytes) :
  forall (done : list Z) (m : bytes) (i p : nat),
    i = length done ->
    p = length (flat_map utf8_encode done) ->
    Forall (fun u => 0 <= u < 2 ^ 16) rest ->
    take p m = flat_map utf8_encode done ->
    drop (2 * i + 2) m = flat_map le16 rest ++ pad ->
    (forall k, (k <= length rest)%nat ->
       (length (flat_map utf8_encode (done ++ take k rest)) <= 2 * (i + k) + 2)%nat) ->
    exists m',
      convert_loop m 1 i (length rest) p = Some m' /\
      length m' = length m /\
      take (length (flat_map utf8_encode (done ++ rest))) m'
        = flat_map utf8_encode (done ++ rest).
Proof.
  induction rest as [|u rest IH]; intros done m i p Hi Hp Hrange Htake Hdrop Hroom.
  - exists m. rewrite app_nil_r, <- Hp. auto.
  - inversion Hrange as [|? ? Hu Hrange']; subst.
    cbn [length convert_loop flat_map] in *. rewrite <- app_assoc in Hdrop.
    assert (Hlen : (2 * length done + 2 + 2 + length (flat_map le16 rest ++ pad)
                    <= length m)%nat).
    { apply (f_equal length) in Hdrop. rewrite length_drop in Hdrop. cbn in Hdrop. lia. }
    rewrite (read_u16_le16 m (flat_map le16 rest ++ pad) (1 + length done) u Hu)
      by (rewrite <- Hdrop; f_equal; lia).
    rewrite bind_Some.
    pose proof (Hroom 1%nat ltac:(lia)) as Hroom1.
    cbn [take] in Hroom1. rewrite take_0, flat_map_app, length_app in Hroom1.
    cbn [flat_map] in Hroom1. rewrite app_nil_r in Hroom1.
    set (p := length (flat_map utf8_encode done)) in *.
    set (sz := length (utf8_encode u)) in *.
    rewrite store_bytes_spec by (fold sz; lia). fold sz. rewrite bind_Some.
    set (m1 := take p m ++ utf8_encode u ++ drop (p + sz) m).
    assert (Hlen1 : length m1 = length m).
    { subst m1. rewrite !length_app, length_take, length_drop. fold sz. lia. }
    destruct (IH (done ++ [u]) m1 (S (length done)) (p + sz)%nat) as (m' & Hc & Hl & Ht).
    + rewrite length_app. cbn. lia.
    + rewrite flat_map_app, length_app. cbn [flat_map]. rewrite app_nil_r. reflexivity.
    + exact Hrange'.
    + subst m1. rewrite app_assoc, take_app_length'.
      * rewrite flat_map_app, Htake. cbn [flat_map]. rewrite app_nil_r. reflexivity.
      * rewrite length_app, length_take. fold sz. lia.
    + subst m1. rewrite app_assoc, drop_app_ge by (rewrite length_app, length_take; fold sz; lia).
      rewrite length_app, length_take, drop_drop. fold sz.
      replace (p + sz + (2 * S (length done) + 2 - (p `min` length m + sz)))%nat
        with (2 * length done + 2 + 2)%nat by lia.
      rewrite <- drop_drop, Hdrop. reflexivity.
    + intros k Hk. specialize (Hroom (S k) ltac:(lia)).
      cbn [take] in Hroom. rewrite <- app_assoc. cbn [app].
      replace (S (length done) + k)%nat with (length done + S k)%nat by lia. exact Hroom.
    + exists m'. split; [exact Hc|]. split; [congruence|].
      rewrite <- app_assoc in Ht. exact Ht.
Qed.

Lemma count_loop_spec (pad rest : bytes) (m : bytes) :
  forall (i : nat) (total : Z),
    Forall (fun u => 0 <= u < 2 ^ 16) rest ->
    drop (2 * i + 2) m = flat_map le16 rest ++ pad ->
    0 <= total -> total + 3 * Z.of_nat (length rest) < 2 ^ 32 ->
    count_loop m 1 i (length rest) total
      = Some (total + Z.of_nat (length (flat_map utf8_encode rest))).
Proof.
  induction rest as [|u rest IH]; intros i total Hrange Hdrop H0 Hmax.
  - cbn. rewrite Z.add_0_r. reflexivity.
  - inversion Hrange as [|? ? Hu Hrange']; subst.
    cbn [length count_loop flat_map] in *. rewrite <- app_assoc in Hdrop.
    rewrite (read_u16_le16 m (flat_map le16 rest ++ pad) (1 + i) u Hu)
      by (rewrite <- Hdrop; f_equal; lia).
    rewrite bind_Some.
    pose proof (utf8_encode_length u) as Hsz. pose proof (utf8_encode_length_le u) as Hle.
    unfold u32. rewrite Z.mod_small by lia.
    rewrite IH; try assumption; try lia.
    + rewrite length_app. f_equal. lia.
    + replace (2 * S i + 2)%nat with (2 * i + 2 + 2)%nat by lia.
      rewrite <- drop_drop, Hdrop. reflexivity.
Qed.

(** The length byte of a descriptor of at most 126 code units gives their
    number back. *)
Lemma descriptor_units_of_length (n : nat) :
  (n <= 126)%nat ->
  descriptor_units ((2 + 2 * Z.of_nat n) + 256 * 3) = Z.of_nat n.
Proof.
  intros Hn. unfold descriptor_units, u32.
  change 0xff with (Z.ones 8). rewrite Z.land_ones by lia.
  replace ((2 + 2 * Z.of_nat n + 256 * 3) mod 2 ^ 8) with (2 + 2 * Z.of_nat n).
  - replace (2 + 2 * Z.of_nat n - 2) with (Z.of_nat n * 2) by lia.
    rewrite Z.mod_small by lia. apply Z.div_mul. lia.
  - change (2 ^ 8) with 256. replace (256 * 3) with (3 * 256) by lia.
    rewrite Z_mod_plus_full, Z.mod_small by lia. reflexivity.
Qed.

(** The conversion in place is exact as long as the output stays behind
    the unit being read. *)
Lemma decoder_in_place_exact (units pad : bytes) (buf_len : Z) :
  Forall (fun u => 0 <= u < 2 ^ 16) units ->
  (length units <= 126)%nat ->
  (forall k, (k <= length units)%nat ->
     (length (flat_map utf8_encode (take k units)) <= 2 * k + 2)%nat) ->
  (length (flat_map utf8_encode units) < 2 + 2 * length units + length pad)%nat ->
  exists m,
    utf16_to_utf8 (string_descriptor units ++ pad) buf_len = Some m /\
    length m = length (string_descriptor units ++ pad) /\
    take (length (claimed_decoding units)) m = claimed_decoding units.
Proof.
  intros Hrange Hn Hroom Hfit.
  set (m0 := string_descriptor units ++ pad).
  assert (Hdrop : drop (2 * 0 + 2) m0 = flat_map le16 units ++ pad) by reflexivity.
  assert (Hlen0 : length m0 = (2 + 2 * length units + length pad)%nat).
  { apply (f_equal length) in Hdrop. rewrite length_drop, length_app in Hdrop.
    subst m0. unfold string_descriptor in *. rewrite !length_app in *. cbn [length] in *.
    assert (length (flat_map le16 units) = (2 * length units)%nat).
    { clear. induction units as [|u us IH]; cbn; lia. }
    lia. }
  unfold utf16_to_utf8.
  assert (Hfirst : read_u16 m0 0 = Some ((2 + 2 * Z.of_nat (length units)) + 256 * 3))
    by reflexivity.
  rewrite Hfirst, bind_Some, descriptor_units_of_length by exact Hn.
  unfold _count_utf8_bytes, _convert_utf16le_to_utf8. rewrite Nat2Z.id.
  set (total := length (flat_map utf8_encode units)) in *.
  assert (Htotal : (total <= 3 * length units)%nat).
  { subst total. clear. induction units as [|u us IH]; [cbn; lia|].
    cbn [flat_map length]. rewrite length_app.
    pose proof (utf8_encode_length_le u). lia. }
  rewrite (count_loop_spec pad units m0 0 0 Hrange Hdrop) by lia.
  rewrite bind_Some. fold total. rewrite Z.add_0_l, bind_Some.
  rewrite int32_of_small by lia. unfold u32 at 1. rewrite Z.mod_small by lia.
  destruct (convert_loop_spec pad units [] m0 0 0 eq_refl eq_refl Hrange eq_refl Hdrop)
    as (m1 & Hconv & Hlen1 & Htake1).
  { intros k Hk. cbn [app]. apply (Hroom k Hk). }
  cbn [app] in Htake1. fold total in Htake1.
  rewrite Hconv, bind_Some, Nat2Z.id. unfold mem_set.
  destruct (decide (total < length m1)%nat) as [Hin|]; [|lia].
  eexists. split; [reflexivity|]. split; [rewrite length_insert; exact Hlen1|].
  unfold claimed_decoding. rewrite length_app. fold total. cbn [length].
  replace (total + 1)%nat with (S total) by lia.
  rewrite (take_S_r _ total 0) by (apply list_lookup_insert_eq; exact Hin).
  rewrite take_insert_ge by lia. rewrite Htake1. reflexivity.
Qed.

(** X4.  Where the decoder is exact: for a descriptor of code units such
    that the UTF-8 bytes of the first [k] units never take more room than
    the [2 * k + 2] bytes read so far, whose output with its terminator
    fits the memory, the buffer ends up holding the UTF-8 bytes of each
    unit in turn, then a terminator. *)
Theorem decoder_exact_without_overlap (units pad : bytes) (buf_len : Z) :
  Forall (fun u => 0 <= u < 2 ^ 16) units ->
  (length units <= 126)%nat ->
  (forall k, (k <= length units)%nat ->
     (length (flat_map utf8_encode (take k units)) <= 2 * k + 2)%nat) ->
  (length (flat_map utf8_encode units) < 2 + 2 * length units + length pad)%nat ->
  exists m,
    utf16_to_utf8 (string_descriptor units ++ pad) buf_len = Some m /\
    length m = length (string_descriptor units ++ pad) /\
    take (length (claimed_decoding units)) m = claimed_decoding units.
Proof. apply decoder_in_place_exact. Qed.

(** X5.  Code units below 0x800 take at most two bytes each, so a
    descriptor of such units, as "AB", is decoded unit by unit, with a
    terminator after the last byte. *)
Theorem decoder_exact_below_0x800 (units pad : bytes) (buf_len : Z) :
  Forall (fun u => 0 <= u < 0x800) units ->
  (length units <= 126)%nat ->
  exists m,
    utf16_to_utf8 (string_descriptor units ++ pad) buf_len = Some m /\
    take (length (claimed_decoding units)) m = claimed_decoding units.
Proof.
  intros Hsmall Hn.
  assert (Hsize : forall l, Forall (fun u => 0 <= u < 0x800) l ->
                    (length (flat_map utf8_encode l) <= 2 * length l)%nat).
  { induction 1 as [|u l Hu _ IH]; [cbn; lia|].
    cbn [flat_map length]. rewrite length_app.
    assert (length (utf8_encode u) <= 2)%nat; [|lia].
    unfold utf8_encode. destruct (u <? 128); [cbn; lia|].
    destruct (Z.ltb_spec u 2048); [cbn; lia | lia]. }
  destruct (decoder_in_place_exact units pad buf_len) as (m & Hm & _ & Ht).
  - eapply Forall_impl; [exact Hsmall|]. cbn. intros u Hu. lia.
  - exact Hn.
  - intros k Hk. pose proof (Hsize (take k units) (Forall_take _ _ _ Hsmall)) as H.
    rewrite length_take in H. lia.
  - pose proof (Hsize units Hsmall). lia.
  - exists m. auto.
Qed.

Lemma decoder_exact_below_0x800_witness :
  exists m,
    utf16_to_utf8 (string_descriptor [65; 0xE9; 0x3A9] ++ repeat 0 56%nat) 64 = Some m /\
    take (length (claimed_decoding [65; 0xE9; 0x3A9])) m
      = claimed_decoding [65; 0xE9; 0x3A9].
Proof.
  apply (decoder_exact_below_0x800 [65; 0xE9; 0x3A9] (repeat 0 56%nat) 64).
  - repeat constructor; lia.
  - cbn. lia.
Defined.

Lemma decoder_exact_without_overlap_witness :
  exists m,
    utf16_to_utf8 (string_descriptor [65; 0xE9; 0x3042] ++ repeat 0 56%nat) 64 = Some m /\
    length m = length (string_descriptor [65; 0xE9; 0x3042] ++ repeat 0 56%nat) /\
    take (length (claimed_decoding [65; 0xE9; 0x3042])) m
      = claimed_decoding [65; 0xE9; 0x3042].
Proof.
  apply (decoder_exact_without_overlap [65; 0xE9; 0x3042] (repeat 0 56%nat) 64).
  - repeat constructor; lia.
  - cbn. lia.
  - intros k Hk. cbn in Hk.
    destruct k as [|[|[|[|k]]]]; cbn; lia.
  - cbn. lia.
Defined.

(** ** HID monitor *)

(** C7 (counterexample).  "a" without CTRL, then "b" with the left CTRL
    bit: the second report prints the single character "b". *)
Lemma ctrl_prefix_does_not_return : ~ claimed_ctrl_prefix_returns letter_rows.
Proof.
  intros H.
  assert (Hin : In (Txt "CTRL+") [Chr 98]).
  { apply (H zero_kbd_report (key_report 0 4) (key_report KEYBOARD_MODIFIER_LEFTCTRL 5)).
    - apply Nat.ltb_lt. vm_compute. reflexivity.
    - vm_compute. reflexivity.
    - apply Nat.ltb_lt. vm_compute. reflexivity.
    - vm_compute. reflexivity.
    - vm_compute. reflexivity. }
  destruct Hin as [E | [ ]]. discriminate E.
Qed.

(** The scenario of the specification: four presses with CTRL, one
    without, one with CTRL again.  Only the six letters are printed. *)
Example ctrl_scenario :
  exists s,
    process_kbd_reports letter_rows
      [key_report 1 4; key_report 1 5; key_report 1 6; key_report 1 7;
       key_report 0 8; key_report 1 9] (power_on []) = Some s /\
    serial s = [Chr 97; Chr 98; Chr 99; Chr 100; Chr 101; Chr 102].
Proof. eexists. split; [vm_compute; reflexivity | reflexivity]. Qed.

(** C8 (counterexample).  One keyboard report with two fresh keys, "a"
    and "b": the counter goes from 0 to 1. *)
Lemma hid_event_num_is_not_a_key_count : ~ claimed_key_event_counter letter_rows.
Proof.
  intros H.
  destruct (tuh_hid_report_received_cb letter_rows 1 [0; 0; 4; 5; 0; 0; 0; 0] true
              (power_on [])) as [s'|] eqn:Hcb; [|vm_compute in Hcb; discriminate Hcb].
  specialize (H 1 [0; 0; 4; 5; 0; 0; 0; 0] true
                {| modifier := 0; reserved := 0; keycode := [4; 5; 0; 0; 0; 0] |}
                (power_on []) s' eq_refl Hcb).
  vm_compute in Hcb. injection Hcb as <-. vm_compute in H. discriminate H.
Qed.

Lemma check_special_key_no_ctrl (code : Z) : ~ In (Txt "CTRL+") (check_special_key code).
Proof.
  unfold check_special_key. intros Hin. apply in_flat_map in Hin as (row & Hrow & Hin).
  destruct (code =? fst row); [|destruct Hin].
  destruct Hin as [E | [ ]]. injection E as E.
  assert (Hall : List.Forall (fun row => snd row <> "CTRL+") special_keys)
    by (unfold special_keys; repeat (constructor; [discriminate|]); constructor).
  exact (proj1 (List.Forall_forall _ _) Hall row Hrow E).
Qed.

(** The three tests of [process_kbd_report] on the modifier byte look at
    bits outside the two CTRL bits. *)
Lemma land_outside_ctrl (m m' mask : Z) :
  Z.land m' 0xEE = Z.land m 0xEE ->
  Z.land 0xEE mask = mask ->
  Z.land m' mask = Z.land m mask.
Proof.
  intros Hm Hmask. rewrite <- Hmask, !Z.land_assoc, Hm. reflexivity.
Qed.

Section HidFacts.

Variable keycode2ascii : list (Z * Z).

Lemma kbd_slot_no_ctrl (prev report : hid_keyboard_report_t) (kc : Z) (out : list sout) :
  kbd_slot keycode2ascii prev report kc = Some out -> ~ In (Txt "CTRL+") out.
Proof.
  unfold kbd_slot, mbind, option_bind. intros H Hin.
  destruct (fresh_key prev kc); [|injection H as <-; destruct Hin].
  destruct (keycode2ascii !! Z.to_nat kc) as [row|]; [|discriminate H].
  injection H as <-.
  apply in_app_or in Hin as [Hin | Hin];
    [|apply in_app_or in Hin as [Hin | Hin];
      [|apply in_app_or in Hin as [Hin | Hin];
        [|destruct Hin as [E | Hin]; [discriminate E|]]]].
  - destruct (negb _); [destruct Hin as [E | [ ]]; discriminate E | destruct Hin].
  - destruct (negb _); [destruct Hin as [E | [ ]]; discriminate E | destruct Hin].
  - exact (check_special_key_no_ctrl kc Hin).
  - destruct (_ =? 13); [destruct Hin as [E | [ ]]; discriminate E | destruct Hin].
Qed.

Lemma kbd_slots_no_ctrl (prev report : hid_keyboard_report_t) (keys : list Z)
    (out : list sout) :
  kbd_slots keycode2ascii prev report keys = Some out -> ~ In (Txt "CTRL+") out.
Proof.
  revert out. induction keys as [|kc keys IH]; intros out H.
  - injection H as <-. intros [ ].
  - cbn [kbd_slots] in H. unfold mbind, option_bind in H.
    destruct (kbd_slot keycode2ascii prev report kc) as [o1|] eqn:E1; [|discriminate H].
    destruct (kbd_slots keycode2ascii prev report keys) as [o2|]; [|discriminate H].
    injection H as <-. intros Hin. apply in_app_or in Hin as [Hin | Hin].
    + exact (kbd_slot_no_ctrl _ _ _ _ E1 Hin).
    + exact (IH o2 eq_refl Hin).
Qed.

(** The printed tokens depend on the key codes of the previous report and
    on the report up to its CTRL bits. *)
Lemma kbd_slots_same_but_ctrl (prev prev' r r' : hid_keyboard_report_t) (keys : list Z) :
  keycode prev' = keycode prev -> same_but_ctrl r r' ->
  kbd_slots keycode2ascii prev' r' keys = kbd_slots keycode2ascii prev r keys.
Proof.
  intros Hprev [Hk Hm]. induction keys as [|kc keys IH]; [reflexivity|].
  cbn [kbd_slots]. rewrite IH. f_equal.
  unfold kbd_slot, fresh_key, find_key_in_report. rewrite Hprev.
  rewrite (land_outside_ctrl _ _ (Z.lor KEYBOARD_MODIFIER_LEFTSHIFT
                                    KEYBOARD_MODIFIER_RIGHTSHIFT) Hm eq_refl).
  rewrite (land_outside_ctrl _ _ (Z.lor KEYBOARD_MODIFIER_LEFTGUI
                                    KEYBOARD_MODIFIER_RIGHTGUI) Hm eq_refl).
  rewrite (land_outside_ctrl _ _ (Z.lor KEYBOARD_MODIFIER_LEFTALT
                                    KEYBOARD_MODIFIER_RIGHTALT) Hm eq_refl).
  reflexivity.
Qed.

Lemma process_kbd_report_spec (r : hid_keyboard_report_t) (s s' : State) :
  process_kbd_report keycode2ascii r s = Some s' ->
  exists out,
    kbd_slots keycode2ascii (kbd_prev_report s) r (take 6 (keycode r)) = Some out /\
    serial s' = serial s ++ out /\ kbd_prev_report s' = r /\
    hid_event_num s' = hid_event_num s.
Proof.
  unfold process_kbd_report, mbind, option_bind. intros H.
  destruct (kbd_slots _ _ _ _) as [out|]; [|discriminate H].
  injection H as <-. exists out. repeat split.
Qed.

(** Simulation: two runs over reports that differ in CTRL bits only print
    the same tokens. *)
Lemma process_kbd_reports_same_but_ctrl
    (reports reports' : list hid_keyboard_report_t) (s s' t : State) :
  Forall2 same_but_ctrl reports reports' ->
  serial t = serial s -> keycode (kbd_prev_report t) = keycode (kbd_prev_report s) ->
  process_kbd_reports keycode2ascii reports s = Some s' ->
  exists t', process_kbd_reports keycode2ascii reports' t = Some t' /\
             serial t' = serial s'.
Proof.
  intros Hrel. revert s t. induction Hrel as [|r r' rs rs' Hr _ IH]; intros s t Hser Hprev H.
  - injection H as <-. exists t. split; [reflexivity | exact Hser].
  - cbn [process_kbd_reports] in *. unfold mbind, option_bind in *.
    destruct (process_kbd_report keycode2ascii r s) as [s1|] eqn:E1; [|discriminate H].
    destruct (process_kbd_report_spec r s s1 E1) as (out & Hout & Hs1 & Hp1 & _).
    assert (E2 : process_kbd_report keycode2ascii r' t =
                 Some (set_kbd_prev_report r' (ser out t))).
    { unfold process_kbd_report. destruct Hr as [Hk Hm]. rewrite Hk.
      rewrite (kbd_slots_same_but_ctrl (kbd_prev_report s) (kbd_prev_report t) r r')
        by (auto; split; auto).
      rewrite Hout. reflexivity. }
    rewrite E2. apply (IH s1); [| |exact H].
    + cbn. rewrite Hs1, Hser. reflexivity.
    + cbn. rewrite Hp1. apply Hr.
Qed.

(** C7 (as amended).  [process_kbd_report] keeps no CTRL run counter and
    prints no CTRL prefix at all: over any sequence of keyboard reports the
    serial output gains no "CTRL+" token, and it is the same output when
    the CTRL bits of the reports are set or cleared at will. *)
Theorem ctrl_prefix_never_printed
    (reports : list hid_keyboard_report_t) (s s' : State) :
  process_kbd_reports keycode2ascii reports s = Some s' ->
  (exists out, serial s' = serial s ++ out /\ ~ In (Txt "CTRL+") out) /\
  (forall reports', Forall2 same_but_ctrl reports reports' ->
     exists s'', process_kbd_reports keycode2ascii reports' s = Some s'' /\
                 serial s'' = serial s').
Proof.
  intros H. split.
  - revert s H. induction reports as [|r rs IH]; intros s H.
    + injection H as <-. exists []. rewrite app_nil_r. split; [reflexivity | intros [ ]].
    + cbn [process_kbd_reports] in H. unfold mbind, option_bind in H.
      destruct (process_kbd_report keycode2ascii r s) as [s1|] eqn:E1; [|discriminate H].
      destruct (process_kbd_report_spec r s s1 E1) as (o1 & Ho1 & Hs1 & _).
      destruct (IH s1 H) as (o2 & Hs' & Hno).
      exists (o1 ++ o2). rewrite Hs', Hs1, app_assoc. split; [reflexivity|].
      intros Hin. apply in_app_or in Hin as [Hin | Hin]; [|exact (Hno Hin)].
      exact (kbd_slots_no_ctrl _ _ _ _ Ho1 Hin).
  - intros reports' Hrel.
    exact (process_kbd_reports_same_but_ctrl reports reports' s s' s Hrel
             eq_refl eq_refl H).
Qed.

End HidFacts.

Lemma ctrl_prefix_never_printed_witness :
  (exists out,
      serial (set_kbd_prev_report (key_report 1 5)
                (ser [Chr 98] (set_kbd_prev_report (key_report 0 4)
                                 (ser [Chr 97] (power_on [])))))
        = serial (power_on []) ++ out /\ ~ In (Txt "CTRL+") out) /\
  (forall reports',
      Forall2 same_but_ctrl [key_report 0 4; key_report 1 5] reports' ->
      exists s'', process_kbd_reports letter_rows reports' (power_on []) = Some s'' /\
                  serial s'' =
                    serial (set_kbd_prev_report (key_report 1 5)
                              (ser [Chr 98] (set_kbd_prev_report (key_report 0 4)
                                               (ser [Chr 97] (power_on [])))))).
Proof.
  apply (ctrl_prefix_never_printed letter_rows [key_report 0 4; key_report 1 5]
           (power_on [])).
  vm_compute. reflexivity.
Defined.

Lemma u32_succ (n : Z) : u32 (u32 n + 1) = u32 (n + 1).
Proof. unfold u32. apply Z.add_mod_idemp_l. lia. Qed.

Section CounterFacts.

Variable keycode2ascii : list (Z * Z).

Lemma kbd_slots_total (prev report : hid_keyboard_report_t) (keys : list Z) :
  Forall (fun kc => (Z.to_nat kc < length keycode2ascii)%nat) keys ->
  exists out, kbd_slots keycode2ascii prev report keys = Some out.
Proof.
  induction 1 as [|kc keys Hkc _ [more IH]]; [exists []; reflexivity|].
  cbn [kbd_slots]. rewrite IH. unfold kbd_slot.
  destruct (fresh_key prev kc); [|eexists; reflexivity].
  destruct (lookup_lt_is_Some_2 keycode2ascii (Z.to_nat kc) Hkc) as [row ->].
  eexists. reflexivity.
Qed.

(** A report that lies in bounds for its protocol is processed to the
    end. *)
Lemma hid_report_total (itf : Z) (report : bytes) (ok : bool) (s : State) :
  report_in_bounds keycode2ascii itf report ->
  exists s', tuh_hid_report_received_cb keycode2ascii itf report ok s = Some s'.
Proof.
  intros Hin.
  assert (Hkbd : report_fits keycode2ascii report ->
                 forall t, exists t',
                   (r ← kbd_report_of report;
                    s ← process_kbd_report keycode2ascii r t;
                    Some (incr_hid_event_num s)) = Some t').
  { intros (r & Hr & Hkeys) t. rewrite Hr, bind_Some. unfold process_kbd_report.
    destruct (kbd_slots_total (kbd_prev_report t) r (take 6 (keycode r))) as [out ->];
      [apply Forall_take, Hkeys|].
    rewrite !bind_Some. eexists. reflexivity. }
  assert (Hmouse : (5 <= length report)%nat ->
                   exists mr, mouse_report_of report = Some mr).
  { intros Hlen. unfold mouse_report_of, mem_read.
    destruct (decide (0 + 5 <= length report)%nat) as [_|]; [|lia].
    rewrite drop_0, bind_Some.
    destruct report as [|b0 [|b1 [|b2 [|b3 [|b4 rest]]]]]; cbn in Hlen; try lia.
    eexists. reflexivity. }
  unfold report_in_bounds in Hin. unfold tuh_hid_report_received_cb.
  destruct (itf =? HID_ITF_PROTOCOL_KEYBOARD);
    [|destruct (itf =? HID_ITF_PROTOCOL_MOUSE)].
  - match goal with
    | |- context [process_kbd_report keycode2ascii _ ?t] =>
        destruct (Hkbd Hin t) as [t' ->]
    end.
    rewrite bind_Some. eexists. reflexivity.
  - destruct (Hmouse Hin) as [mr ->]. rewrite !bind_Some. eexists. reflexivity.
  - match goal with
    | |- context [process_kbd_report keycode2ascii _ ?t] =>
        destruct (Hkbd Hin t) as [t' ->]
    end.
    rewrite bind_Some. eexists. reflexivity.
Qed.

(** Whatever is received, the counter moves by one per report. *)
Lemma receive_reports_counter (reports : list (Z * bytes * bool)) (s s' : State) :
  receive_reports keycode2ascii reports s = Some s' ->
  u32 (hid_event_num s') = u32 (hid_event_num s + Z.of_nat (length reports)) /\
  (reports <> [] -> 0 <= hid_event_num s' < 2 ^ 32).
Proof.
  revert s. induction reports as [|[[itf report] ok] rest IH]; intros s Hrun.
  - injection Hrun as <-. cbn [length]. rewrite Z.add_0_r.
    split; [reflexivity|]. intros Hne. contradiction.
  - cbn [receive_reports] in Hrun.
    destruct (tuh_hid_report_received_cb keycode2ascii itf report ok s) as [s1|] eqn:H1;
      [|discriminate Hrun].
    rewrite bind_Some in Hrun.
    destruct (hid_report_view _ _ _ _ _ _ H1) as (_ & Hn1).
    destruct (IH s1 Hrun) as (Hn & Hrg). split.
    + rewrite Hn, Hn1. cbn [length]. rewrite Nat2Z.inj_succ.
      unfold u32. rewrite Zplus_mod_idemp_l. f_equal. lia.
    + intros _. destruct rest as [|x rest'].
      * injection Hrun as <-. rewrite Hn1. unfold u32. apply Z.mod_pos_bound. lia.
      * apply Hrg. discriminate.
Qed.

(** C8 (as amended).  [hid_event_num] counts reports, not key presses.
    Every report the callback is handed (keyboard, mouse or any other
    protocol, with or without a fresh key, whatever its bytes) adds one to
    the 32-bit counter: whenever a sequence of [n] reports has been
    processed the counter holds its first value plus [n], modulo 2^32.  The
    sequence is processed to the end as soon as each report lies in bounds
    for the branch that reads it (five bytes for a mouse; a keyboard report
    whose key codes index [keycode2ascii] otherwise).  Unplugging the
    device puts the counter back to zero. *)
Theorem hid_event_num_counts_reports
    (reports : list (Z * bytes * bool)) (s : State) :
  0 <= hid_event_num s < 2 ^ 32 ->
  (forall s', receive_reports keycode2ascii reports s = Some s' ->
     hid_event_num s' = u32 (hid_event_num s + Z.of_nat (length reports))) /\
  (Forall (fun x => report_in_bounds keycode2ascii (fst (fst x)) (snd (fst x))) reports ->
   exists s', receive_reports keycode2ascii reports s = Some s') /\
  (forall a i s', hid_event_num (tuh_hid_umount_cb a i s') = 0).
Proof.
  intros Hrange. split; [|split].
  - intros s' Hrun.
    destruct (receive_reports_counter reports s s' Hrun) as (Hn & Hrg).
    destruct reports as [|x rest].
    + injection Hrun as <-. cbn [length]. rewrite Z.add_0_r. unfold u32.
      rewrite Z.mod_small by exact Hrange. reflexivity.
    + rewrite <- Hn. unfold u32. rewrite Z.mod_small; [reflexivity|].
      apply Hrg. discriminate.
  - intros Hin. revert s Hrange.
    induction Hin as [|[[itf report] ok] rest Hr _ IH]; intros s Hrange.
    + exists s. reflexivity.
    + cbn [snd fst] in Hr.
      destruct (hid_report_total itf report ok s Hr) as [s1 H1].
      destruct (hid_report_view _ _ _ _ _ _ H1) as (_ & Hn1).
      destruct (IH s1) as [s' Hs'].
      { rewrite Hn1. unfold u32. apply Z.mod_pos_bound. lia. }
      exists s'. cbn [receive_reports]. rewrite H1, bind_Some. exact Hs'.
  - reflexivity.
Qed.

End CounterFacts.

Lemma hid_event_num_counts_reports_witness :
  exists s',
    receive_reports letter_rows
      [(1, [0; 0; 4; 5; 0; 0; 0; 0], true); (1, [0; 0; 0; 0; 0; 0; 0; 0], true);
       (2, [1; 0; 255; 0; 0; 0; 0; 0], true); (2, [0; 5; 251; 0; 0], true);
       (0, [2; 0; 4; 0; 0; 0; 0; 0], false)] (power_on []) = Some s' /\
    hid_event_num s' = u32 (hid_event_num (power_on []) + Z.of_nat 5) /\
    hid_event_num (tuh_hid_umount_cb 1 0 s') = 0.
Proof.
  destruct (hid_event_num_counts_reports letter_rows
              [(1, [0; 0; 4; 5; 0; 0; 0; 0], true); (1, [0; 0; 0; 0; 0; 0; 0; 0], true);
               (2, [1; 0; 255; 0; 0; 0; 0; 0], true); (2, [0; 5; 251; 0; 0], true);
               (0, [2; 0; 4; 0; 0; 0; 0; 0], false)] (power_on []))
    as (Hcount & Htotal & Hreset).
  { cbn. lia. }
  destruct Htotal as [s' Hs'].
  { assert (Hfit : forall a b c d e f g h,
               Forall (fun kc => (Z.to_nat kc < length letter_rows)%nat) [c; d; e; f; g; h] ->
               report_fits letter_rows [a; b; c; d; e; f; g; h]).
    { intros a b c d e f g h Hk. eexists. split; [reflexivity | exact Hk]. }
    repeat (apply Forall_cons; split); try apply Forall_nil_2; cbn [fst snd];
      unfold report_in_bounds;
      first [ apply Hfit; repeat (apply Forall_cons; split); try apply Forall_nil_2;
              vm_compute; lia
            | cbn; lia ]. }
  exists s'. split; [exact Hs'|]. split; [apply Hcount; exact Hs' | apply Hreset].
Defined.

(** Unplugging the HID device puts the counter back to zero. *)
Lemma hid_umount_resets_counter (a i : Z) (s : State) :
  hid_event_num (tuh_hid_umount_cb a i s) = 0.
Proof. reflexivity. Qed.

Lemma one_shot_reports_witness :
  exists m m',
    boot accepting_hash blank_disk = Some m /\
    run [] m two_writes m' /\
    shown MSG_WRITING (snd m') = 1%nat /\
    ((shown MSG_WRITING (snd m') <= 1)%nat /\ (shown MSG_DELETING (snd m') <= 1)%nat) /\
    (forall tr2 m2, run [] m' tr2 m2 ->
       (written_reported (snd m') = true ->
        written_reported (snd m2) = true /\
        shown MSG_WRITING (snd m2) = shown MSG_WRITING (snd m')) /\
       (deleted_reported (snd m') = true ->
        deleted_reported (snd m2) = true /\
        shown MSG_DELETING (snd m2) = shown MSG_DELETING (snd m'))) /\
    (forall lba buffer bufsize s1 r,
       msc_write_callback lba buffer bufsize (snd m') = Some (s1, r) ->
       (10 < lba -> written s1 = true) /\
       (lba = 7 ->
        buffer !! 32%nat = Some 0xE5 \/ buffer !! 64%nat = Some 0xE5 \/
        buffer !! 160%nat = Some 0xE5 ->
        deleted s1 = true)) /\
    (forall lba buffer bufsize s1 buffer' r i s2 c,
       msc_read_callback lba buffer bufsize (snd m') = Some (s1, buffer', r) ->
       btn_rst i = true ->
       loop i s1 = (s2, c) ->
       (lba = BLOCK_README -> shown MSG_README s2 = S (shown MSG_README (snd m'))) /\
       (lba = BLOCK_AUTORUN -> shown MSG_AUTORUN s2 = S (shown MSG_AUTORUN (snd m')))).
Proof.
  assert (Hlen : length blank_disk = Z.to_nat (DISK_BLOCK_NUM * DISK_BLOCK_SIZE))
    by (unfold blank_disk; apply repeat_length).
  destruct (boot_total accepting_hash blank_disk _ (hashed_bytes_ok blank_disk Hlen))
    as [[c0 s0] Hboot].
  destruct (boot_spec accepting_hash blank_disk _ Hboot)
    as (input & _ & Hgate & Hc & Hinv & Hwr & _).
  cbn [fst snd] in Hgate, Hc, Hinv, Hwr. unfold accepting_hash in Hgate, Hc.
  rewrite Z.eqb_refl in Hgate, Hc. subst c0.
  pose proof (write_beyond_guard s0 400 512 [] ltac:(unfold DISK_BLOCK_NUM; lia)) as Hw1.
  set (s1 := ser _ (set_written true s0)) in Hw1.
  destruct (loop idle_pass s1) as [s2 c2] eqn:Hl1.
  assert (Hq1 : q_items (display_queue s1) = []) by apply Hinv.
  pose proof (loop_spec idle_pass s1 s2 c2 Hq1 Hl1) as ((Lq & Lb & _) & L1).
  cbn [btn_rst idle_pass negb andb] in L1. rewrite andb_false_r in L1.
  cbv zeta iota in L1. destruct L1 as (Lwr & _ & LW & _).
  assert (Hc2 : c2 = Looping).
  { unfold loop in Hl1. rewrite (drain_queue_empty s1 Hq1) in Hl1.
    destruct (poll_btn_rst (btn_rst idle_pass) s1) as [sx r] eqn:Hb.
    destruct (poll_btn_rst_spec _ _ _ _ Hb) as (_ & _ & _ & _ & _ & _ & _ & _ & _ & ->).
    cbn [btn_rst idle_pass negb andb] in Hl1. rewrite andb_false_r in Hl1.
    injection Hl1 as _ <-. reflexivity. }
  subst c2.
  pose proof (write_beyond_guard s2 400 512 [] ltac:(unfold DISK_BLOCK_NUM; lia)) as Hw2.
  set (s3 := ser _ (set_written true s2)) in Hw2.
  destruct (loop idle_pass s3) as [s4 c4] eqn:Hl2.
  assert (Hq3 : q_items (display_queue s3) = []) by (cbn; rewrite Lq; exact Hq1).
  pose proof (loop_spec idle_pass s3 s4 c4 Hq3 Hl2) as (_ & L2).
  cbn [btn_rst idle_pass negb andb] in L2. rewrite andb_false_r in L2.
  cbv zeta iota in L2. destruct L2 as (_ & _ & LW2 & _).
  assert (Hrun : run [] (Looping, s0) two_writes (c4, s4)).
  { unfold two_writes.
    eapply run_cons; [eapply step_write; [exact Hgate | exact Hw1]|].
    eapply run_cons; [eapply step_loop; exact Hl1|].
    eapply run_cons; [eapply step_write; [cbn; rewrite Lb; exact Hgate | exact Hw2]|].
    eapply run_cons; [eapply step_loop; exact Hl2|]. apply run_nil. }
  exists (Looping, s0), (c4, s4).
  split; [exact Hboot|]. split; [exact Hrun|]. split.
  - cbn [snd]. rewrite LW2.
    change (written s3) with true. change (written_reported s3) with (written_reported s2).
    change (shown MSG_WRITING s3) with (shown MSG_WRITING s2).
    rewrite LW, Lwr. change (written s1) with true.
    change (written_reported s1) with (written_reported s0).
    change (shown MSG_WRITING s1) with (shown MSG_WRITING s0).
    destruct Hinv as (_ & -> & _). rewrite Hwr. reflexivity.
  - exact (one_shot_reports accepting_hash [] blank_disk _ _ _ Hboot Hrun).
Defined.

(** ** The HID monitor of the later revision *)

Lemma later_marker_is_no_prefix (kc : Z) (marker : string) :
  Rev040.get_special_key_marker kc = Some marker -> marker <> "CTRL+".
Proof.
  unfold Rev040.get_special_key_marker. intros H.
  destruct (List.find _ _) as [row|] eqn:Hf; [|discriminate].
  injection H as <-. apply find_some in Hf as [Hin _].
  assert (A : Forall (fun row => snd row <> "CTRL+") Rev040.special_key_markers).
  { unfold Rev040.special_key_markers.
    repeat (apply Forall_cons; split; [cbn; discriminate|]). apply Forall_nil_2. }
  rewrite Forall_forall in A. apply A. now apply list_elem_of_In.
Qed.

Lemma later_key_output_filtered (m kc ch : Z) :
  ~ In (Txt "CTRL+") (Rev040.key_output true m kc ch).
Proof.
  unfold Rev040.key_output. cbv zeta.
  destruct (negb (Rev040.has_output kc ch)); [intros []|].
  rewrite andb_false_r. cbn [app].
  intros Hin. apply in_app_or in Hin as [Hin|Hin].
  { destruct (Rev040.bit_set _ Rev040.GUI_BITS); cbn in Hin; [|easy].
    destruct Hin as [E|[]]; discriminate E. }
  apply in_app_or in Hin as [Hin|Hin].
  { destruct (Rev040.bit_set _ Rev040.ALT_BITS); cbn in Hin; [|easy].
    destruct Hin as [E|[]]; discriminate E. }
  destruct (Rev040.get_special_key_marker kc) as [marker|] eqn:Hm.
  - apply later_marker_is_no_prefix in Hm.
    destruct Hin as [E|Hin]; [injection E as E; contradiction|].
    destruct (_ || _); cbn in Hin; [|easy].
    destruct Hin as [E|[]]. discriminate E.
  - repeat match type of Hin with
           | In _ (if ?c then _ else _) => destruct c
           end; cbn in Hin; try easy; destruct Hin as [E|[]]; discriminate E.
Qed.

Section LaterHidFacts.

Variable k2a : list (Z * Z).
Variable dbg : bool.

(** A slot touches neither the previous report nor the filter; it prints
    no CTRL prefix while the filter is on, and counts a fresh key. *)
Lemma later_kbd_slot_spec (r : hid_keyboard_report_t) (kc : Z) (st st' : Rev040.kbd_state) :
  Rev040.kbd_slot k2a dbg r kc st = Some st' ->
  Rev040.prev_report st' = Rev040.prev_report st /\
  Rev040.ctrl_seq_count st' = Rev040.ctrl_seq_count st /\
  Rev040.ctrl_is_spurious st' = Rev040.ctrl_is_spurious st /\
  u16 (Rev040.hid_events st') =
    u16 (Rev040.hid_events st + (if fresh_key (Rev040.prev_report st) kc then 1 else 0)) /\
  exists out, Rev040.printed st' = Rev040.printed st ++ out /\
    (Rev040.ctrl_is_spurious st = true -> ~ In (Txt "CTRL+") out).
Proof.
  unfold Rev040.kbd_slot. destruct (fresh_key _ kc) eqn:Hf.
  - destruct dbg; cbn [Rev040.print Rev040.prev_report Rev040.ctrl_seq_count
      Rev040.ctrl_is_spurious Rev040.hid_events Rev040.printed];
    (destruct (k2a !! Z.to_nat kc) as [row|]; [|discriminate]);
    rewrite bind_Some; cbv beta; intros H; injection H as <-;
    cbn [Rev040.print Rev040.prev_report Rev040.ctrl_seq_count
      Rev040.ctrl_is_spurious Rev040.hid_events Rev040.printed];
    (refine (conj eq_refl (conj eq_refl (conj eq_refl (conj _ _)))); [unfold u16; now rewrite Z.mod_mod by easy|]).
    + rewrite <- app_assoc. eexists; split; [reflexivity|].
      intros Hs. rewrite Hs. intros Hin. apply in_app_or in Hin as [Hin|Hin].
      * cbn in Hin. destruct Hin as [E|[E|[E|[]]]]; discriminate E.
      * now apply later_key_output_filtered in Hin.
    + eexists; split; [reflexivity|].
      intros Hs. rewrite Hs. apply later_key_output_filtered.
  - intros H; injection H as <-. rewrite Z.add_0_r. repeat split.
    exists []. split; [now rewrite app_nil_r|]. intros _ [].
Qed.

Lemma later_kbd_slots_spec (r : hid_keyboard_report_t) (keys : list Z) :
  forall st st' : Rev040.kbd_state,
  Rev040.kbd_slots k2a dbg r keys st = Some st' ->
  Rev040.prev_report st' = Rev040.prev_report st /\
  Rev040.ctrl_seq_count st' = Rev040.ctrl_seq_count st /\
  Rev040.ctrl_is_spurious st' = Rev040.ctrl_is_spurious st /\
  u16 (Rev040.hid_events st') =
    u16 (Rev040.hid_events st +
         Z.of_nat (length (List.filter (fresh_key (Rev040.prev_report st)) keys))) /\
  exists out, Rev040.printed st' = Rev040.printed st ++ out /\
    (Rev040.ctrl_is_spurious st = true -> ~ In (Txt "CTRL+") out).
Proof.
  induction keys as [|kc rest IH]; intros st st' H.
  - injection H as <-. cbn [List.filter length Z.of_nat]. rewrite Z.add_0_r.
    repeat split. exists []. split; [now rewrite app_nil_r|]. intros _ [].
  - cbn [Rev040.kbd_slots] in H.
    destruct (Rev040.kbd_slot k2a dbg r kc st) as [st1|] eqn:H1; [|discriminate].
    rewrite bind_Some in H.
    apply later_kbd_slot_spec in H1 as (P1 & C1 & S1 & E1 & out1 & O1 & N1).
    apply IH in H as (P2 & C2 & S2 & E2 & out2 & O2 & N2).
    rewrite P1 in *. rewrite C1, S1 in *.
    refine (conj P2 (conj C2 (conj S2 (conj _ _)))).
    + unfold u16 in *. rewrite E2.
      rewrite <- Zplus_mod_idemp_l, E1, Zplus_mod_idemp_l. cbn [List.filter].
      destruct (fresh_key (Rev040.prev_report st) kc); cbn [length]; f_equal; lia.
    + exists (out1 ++ out2). split; [now rewrite O2, O1, app_assoc|].
      intros Hs Hin. apply in_app_or in Hin as [Hin|Hin]; [now apply N1|now apply N2].
Qed.

Lemma later_kbd_slots_in_range (r : hid_keyboard_report_t) (keys : list Z) :
  forall st st' : Rev040.kbd_state,
  Rev040.kbd_slots k2a dbg r keys st = Some st' ->
  0 <= Rev040.hid_events st < 2 ^ 16 -> 0 <= Rev040.hid_events st' < 2 ^ 16.
Proof.
  induction keys as [|kc rest IH]; intros st st' H R.
  - now injection H as <-.
  - cbn [Rev040.kbd_slots] in H.
    destruct (Rev040.kbd_slot k2a dbg r kc st) as [st1|] eqn:H1; [|discriminate].
    rewrite bind_Some in H. apply (IH _ _ H). clear H.
    unfold Rev040.kbd_slot in H1. destruct (fresh_key _ kc).
    + destruct (k2a !! Z.to_nat kc) as [row|].
      * rewrite bind_Some in H1. cbv beta zeta in H1. injection H1 as <-.
        destruct dbg; cbn [Rev040.print Rev040.hid_events];
          unfold u16; now apply Z.mod_pos_bound.
      * destruct dbg; discriminate H1.
    + now injection H1 as <-.
Qed.

Lemma later_detection_spec (r : hid_keyboard_report_t) (st : Rev040.kbd_state) :
  Rev040.prev_report (Rev040.ctrl_detection dbg r st) = Rev040.prev_report st /\
  Rev040.hid_events (Rev040.ctrl_detection dbg r st) = Rev040.hid_events st /\
  exists out,
    Rev040.printed (Rev040.ctrl_detection dbg r st) = Rev040.printed st ++ out /\
    ~ In (Txt "CTRL+") out.
Proof.
  unfold Rev040.ctrl_detection.
  destruct (Rev040.report_has_key r); [destruct (Rev040.report_has_ctrl r)|].
  - destruct (negb _ && _); cbn [Rev040.prev_report Rev040.hid_events Rev040.printed];
      repeat split.
    + eexists; split; [reflexivity|]. intros [E|[]]; discriminate E.
    + exists []. split; [now rewrite app_nil_r|]. intros [].
  - cbn [Rev040.prev_report Rev040.hid_events Rev040.printed]. repeat split.
    eexists; split; [reflexivity|].
    destruct (_ && _); [intros [E|[]]; discriminate E|intros []].
  - repeat split. exists []. split; [now rewrite app_nil_r|]. intros [].
Qed.

(** One report: the filter is that of the detection, the counter moves by
    the number of fresh keys, and nothing printed is a CTRL prefix when the
    filter is on after the detection. *)
Lemma later_report_spec (r : hid_keyboard_report_t) (st st' : Rev040.kbd_state) :
  Rev040.process_kbd_report k2a dbg r st = Some st' ->
  Rev040.prev_report st' = r /\
  Rev040.ctrl_seq_count st' = Rev040.ctrl_seq_count (Rev040.ctrl_detection dbg r st) /\
  Rev040.ctrl_is_spurious st' =
    Rev040.ctrl_is_spurious (Rev040.ctrl_detection dbg r st) /\
  u16 (Rev040.hid_events st') =
    u16 (Rev040.hid_events st + Z.of_nat (fresh_presses (Rev040.prev_report st) r)) /\
  (0 <= Rev040.hid_events st < 2 ^ 16 -> 0 <= Rev040.hid_events st' < 2 ^ 16) /\
  exists out, Rev040.printed st' = Rev040.printed st ++ out /\
    (Rev040.ctrl_is_spurious st' = true -> ~ In (Txt "CTRL+") out).
Proof.
  unfold Rev040.process_kbd_report. cbv zeta.
  destruct (later_detection_spec r st) as (P0 & E0 & out0 & O0 & N0).
  set (st0 := Rev040.ctrl_detection dbg r st) in *.
  set (st1 := if dbg && negb (modifier r =? 0) then _ else st0).
  assert (V : Rev040.prev_report st1 = Rev040.prev_report st0 /\
              Rev040.ctrl_seq_count st1 = Rev040.ctrl_seq_count st0 /\
              Rev040.ctrl_is_spurious st1 = Rev040.ctrl_is_spurious st0 /\
              Rev040.hid_events st1 = Rev040.hid_events st0 /\
              exists out, Rev040.printed st1 = Rev040.printed st0 ++ out /\
                          ~ In (Txt "CTRL+") out).
  { subst st1. destruct (dbg && _); cbn; repeat split.
    - eexists; split; [reflexivity|]. intros [E|[E|[E|[]]]]; discriminate E.
    - exists []. split; [now rewrite app_nil_r|]. intros []. }
  destruct V as (P1 & C1 & S1 & E1 & out1 & O1 & N1).
  destruct (Rev040.kbd_slots k2a dbg r (take 6 (keycode r)) st1) as [st2|] eqn:H2;
    [|discriminate].
  rewrite bind_Some. intros H; injection H as <-.
  cbn [Rev040.prev_report Rev040.ctrl_seq_count Rev040.ctrl_is_spurious
       Rev040.hid_events Rev040.printed].
  pose proof (later_kbd_slots_in_range _ _ _ _ H2) as R2.
  apply later_kbd_slots_spec in H2 as (P2 & C2 & S2 & E2 & out2 & O2 & N2).
  refine (conj eq_refl (conj _ (conj _ (conj _ (conj _ _))))).
  - now rewrite C2, C1.
  - now rewrite S2, S1.
  - rewrite E2, P1, P0, E1, E0. reflexivity.
  - rewrite E1, E0 in R2. exact R2.
  - exists (out0 ++ out1 ++ out2). split.
    + rewrite O2, O1, O0. now rewrite <- !app_assoc.
    + rewrite S2. intros Hs Hin.
      apply in_app_or in Hin as [Hin|Hin]; [now apply N0|].
      apply in_app_or in Hin as [Hin|Hin]; [now apply N1|now apply N2].
Qed.

End LaterHidFacts.

Section LaterFilterFacts.

Variable k2a : list (Z * Z).
Variable dbg : bool.

(** The filter after a report that is no plain key press. *)
Lemma later_filter_step (r : hid_keyboard_report_t) (st st' : Rev040.kbd_state) :
  Rev040.process_kbd_report k2a dbg r st = Some st' ->
  Rev040.no_plain_press r ->
  0 <= Rev040.ctrl_seq_count st ->
  let k := if Rev040.report_has_key r then 1 else 0 in
  0 <= Rev040.ctrl_seq_count st' /\
  Z.min 3 (Rev040.ctrl_seq_count st + k) <= Rev040.ctrl_seq_count st' /\
  (Rev040.ctrl_is_spurious st = true -> Rev040.ctrl_is_spurious st' = true) /\
  ((k = 1 \/ (3 <= Rev040.ctrl_seq_count st -> Rev040.ctrl_is_spurious st = true)) ->
   3 <= Rev040.ctrl_seq_count st' -> Rev040.ctrl_is_spurious st' = true).
Proof.
  intros H Hn Hc. apply later_report_spec in H as (_ & C & S & _).
  rewrite C, S. clear C S. unfold Rev040.no_plain_press in Hn.
  unfold Rev040.ctrl_detection.
  destruct (Rev040.report_has_key r); cbv zeta.
  - rewrite (Hn eq_refl). unfold Rev040.CTRL_SPURIOUS_THRESHOLD.
    destruct (Rev040.ctrl_is_spurious st) eqn:Hs; cbn [negb andb].
    + cbn [Rev040.ctrl_seq_count Rev040.ctrl_is_spurious].
      destruct (Rev040.ctrl_seq_count st <? 255) eqn:L; repeat split; lia.
    + destruct (Rev040.ctrl_seq_count st <? 255) eqn:L;
        (destruct (3 <=? _) eqn:T;
         cbn [Rev040.ctrl_seq_count Rev040.ctrl_is_spurious];
         repeat split; try lia; try discriminate).
  - rewrite Z.add_0_r. repeat split; try lia; try easy.
    intros [E|J]; [discriminate E|exact J].
Qed.

Lemma later_filter_run (rs : list hid_keyboard_report_t) :
  forall st st' : Rev040.kbd_state,
  Rev040.process_kbd_reports k2a dbg rs st = Some st' ->
  Forall Rev040.no_plain_press rs ->
  0 <= Rev040.ctrl_seq_count st ->
  Z.min 3 (Rev040.ctrl_seq_count st + Z.of_nat (Rev040.key_reports rs))
    <= Rev040.ctrl_seq_count st' /\
  (Rev040.ctrl_is_spurious st = true -> Rev040.ctrl_is_spurious st' = true) /\
  (((1 <= Rev040.key_reports rs)%nat \/
    (3 <= Rev040.ctrl_seq_count st -> Rev040.ctrl_is_spurious st = true)) ->
   3 <= Rev040.ctrl_seq_count st' -> Rev040.ctrl_is_spurious st' = true).
Proof.
  unfold Rev040.key_reports.
  induction rs as [|r rest IH]; intros st st' H Hn Hc.
  - injection H as <-. cbn [List.filter length Z.of_nat].
    repeat split; try lia; try easy. intros [E|J]; [lia|exact J].
  - cbn [Rev040.process_kbd_reports] in H.
    destruct (Rev040.process_kbd_report k2a dbg r st) as [st1|] eqn:H1; [|discriminate].
    rewrite bind_Some in H. apply Forall_cons in Hn as [Hr Hn].
    apply (later_filter_step _ _ _ H1 Hr) in Hc as (C1 & M1 & S1 & J1).
    destruct (IH _ _ H Hn C1) as (M2 & S2 & J2). clear IH H H1.
    cbn [List.filter].
    destruct (Rev040.report_has_key r); cbn [length].
    + repeat split.
      * lia.
      * auto.
      * intros _. apply J2. right. apply J1. now left.
    + repeat split.
      * lia.
      * auto.
      * intros [E|J]; apply J2; [now left|right; apply J1; now right].
Qed.

(** While the filter is on and no plain key press arrives, it stays on and
    no CTRL prefix is printed. *)
Lemma later_filter_holds (rs : list hid_keyboard_report_t) :
  forall st st' : Rev040.kbd_state,
  Rev040.process_kbd_reports k2a dbg rs st = Some st' ->
  Forall Rev040.no_plain_press rs ->
  Rev040.ctrl_is_spurious st = true ->
  Rev040.ctrl_is_spurious st' = true /\
  exists out, Rev040.printed st' = Rev040.printed st ++ out /\ ~ In (Txt "CTRL+") out.
Proof.
  induction rs as [|r rest IH]; intros st st' H Hn Hs.
  - injection H as <-. split; [exact Hs|].
    exists []. split; [now rewrite app_nil_r|]. intros [].
  - cbn [Rev040.process_kbd_reports] in H.
    destruct (Rev040.process_kbd_report k2a dbg r st) as [st1|] eqn:H1; [|discriminate].
    rewrite bind_Some in H. apply Forall_cons in Hn as [Hr Hn].
    pose proof (later_report_spec _ _ _ _ _ H1) as (_ & C & S & _ & _ & out1 & O1 & N1).
    assert (S1 : Rev040.ctrl_is_spurious st1 = true).
    { rewrite S. unfold Rev040.ctrl_detection, Rev040.no_plain_press in *.
      destruct (Rev040.report_has_key r); [|exact Hs].
      rewrite (Hr eq_refl), Hs. reflexivity. }
    destruct (IH _ _ H Hn S1) as (S2 & out2 & O2 & N2).
    split; [exact S2|]. exists (out1 ++ out2). split.
    + now rewrite O2, O1, app_assoc.
    + intros Hin. apply in_app_or in Hin as [Hin|Hin]; [now apply N1|now apply N2].
Qed.

(** X1. In the later revision of the monitor: once three reports that hold
    a key and carry CTRL have arrived with no plain key press among them
    (reports without a key may lie in between), the filter is on; it stays
    on, and no CTRL prefix is printed, for all the reports that follow up
    to the next key press without CTRL. *)
Theorem later_ctrl_filter_suppresses
    (rs1 rs2 : list hid_keyboard_report_t) (st st1 st2 : Rev040.kbd_state) :
  0 <= Rev040.ctrl_seq_count st ->
  Forall Rev040.no_plain_press rs1 ->
  (3 <= Rev040.key_reports rs1)%nat ->
  Forall Rev040.no_plain_press rs2 ->
  Rev040.process_kbd_reports k2a dbg rs1 st = Some st1 ->
  Rev040.process_kbd_reports k2a dbg rs2 st1 = Some st2 ->
  Rev040.ctrl_is_spurious st1 = true /\
  Rev040.ctrl_is_spurious st2 = true /\
  exists out, Rev040.printed st2 = Rev040.printed st1 ++ out /\ ~ In (Txt "CTRL+") out.
Proof.
  intros Hc Hn1 Hk Hn2 H1 H2.
  destruct (later_filter_run _ _ _ H1 Hn1 Hc) as (M & _ & J).
  assert (S1 : Rev040.ctrl_is_spurious st1 = true).
  { apply J; [left|]; lia. }
  split; [exact S1|]. exact (later_filter_holds _ _ _ H2 Hn2 S1).
Qed.

End LaterFilterFacts.

Section LaterPrefixFacts.

Variable k2a : list (Z * Z).
Variable dbg : bool.

Lemma later_key_output_prefix (m kc ch : Z) :
  Rev040.bit_set m Rev040.CTRL_BITS = true ->
  Rev040.has_output kc ch = true ->
  kc <> Rev040.HID_KEY_CONTROL_LEFT -> kc <> Rev040.HID_KEY_CONTROL_RIGHT ->
  In (Txt "CTRL+") (Rev040.key_output false m kc ch).
Proof.
  intros Hm Ho Hl Hr. unfold Rev040.key_output. cbv zeta.
  apply Z.eqb_neq in Hl, Hr. rewrite Hl, Hr, Ho. cbn [orb negb].
  assert (E : forall m', Z.land m' Rev040.CTRL_BITS = Z.land m Rev040.CTRL_BITS ->
                         Rev040.bit_set m' Rev040.CTRL_BITS = true).
  { intros m' E. unfold Rev040.bit_set in *. now rewrite E. }
  assert (K : forall m' mask, Z.land mask Rev040.CTRL_BITS = 0 ->
                Z.land (Rev040.clear_bits m' mask) Rev040.CTRL_BITS =
                Z.land m' Rev040.CTRL_BITS).
  { intros m' mask D. unfold Rev040.clear_bits.
    rewrite <- Z.land_assoc. f_equal.
    apply Z.bits_inj'. intros n Hn.
    rewrite Z.land_spec, Z.lxor_spec.
    assert (Dn : Z.testbit (Z.land mask Rev040.CTRL_BITS) n = false)
      by (rewrite D; apply Z.bits_0).
    rewrite Z.land_spec in Dn.
    destruct (Z.testbit Rev040.CTRL_BITS n) eqn:Cn; [|now rewrite andb_false_r].
    rewrite andb_true_r in *. rewrite Dn, xorb_false_r.
    destruct (Z_lt_dec n 8) as [L|L].
    - assert (n = 0 \/ n = 1 \/ n = 2 \/ n = 3 \/ n = 4 \/ n = 5 \/ n = 6 \/ n = 7)
        as [->|[->|[->|[->|[->|[->|[->| ->]]]]]]] by lia; reflexivity.
    - exfalso. revert Cn.
      replace Rev040.CTRL_BITS with 17 by reflexivity.
      rewrite (Z.bits_above_log2 17 n); [discriminate|lia|].
      change (Z.log2 17) with 4. lia. }
  rewrite E.
  - cbn [andb negb app]. now left.
  - destruct (_ || _); destruct (_ || _); rewrite ?K by reflexivity; reflexivity.
Qed.

Lemma later_kbd_slot_prefix (r : hid_keyboard_report_t) (kc : Z) (st st' : Rev040.kbd_state) :
  Rev040.kbd_slot k2a dbg r kc st = Some st' ->
  fresh_key (Rev040.prev_report st) kc = true ->
  Rev040.ctrl_is_spurious st = false ->
  Rev040.report_has_ctrl r = true ->
  Rev040.displayed_key k2a (modifier r) kc ->
  exists out, Rev040.printed st' = Rev040.printed st ++ out /\ In (Txt "CTRL+") out.
Proof.
  intros H Hf Hs Hc (row & Hrow & Ho & Hl & Hr).
  unfold Rev040.kbd_slot in H. rewrite Hf in H. cbv zeta in H.
  destruct dbg; cbn [Rev040.print Rev040.prev_report Rev040.ctrl_seq_count
      Rev040.ctrl_is_spurious Rev040.hid_events Rev040.printed] in H;
    rewrite Hrow, bind_Some in H; cbv beta in H; injection H as <-;
    cbn [Rev040.print Rev040.printed]; rewrite Hs.
  - rewrite <- app_assoc. eexists; split; [reflexivity|].
    apply in_or_app. right. now apply later_key_output_prefix.
  - eexists; split; [reflexivity|]. now apply later_key_output_prefix.
Qed.

Lemma later_kbd_slots_prefix (r : hid_keyboard_report_t) (kc : Z) (keys : list Z) :
  forall st st' : Rev040.kbd_state,
  Rev040.kbd_slots k2a dbg r keys st = Some st' ->
  In kc keys ->
  fresh_key (Rev040.prev_report st) kc = true ->
  Rev040.ctrl_is_spurious st = false ->
  Rev040.report_has_ctrl r = true ->
  Rev040.displayed_key k2a (modifier r) kc ->
  exists out, Rev040.printed st' = Rev040.printed st ++ out /\ In (Txt "CTRL+") out.
Proof.
  induction keys as [|k rest IH]; intros st st' H Hin Hf Hs Hc Hd; [destruct Hin|].
  cbn [Rev040.kbd_slots] in H.
  destruct (Rev040.kbd_slot k2a dbg r k st) as [st1|] eqn:H1; [|discriminate].
  rewrite bind_Some in H.
  pose proof (later_kbd_slot_spec _ _ _ _ _ _ H1) as (P1 & _ & S1 & _ & out1 & O1 & _).
  pose proof (later_kbd_slots_spec _ _ _ _ _ _ H) as (_ & _ & _ & _ & out2 & O2 & _).
  destruct Hin as [->|Hin].
  - destruct (later_kbd_slot_prefix _ _ _ _ H1 Hf Hs Hc Hd) as (out & O & I).
    exists (out ++ out2). split; [now rewrite O2, O, app_assoc|].
    apply in_or_app. now left.
  - rewrite <- P1 in Hf. rewrite <- S1 in Hs.
    destruct (IH _ _ H Hin Hf Hs Hc Hd) as (out & O & I).
    exists (out1 ++ out). split; [now rewrite O, O1, app_assoc|].
    apply in_or_app. now right.
Qed.

(** X2. In the later revision of the monitor: a report that holds a key and
    does not carry CTRL turns the filter off and clears the counter, and
    the next report that carries CTRL and holds a fresh key with a display
    form is printed with the CTRL prefix again. *)
Theorem later_ctrl_prefix_returns
    (plain r : hid_keyboard_report_t) (kc : Z) (st st1 st2 : Rev040.kbd_state) :
  Rev040.report_has_key plain = true ->
  Rev040.report_has_ctrl plain = false ->
  Rev040.report_has_ctrl r = true ->
  In kc (take 6 (keycode r)) ->
  fresh_key plain kc = true ->
  Rev040.displayed_key k2a (modifier r) kc ->
  Rev040.process_kbd_report k2a dbg plain st = Some st1 ->
  Rev040.process_kbd_report k2a dbg r st1 = Some st2 ->
  Rev040.ctrl_is_spurious st1 = false /\
  Rev040.ctrl_seq_count st1 = 0 /\
  exists out, Rev040.printed st2 = Rev040.printed st1 ++ out /\ In (Txt "CTRL+") out.
Proof.
  intros Hk Hp Hc Hin Hf Hd H1 H2.
  apply later_report_spec in H1 as (P1 & C1 & S1 & _).
  unfold Rev040.ctrl_detection in C1, S1. rewrite Hk, Hp in C1, S1.
  cbn [Rev040.ctrl_seq_count Rev040.ctrl_is_spurious] in C1, S1.
  refine (conj S1 (conj C1 _)).
  assert (Hk2 : Rev040.report_has_key r = true).
  { unfold Rev040.report_has_key. apply existsb_exists. exists kc. split; [exact Hin|].
    unfold fresh_key in Hf. now apply andb_prop in Hf as [Hf _]. }
  unfold Rev040.process_kbd_report in H2. cbv zeta in H2.
  set (st0 := Rev040.ctrl_detection dbg r st1) in *.
  assert (V0 : Rev040.prev_report st0 = plain /\ Rev040.ctrl_is_spurious st0 = false /\
               exists out, Rev040.printed st0 = Rev040.printed st1 ++ out).
  { subst st0. unfold Rev040.ctrl_detection. rewrite Hk2, Hc, C1, S1.
    cbn. repeat split; [exact P1|]. exists []. now rewrite app_nil_r. }
  destruct V0 as (P0 & S0 & out0 & O0).
  set (st0' := if dbg && negb (modifier r =? 0) then _ else st0) in *.
  assert (V : Rev040.prev_report st0' = plain /\ Rev040.ctrl_is_spurious st0' = false /\
              exists out, Rev040.printed st0' = Rev040.printed st1 ++ out).
  { subst st0'. destruct (dbg && _); cbn [Rev040.print Rev040.prev_report
      Rev040.ctrl_is_spurious Rev040.printed]; repeat split; try assumption.
    - rewrite O0, <- app_assoc. now eexists.
    - now exists out0. }
  destruct V as (P & S & out' & O).
  destruct (Rev040.kbd_slots k2a dbg r (take 6 (keycode r)) st0') as [st3|] eqn:H3;
    [|discriminate].
  rewrite bind_Some in H2. injection H2 as <-. cbn [Rev040.printed].
  rewrite <- P in Hf.
  destruct (later_kbd_slots_prefix _ _ _ _ _ H3 Hin Hf S Hc Hd) as (out & Oo & I).
  exists (out' ++ out). split; [now rewrite Oo, O, app_assoc|].
  apply in_or_app. now right.
Qed.

End LaterPrefixFacts.

Section LaterCounterFacts.

Variable k2a : list (Z * Z).
Variable dbg : bool.

(** X3. In the later revision of the monitor: over any sequence of reports,
    [last_device.hid_events] moves by the number of fresh key presses of
    the sequence, modulo 2^16. *)
Theorem later_hid_events_counts_fresh_keys (rs : list hid_keyboard_report_t) :
  forall st st' : Rev040.kbd_state,
  0 <= Rev040.hid_events st < 2 ^ 16 ->
  Rev040.process_kbd_reports k2a dbg rs st = Some st' ->
  Rev040.hid_events st' =
    u16 (Rev040.hid_events st +
         Z.of_nat (Rev040.fresh_presses_of (Rev040.prev_report st) rs)).
Proof.
  induction rs as [|r rest IH]; intros st st' R H.
  - injection H as <-. cbn [Rev040.fresh_presses_of Z.of_nat].
    rewrite Z.add_0_r. unfold u16. now rewrite Z.mod_small.
  - cbn [Rev040.process_kbd_reports] in H.
    destruct (Rev040.process_kbd_report k2a dbg r st) as [st1|] eqn:H1; [|discriminate].
    rewrite bind_Some in H.
    apply later_report_spec in H1 as (P1 & _ & _ & E1 & R1 & _).
    rewrite (IH _ _ (R1 R) H), P1. cbn [Rev040.fresh_presses_of].
    unfold u16 in *. rewrite <- Zplus_mod_idemp_l, E1, Zplus_mod_idemp_l.
    f_equal. lia.
Qed.

End LaterCounterFacts.

Lemma later_ctrl_filter_suppresses_witness :
  exists st1 st2,
    Rev040.process_kbd_reports letter_rows false
      [key_report 1 4; key_report 1 0; key_report 1 5; key_report 17 6]
      Rev040.kbd_start = Some st1 /\
    Rev040.process_kbd_reports letter_rows false
      [key_report 1 0; key_report 1 7; key_report 0 0; key_report 16 8] st1 = Some st2 /\
    Rev040.ctrl_is_spurious st1 = true /\
    Rev040.ctrl_is_spurious st2 = true /\
    exists out, Rev040.printed st2 = Rev040.printed st1 ++ out /\ ~ In (Txt "CTRL+") out.
Proof.
  eexists _, _.
  split; [vm_compute; reflexivity|]. split; [vm_compute; reflexivity|].
  apply (later_ctrl_filter_suppresses letter_rows false
           [key_report 1 4; key_report 1 0; key_report 1 5; key_report 17 6]
           [key_report 1 0; key_report 1 7; key_report 0 0; key_report 16 8]
           Rev040.kbd_start).
  - vm_compute. discriminate.
  - repeat constructor.
  - vm_compute. lia.
  - repeat constructor; intros H; vm_compute in H; discriminate H.
  - vm_compute. reflexivity.
  - vm_compute. reflexivity.
Defined.

Lemma later_ctrl_prefix_returns_witness :
  exists st1 st2,
    Rev040.process_kbd_report letter_rows false (key_report 0 4)
      {| Rev040.prev_report := zero_kbd_report; Rev040.ctrl_seq_count := 7;
         Rev040.ctrl_is_spurious := true; Rev040.hid_events := 7;
         Rev040.printed := [] |} = Some st1 /\
    Rev040.process_kbd_report letter_rows false (key_report 1 5) st1 = Some st2 /\
    Rev040.ctrl_is_spurious st1 = false /\
    Rev040.ctrl_seq_count st1 = 0 /\
    exists out, Rev040.printed st2 = Rev040.printed st1 ++ out /\ In (Txt "CTRL+") out.
Proof.
  eexists _, _.
  split; [vm_compute; reflexivity|]. split; [vm_compute; reflexivity|].
  apply (later_ctrl_prefix_returns letter_rows false (key_report 0 4) (key_report 1 5) 5
           {| Rev040.prev_report := zero_kbd_report; Rev040.ctrl_seq_count := 7;
              Rev040.ctrl_is_spurious := true; Rev040.hid_events := 7;
              Rev040.printed := [] |}).
  - reflexivity.
  - reflexivity.
  - reflexivity.
  - now left.
  - reflexivity.
  - exists (98, 66). repeat split; vm_compute; discriminate.
  - vm_compute. reflexivity.
  - vm_compute. reflexivity.
Defined.

Lemma later_hid_events_counts_fresh_keys_witness :
  exists st',
    Rev040.process_kbd_reports letter_rows true
      [ {| modifier := 0; reserved := 0; keycode := [4; 5; 0; 0; 0; 0] |};
        {| modifier := 0; reserved := 0; keycode := [4; 5; 6; 0; 0; 0] |};
        key_report 0 0 ] Rev040.kbd_start = Some st' /\
    Rev040.hid_events st' = 3.
Proof.
  eexists. split; [vm_compute; reflexivity|].
  apply (later_hid_events_counts_fresh_keys letter_rows true
           [ {| modifier := 0; reserved := 0; keycode := [4; 5; 0; 0; 0; 0] |};
             {| modifier := 0; reserved := 0; keycode := [4; 5; 6; 0; 0; 0] |};
             key_report 0 0 ] Rev040.kbd_start).
  - vm_compute. split; [discriminate|reflexivity].
  - vm_compute. reflexivity.
Defined.

(** ** Keyboard monitor: held keys and typed text *)

Section KeyboardFacts.

Variable keycode2ascii : list (Z * Z).

(** A slot whose key is not fresh prints nothing and reads no table row. *)
Lemma kbd_slots_no_fresh (prev report : hid_keyboard_report_t) (keys : list Z) :
  Forall (fun kc => fresh_key prev kc = false) keys ->
  kbd_slots keycode2ascii prev report keys = Some [].
Proof.
  induction 1 as [|kc keys Hkc _ IH]; [reflexivity|].
  cbn [kbd_slots]. unfold kbd_slot. rewrite Hkc, bind_Some, IH. reflexivity.
Qed.

(** A report none of whose keys is new, after a report [r]. *)
Lemma no_new_key_prints_nothing (r r' : hid_keyboard_report_t) (s s1 : State) :
  process_kbd_report keycode2ascii r s = Some s1 ->
  (forall kc, In kc (take 6 (keycode r')) -> kc = 0 \/ In kc (take 6 (keycode r))) ->
  exists s2, process_kbd_report keycode2ascii r' s1 = Some s2 /\
             serial s2 = serial s1 /\ kbd_prev_report s2 = r'.
Proof.
  intros H1 Hheld.
  assert (Hprev : kbd_prev_report s1 = r).
  { unfold process_kbd_report in H1.
    destruct (kbd_slots _ _ _ _) as [out|]; [|discriminate H1].
    rewrite bind_Some in H1. injection H1 as <-. reflexivity. }
  unfold process_kbd_report. rewrite Hprev, kbd_slots_no_fresh.
  - rewrite bind_Some. eexists. split; [reflexivity|].
    split; [apply app_nil_r | reflexivity].
  - apply Forall_forall. intros kc Hin. apply list_elem_of_In in Hin.
    unfold fresh_key, find_key_in_report.
    destruct (Hheld kc Hin) as [-> | Hr]; [reflexivity|].
    destruct (kc =? 0); [reflexivity|]. cbn [negb andb].
    apply negb_false_iff, existsb_exists. exists kc. split; [exact Hr|apply Z.eqb_refl].
Qed.

(** X8.  Keys that were already down in the previous report are not
    printed again: once a report [r] has been processed, a report all of
    whose keys are keys of [r] (the same report while the keys are held, a
    report with some of them released, the empty report) is processed to
    the end and prints nothing. *)
Theorem held_keys_print_nothing (r r' : hid_keyboard_report_t) (s s1 : State) :
  process_kbd_report keycode2ascii r s = Some s1 ->
  (forall kc, In kc (take 6 (keycode r')) -> kc = 0 \/ In kc (take 6 (keycode r))) ->
  exists s2, process_kbd_report keycode2ascii r' s1 = Some s2 /\
             serial s2 = serial s1 /\ kbd_prev_report s2 = r'.
Proof. apply no_new_key_prints_nothing. Qed.

(** A plain key that goes down alone after a report without it. *)
Lemma plain_stroke_press (k : stroke) (s : State) :
  plain_stroke keycode2ascii k ->
  find_key_in_report (kbd_prev_report s) (snd k) = false ->
  exists s1, process_kbd_report keycode2ascii (key_report (fst k) (snd k)) s = Some s1 /\
             serial s1 = serial s ++ stroke_log keycode2ascii k /\
             kbd_prev_report s1 = key_report (fst k) (snd k).
Proof.
  destruct k as [m kc]. cbn [fst snd]. intros (Hnz & Hrow & Hsp & Hmod) Hprev.
  cbn [fst snd] in *.
  destruct (lookup_lt_is_Some_2 keycode2ascii (Z.to_nat kc) Hrow) as [row Hr].
  unfold process_kbd_report, key_report. cbn [keycode take kbd_slots].
  assert (Hz : forall p, kbd_slot keycode2ascii p
                 {| modifier := m; reserved := 0; keycode := [kc; 0; 0; 0; 0; 0] |} 0
               = Some []) by reflexivity.
  rewrite !Hz, !bind_Some. cbv beta.
  unfold kbd_slot, fresh_key. rewrite Hprev.
  apply Z.eqb_neq in Hnz. rewrite Hnz. cbn [negb andb modifier].
  rewrite Hr, bind_Some. cbv beta zeta. rewrite Hsp.
  assert (Hgui : Z.land m (Z.lor KEYBOARD_MODIFIER_LEFTGUI KEYBOARD_MODIFIER_RIGHTGUI) = 0).
  { apply Z.bits_inj'. intros n Hn. rewrite Z.bits_0.
    apply (f_equal (fun z => Z.testbit z n)) in Hmod.
    rewrite Z.bits_0, Z.land_spec, !Z.lor_spec in Hmod.
    rewrite Z.land_spec, Z.lor_spec.
    destruct (Z.testbit m n); [|reflexivity]. cbn [andb] in *.
    apply orb_false_iff in Hmod as [Hg _]. exact Hg. }
  assert (Halt : Z.land m (Z.lor KEYBOARD_MODIFIER_LEFTALT KEYBOARD_MODIFIER_RIGHTALT) = 0).
  { apply Z.bits_inj'. intros n Hn. rewrite Z.bits_0.
    apply (f_equal (fun z => Z.testbit z n)) in Hmod.
    rewrite Z.bits_0, Z.land_spec, !Z.lor_spec in Hmod.
    rewrite Z.land_spec, Z.lor_spec.
    destruct (Z.testbit m n); [|reflexivity]. cbn [andb] in *.
    apply orb_false_iff in Hmod as [_ Ha]. exact Ha. }
  rewrite Hgui, Halt. cbn [Z.eqb negb app].
  eexists. split; [reflexivity|]. split; [|reflexivity].
  cbn [serial ser set_kbd_prev_report]. unfold stroke_log, key_char. cbn [fst snd].
  rewrite Hr. cbn [default]. rewrite !app_nil_r. reflexivity.
Qed.

(** X9.  Text typed key by key is logged character by character: for
    plain strokes, each pressed alone and released before the next, the
    monitor returns and appends to the serial log the character of each
    stroke in turn (the shifted one when SHIFT is held), with a line feed
    after a carriage return, and nothing else. *)
Theorem typed_text_is_logged (strokes : list stroke) :
  Forall (plain_stroke keycode2ascii) strokes ->
  forall s : State,
  Forall (fun kc => kc = 0) (take 6 (keycode (kbd_prev_report s))) ->
  exists s', process_kbd_reports keycode2ascii (typed strokes) s = Some s' /\
             serial s' = serial s ++ flat_map (stroke_log keycode2ascii) strokes /\
             kbd_prev_report s' = match strokes with
                          | [] => kbd_prev_report s
                          | _ :: _ => key_report 0 0
                          end.
Proof.
  induction 1 as [|k rest Hk _ IH]; intros s Hprev.
  - exists s. split; [reflexivity|]. split; [symmetry; apply app_nil_r | reflexivity].
  - assert (Hnot : find_key_in_report (kbd_prev_report s) (snd k) = false).
    { unfold find_key_in_report. apply not_true_is_false. intros E.
      apply existsb_exists in E as (x & Hin & Hx). apply Z.eqb_eq in Hx. subst x.
      rewrite Forall_forall in Hprev. apply list_elem_of_In, Hprev in Hin.
      destruct Hk as [Hnz _]. contradiction. }
    destruct (plain_stroke_press k s Hk Hnot) as (s1 & H1 & O1 & P1).
    destruct (no_new_key_prints_nothing _ (key_report 0 0) _ _ H1) as (s2 & H2 & O2 & P2).
    { intros kc Hin. left. cbn in Hin.
      repeat (destruct Hin as [<-|Hin]; [reflexivity|]). destruct Hin. }
    destruct (IH s2) as (s' & H' & O' & P').
    { rewrite P2. repeat constructor. }
    exists s'. split; [|split].
    + cbn [typed flat_map app process_kbd_reports].
      rewrite H1, bind_Some, H2, bind_Some. exact H'.
    + rewrite O', O2, O1. cbn [flat_map]. now rewrite app_assoc.
    + rewrite P'. destruct rest; [exact P2 | reflexivity].
Qed.

End KeyboardFacts.

Lemma held_keys_print_nothing_witness :
  exists s2,
    process_kbd_report letter_rows
      {| modifier := 2; reserved := 0; keycode := [5; 0; 0; 0; 0; 0] |}
      (set_kbd_prev_report
         {| modifier := 2; reserved := 0; keycode := [4; 5; 0; 0; 0; 0] |}
         (ser [Chr 65; Chr 66] (power_on []))) = Some s2 /\
    serial s2 = [Chr 65; Chr 66] /\
    kbd_prev_report s2 = {| modifier := 2; reserved := 0; keycode := [5; 0; 0; 0; 0; 0] |}.
Proof.
  apply (held_keys_print_nothing letter_rows
           {| modifier := 2; reserved := 0; keycode := [4; 5; 0; 0; 0; 0] |}
           {| modifier := 2; reserved := 0; keycode := [5; 0; 0; 0; 0; 0] |}
           (power_on [])).
  - reflexivity.
  - intros kc Hin. cbn in Hin.
    destruct Hin as [<-|Hin]; [right; cbn; auto|].
    repeat (destruct Hin as [<-|Hin]; [left; reflexivity|]). destruct Hin.
Defined.

Lemma typed_text_is_logged_witness :
  exists s', process_kbd_reports letter_rows (typed [(2, 11); (0, 12)]) (power_on [])
               = Some s' /\
             serial s' = serial (power_on []) ++ [Chr 72; Chr 105] /\
             kbd_prev_report s' = key_report 0 0.
Proof.
  apply (typed_text_is_logged letter_rows [(2, 11); (0, 12)]).
  - repeat constructor; cbn; try lia; discriminate.
  - repeat constructor.
Defined.

(** ** HID reports: banners and mouse buttons *)

Lemma printed_times_app (t : sout) (a b : list sout) :
  printed_times t (a ++ b) = (printed_times t a + printed_times t b)%nat.
Proof. unfold printed_times. now rewrite filter_app, length_app. Qed.

Lemma printed_times_absent (t : sout) (out : list sout) :
  ~ In t out -> printed_times t out = 0%nat.
Proof.
  unfold printed_times. induction out as [|x out IH]; intros H; [reflexivity|].
  rewrite filter_cons. destruct (decide (x = t)) as [->|_].
  - exfalso. apply H. now left.
  - apply IH. intros Hin. apply H. now right.
Qed.

Section BannerFacts.

Variable keycode2ascii : list (Z * Z).

(** The texts a keyboard report can print. *)
Lemma kbd_slots_texts (prev report : hid_keyboard_report_t) (keys : list Z)
    (out : list sout) (t : string) :
  kbd_slots keycode2ascii prev report keys = Some out ->
  In (Txt t) out ->
  In t (["GUI+"; "ALT+"; nl] ++ map snd special_keys).
Proof.
  revert out. induction keys as [|kc keys IH]; intros out H Hin.
  - injection H as <-. destruct Hin.
  - cbn [kbd_slots] in H.
    destruct (kbd_slot keycode2ascii prev report kc) as [o1|] eqn:H1; [|discriminate H].
    rewrite bind_Some in H.
    destruct (kbd_slots keycode2ascii prev report keys) as [o2|]; [|discriminate H].
    rewrite bind_Some in H. injection H as <-.
    apply in_app_or in Hin as [Hin|Hin]; [|exact (IH _ eq_refl Hin)].
    clear IH. unfold kbd_slot in H1. destruct (fresh_key prev kc).
    + destruct (keycode2ascii !! Z.to_nat kc) as [row|]; [|discriminate H1].
      rewrite bind_Some in H1. cbv beta zeta in H1. injection H1 as <-.
      apply in_app_or in Hin as [Hin|Hin].
      { destruct (negb _); [|destruct Hin].
        destruct Hin as [E|[]]. injection E as <-. now left. }
      apply in_app_or in Hin as [Hin|Hin].
      { destruct (negb _); [|destruct Hin].
        destruct Hin as [E|[]]. injection E as <-. right. now left. }
      apply in_app_or in Hin as [Hin|Hin].
      { unfold check_special_key in Hin. apply in_flat_map in Hin as (row' & Hrow & Hin).
        destruct (kc =? fst row'); [|destruct Hin].
        destruct Hin as [E|[]]. injection E as <-.
        apply in_or_app. right. apply in_map. exact Hrow. }
      destruct Hin as [E|Hin]; [discriminate E|].
      destruct (_ =? 13); [|destruct Hin].
      destruct Hin as [E|[]]. injection E as <-. right. right. now left.
    + injection H1 as <-. destruct Hin.
Qed.

Lemma kbd_slots_no_banner (prev report : hid_keyboard_report_t) (keys : list Z)
    (out : list sout) (t : sout) :
  kbd_slots keycode2ascii prev report keys = Some out ->
  t = KBD_BANNER \/ t = MOUSE_BANNER \/ t = MOUSE_BUTTONS ->
  printed_times t out = 0%nat.
Proof.
  intros H Ht. apply printed_times_absent. intros Hin.
  assert (Hno : forall txt, t = Txt txt ->
            ~ In txt (["GUI+"; "ALT+"; nl] ++ map snd special_keys) -> False).
  { intros txt -> Hn. apply Hn. exact (kbd_slots_texts _ _ _ _ _ H Hin). }
  destruct Ht as [->|[->| ->]]; (eapply Hno; [reflexivity|]);
    intros Hin'; cbn in Hin';
    repeat (destruct Hin' as [E|Hin']; [discriminate E|]); destruct Hin'.
Qed.

(** One report: what it adds to the banners and the button lines. *)
Lemma hid_report_banners (itf : Z) (report : bytes) (ok : bool) (s s' : State) :
  tuh_hid_report_received_cb keycode2ascii itf report ok s = Some s' ->
  kbd_printed s' = kbd_printed s || (itf =? HID_ITF_PROTOCOL_KEYBOARD) /\
  mouse_prev_report s' = mouse_prev_report s /\
  exists out,
    serial s' = serial s ++ out /\
    printed_times KBD_BANNER out =
      Nat.b2n (negb (kbd_printed s) && (itf =? HID_ITF_PROTOCOL_KEYBOARD)) /\
    printed_times MOUSE_BANNER out =
      Nat.b2n (negb (kbd_printed s) && negb (itf =? HID_ITF_PROTOCOL_KEYBOARD)
               && (itf =? HID_ITF_PROTOCOL_MOUSE)) /\
    (buttons (mouse_prev_report s) = 0 ->
     printed_times MOUSE_BUTTONS out = Nat.b2n (button_down (itf, report, ok))).
Proof.
  unfold tuh_hid_report_received_cb. intros H.
  assert (Herr : forall t, t = KBD_BANNER \/ t = MOUSE_BANNER \/ t = MOUSE_BUTTONS ->
            printed_times t (if ok then []
                             else [Txt "Error: cannot request to receive report"; Nl])
            = 0%nat).
  { intros t [->|[->| ->]]; destruct ok; reflexivity. }
  assert (Hkbd : forall t r t', process_kbd_report keycode2ascii r t = Some t' ->
            kbd_printed t' = kbd_printed t /\ mouse_prev_report t' = mouse_prev_report t /\
            exists out, serial t' = serial t ++ out /\
              forall tok, tok = KBD_BANNER \/ tok = MOUSE_BANNER \/ tok = MOUSE_BUTTONS ->
                          printed_times tok out = 0%nat).
  { intros t r t' Hp. unfold process_kbd_report in Hp.
    destruct (kbd_slots _ _ _ _) as [out|] eqn:Hs; [|discriminate Hp].
    rewrite bind_Some in Hp. injection Hp as <-. repeat split.
    exists out. split; [reflexivity|]. intros tok. apply (kbd_slots_no_banner _ _ _ _ _ Hs). }
  destruct (Z.eqb_spec itf HID_ITF_PROTOCOL_KEYBOARD) as [->|Hk].
  - change (HID_ITF_PROTOCOL_KEYBOARD =? HID_ITF_PROTOCOL_MOUSE) with false.
    unfold button_down. cbn [fst snd andb]. rewrite andb_true_r, orb_true_r.
    change (HID_ITF_PROTOCOL_KEYBOARD =? HID_ITF_PROTOCOL_MOUSE) with false.
    cbn [andb Nat.b2n].
    destruct (kbd_report_of report) as [r|]; [|destruct (kbd_printed _); discriminate H].
    cbn [kbd_printed set_hid_sent] in H.
    destruct (kbd_printed s) eqn:Hp; rewrite bind_Some in H;
      (destruct (process_kbd_report keycode2ascii r _) as [s1|] eqn:H1; [|discriminate H]);
      rewrite !bind_Some in H; injection H as <-;
      destruct (Hkbd _ _ _ H1) as (K1 & M1 & out & O1 & N1);
      cbn in K1, M1, O1; rewrite ?Hp in K1;
      (split; [destruct ok; cbn; rewrite K1; reflexivity|]);
      (split; [destruct ok; cbn; rewrite M1; reflexivity|]).
    + exists (out ++ if ok then [] else [Txt "Error: cannot request to receive report"; Nl]).
      split; [destruct ok; cbn; rewrite O1; cbn; now rewrite ?app_nil_r, <- ?app_assoc|].
      rewrite !printed_times_app, !N1, !Herr by auto. auto.
    + exists ([Txt "HID received keyboard report"; Nl] ++ out ++
              if ok then [] else [Txt "Error: cannot request to receive report"; Nl]).
      split; [destruct ok; cbn; rewrite O1; cbn; now rewrite ?app_nil_r, <- ?app_assoc|].
      rewrite !printed_times_app, !N1, !Herr by auto. auto.
  - apply Z.eqb_neq in Hk. rewrite orb_false_r. cbn [negb andb].
    rewrite andb_false_r, andb_true_r. cbn [Nat.b2n].
    destruct (Z.eqb_spec itf HID_ITF_PROTOCOL_MOUSE) as [->|Hm].
    + destruct (mouse_report_of report) as [mr|] eqn:Hmr;
        [|destruct (kbd_printed _); discriminate H].
      assert (Hb : buttons mr = default 0 (head report)).
      { unfold mouse_report_of, mem_read in Hmr.
        destruct (decide _); [|discriminate Hmr]. rewrite bind_Some, drop_0 in Hmr.
        destruct report as [|b0 [|b1 [|b2 [|b3 [|b4 rest]]]]]; try discriminate Hmr.
        cbn in Hmr. injection Hmr as <-. reflexivity. }
      unfold button_down. cbn [fst snd]. rewrite Z.eqb_refl. cbn [andb].
      rewrite <- Hb. clear Hb Hmr.
      cbn [kbd_printed set_hid_sent] in H.
      assert (Hmouse : forall t, buttons (mouse_prev_report t) = 0 ->
                printed_times MOUSE_BUTTONS
                  ((if Z.land (Z.lxor (buttons mr) (buttons (mouse_prev_report t)))
                              (buttons mr) =? 0 then []
                    else [Txt "MOUSE: ";
                          Chr (if Z.land (buttons mr) MOUSE_BUTTON_LEFT =? 0 then 45 else 76);
                          Chr (if Z.land (buttons mr) MOUSE_BUTTON_MIDDLE =? 0 then 45 else 77);
                          Chr (if Z.land (buttons mr) MOUSE_BUTTON_RIGHT =? 0 then 45 else 82);
                          Txt " "]) ++
                   cursor_movement (mouse_x mr) (mouse_y mr) (wheel mr))
                = Nat.b2n (negb (buttons mr =? 0))).
      { intros t ->. rewrite Z.lxor_0_r, Z.land_diag.
        destruct (buttons mr =? 0); reflexivity. }
      assert (Hban : forall t tok, tok = KBD_BANNER \/ tok = MOUSE_BANNER ->
                printed_times tok
                  ((if Z.land (Z.lxor (buttons mr) (buttons (mouse_prev_report t)))
                              (buttons mr) =? 0 then []
                    else [Txt "MOUSE: ";
                          Chr (if Z.land (buttons mr) MOUSE_BUTTON_LEFT =? 0 then 45 else 76);
                          Chr (if Z.land (buttons mr) MOUSE_BUTTON_MIDDLE =? 0 then 45 else 77);
                          Chr (if Z.land (buttons mr) MOUSE_BUTTON_RIGHT =? 0 then 45 else 82);
                          Txt " "]) ++
                   cursor_movement (mouse_x mr) (mouse_y mr) (wheel mr)) = 0%nat).
      { intros t tok [->| ->]; destruct (Z.land (Z.lxor _ _) _ =? 0); reflexivity. }
      set (mout := (if Z.land (Z.lxor (buttons mr) (buttons (mouse_prev_report s)))
                              (buttons mr) =? 0 then []
                    else [Txt "MOUSE: ";
                          Chr (if Z.land (buttons mr) MOUSE_BUTTON_LEFT =? 0 then 45 else 76);
                          Chr (if Z.land (buttons mr) MOUSE_BUTTON_MIDDLE =? 0 then 45 else 77);
                          Chr (if Z.land (buttons mr) MOUSE_BUTTON_RIGHT =? 0 then 45 else 82);
                          Txt " "]) ++
                   cursor_movement (mouse_x mr) (mouse_y mr) (wheel mr)).
      pose proof (Hmouse s) as Hms. pose proof (Hban s) as Hbs. fold mout in Hms, Hbs.
      clear Hmouse Hban.
      destruct (kbd_printed s) eqn:Hp; rewrite !bind_Some in H; injection H as <-;
        (split; [destruct ok; cbn; rewrite ?Hp; reflexivity|]);
        (split; [destruct ok; reflexivity|]).
      * exists (mout ++ if ok then []
                        else [Txt "Error: cannot request to receive report"; Nl]).
        split; [destruct ok; subst mout; cbn; rewrite <- ?app_assoc, ?app_nil_r; reflexivity|].
        rewrite !printed_times_app, !Herr, !Hbs by auto.
        split; [reflexivity|]. split; [reflexivity|]. intros Hz.
        rewrite (Hms Hz). lia.
      * exists ([Txt "HID receive mouse report"; Nl] ++ mout ++
                if ok then [] else [Txt "Error: cannot request to receive report"; Nl]).
        split; [destruct ok; subst mout; cbn; rewrite <- ?app_assoc, ?app_nil_r; reflexivity|].
        rewrite !printed_times_app, !Herr, !Hbs by auto.
        split; [reflexivity|]. split; [reflexivity|]. intros Hz.
        rewrite (Hms Hz).
        change (printed_times MOUSE_BUTTONS [Txt "HID receive mouse report"; Nl]) with 0%nat.
        lia.
    + apply Z.eqb_neq in Hm. cbn [Nat.b2n].
      unfold button_down. cbn [fst snd]. rewrite Hm. cbn [andb Nat.b2n].
      destruct (kbd_report_of report) as [r|]; [|discriminate H].
      rewrite bind_Some in H.
      destruct (process_kbd_report keycode2ascii r _) as [s1|] eqn:H1; [|discriminate H].
      rewrite !bind_Some in H. injection H as <-.
      destruct (Hkbd _ _ _ H1) as (K1 & M1 & out & O1 & N1).
      cbn in K1, M1, O1.
      split; [destruct ok; cbn; rewrite K1; reflexivity|].
      split; [destruct ok; cbn; rewrite M1; reflexivity|].
      exists (out ++ if ok then [] else [Txt "Error: cannot request to receive report"; Nl]).
      split; [destruct ok; cbn; rewrite O1; cbn; now rewrite ?app_nil_r, <- ?app_assoc|].
      rewrite !printed_times_app, !N1, !Herr by auto. rewrite ?andb_false_r. auto.
Qed.

End BannerFacts.

Section BannerRuns.

Variable keycode2ascii : list (Z * Z).

(** X10.  The banners of the report callback.  The keyboard banner is
    printed once, by the first keyboard report, and never again; the mouse
    banner is printed by every mouse report that arrives before the first
    keyboard report, and by none after it. *)
Theorem hid_banners (reports : list (Z * bytes * bool)) :
  forall s s' : State,
  receive_reports keycode2ascii reports s = Some s' ->
  kbd_printed s' = kbd_printed s || has_keyboard_report reports /\
  exists out,
    serial s' = serial s ++ out /\
    printed_times KBD_BANNER out =
      Nat.b2n (negb (kbd_printed s) && has_keyboard_report reports) /\
    printed_times MOUSE_BANNER out =
      (if kbd_printed s then 0 else mouse_before_keyboard reports)%nat.
Proof.
  induction reports as [|[[itf report] ok] rest IH]; intros s s' H.
  - injection H as <-. split; [now rewrite orb_false_r|].
    exists []. split; [now rewrite app_nil_r|].
    rewrite andb_false_r. destruct (kbd_printed s); auto.
  - cbn [receive_reports] in H.
    destruct (tuh_hid_report_received_cb keycode2ascii itf report ok s) as [s1|] eqn:H1;
      [|discriminate H].
    rewrite bind_Some in H.
    destruct (hid_report_banners _ _ _ _ _ _ H1) as (K1 & _ & out1 & O1 & B1 & M1 & _).
    destruct (IH _ _ H) as (K2 & out2 & O2 & B2 & M2). clear IH H H1.
    unfold has_keyboard_report in *. cbn [existsb fst mouse_before_keyboard].
    split; [now rewrite K2, K1, orb_assoc|].
    exists (out1 ++ out2). split; [now rewrite O2, O1, app_assoc|].
    rewrite !printed_times_app, B1, B2, M1, M2, K1.
    destruct (kbd_printed s), (itf =? HID_ITF_PROTOCOL_KEYBOARD),
      (itf =? HID_ITF_PROTOCOL_MOUSE), (existsb _ rest); cbn; auto.
Qed.

(** X11.  The static [prev_report] of the mouse monitor is never assigned,
    so the button line is printed for every mouse report that holds a
    button down, whether or not the buttons have changed since the last
    report. *)
Theorem mouse_buttons_printed_while_held (reports : list (Z * bytes * bool)) :
  forall s s' : State,
  buttons (mouse_prev_report s) = 0 ->
  receive_reports keycode2ascii reports s = Some s' ->
  mouse_prev_report s' = mouse_prev_report s /\
  exists out,
    serial s' = serial s ++ out /\
    printed_times MOUSE_BUTTONS out = length (List.filter button_down reports).
Proof.
  induction reports as [|[[itf report] ok] rest IH]; intros s s' Hz H.
  - injection H as <-. split; [reflexivity|].
    exists []. split; [now rewrite app_nil_r | reflexivity].
  - cbn [receive_reports] in H.
    destruct (tuh_hid_report_received_cb keycode2ascii itf report ok s) as [s1|] eqn:H1;
      [|discriminate H].
    rewrite bind_Some in H.
    destruct (hid_report_banners _ _ _ _ _ _ H1) as (_ & P1 & out1 & O1 & _ & _ & M1).
    rewrite <- P1 in Hz.
    destruct (IH _ _ Hz H) as (P2 & out2 & O2 & M2). clear IH H H1.
    split; [now rewrite P2|].
    exists (out1 ++ out2). split; [now rewrite O2, O1, app_assoc|].
    rewrite printed_times_app, M1, M2 by (now rewrite <- P1).
    cbn [List.filter]. destruct (button_down (itf, report, ok)); reflexivity.
Qed.

End BannerRuns.

Lemma mouse_buttons_printed_while_held_witness :
  exists s' out,
    receive_reports letter_rows
      [(2, [1; 0; 0; 0; 0], true); (2, [1; 5; 0; 0; 0], true); (2, [0; 5; 0; 0; 0], true)]
      (power_on []) = Some s' /\
    mouse_prev_report s' = zero_mouse_report /\
    serial s' = serial (power_on []) ++ out /\
    printed_times MOUSE_BUTTONS out = 2%nat.
Proof.
  destruct (receive_reports letter_rows
      [(2, [1; 0; 0; 0; 0], true); (2, [1; 5; 0; 0; 0], true); (2, [0; 5; 0; 0; 0], true)]
      (power_on [])) as [s'|] eqn:H; [|vm_compute in H; discriminate H].
  destruct (mouse_buttons_printed_while_held letter_rows _ (power_on []) s' eq_refl H)
    as (P & out & O & M).
  exists s', out. split; [reflexivity|]. split; [exact P|]. split; [exact O|exact M].
Defined.

Lemma hid_banners_witness :
  exists s' out,
    receive_reports letter_rows
      [(2, [0; 1; 0; 0; 0; 0; 0; 0], true); (2, [0; 2; 0; 0; 0; 0; 0; 0], true);
       (1, [0; 0; 4; 0; 0; 0; 0; 0], true); (2, [0; 3; 0; 0; 0; 0; 0; 0], true);
       (1, [0; 0; 5; 0; 0; 0; 0; 0], true)]
      (power_on []) = Some s' /\
    kbd_printed s' = true /\
    serial s' = serial (power_on []) ++ out /\
    printed_times KBD_BANNER out = 1%nat /\
    printed_times MOUSE_BANNER out = 2%nat.
Proof.
  destruct (receive_reports letter_rows
      [(2, [0; 1; 0; 0; 0; 0; 0; 0], true); (2, [0; 2; 0; 0; 0; 0; 0; 0], true);
       (1, [0; 0; 4; 0; 0; 0; 0; 0], true); (2, [0; 3; 0; 0; 0; 0; 0; 0], true);
       (1, [0; 0; 5; 0; 0; 0; 0; 0], true)]
      (power_on [])) as [s'|] eqn:H; [|vm_compute in H; discriminate H].
  destruct (hid_banners letter_rows _ (power_on []) s' H) as (K & out & O & B & M).
  exists s', out. split; [reflexivity|]. split; [exact K|]. split; [exact O|].
  split; [exact B | exact M].
Defined.

(** ** One pass of [loop] *)

(** The fields a pass of [loop] works on. *)
Ltac alert_fields :=
  cbn [oled pixel usbkiller readme autorun deleted deleted_reported written
       written_reported hid_sent hid_reported hid_event_num display_queue rst_prev
       msc_disk serial
       setNeoColor printout ser display_print set_usbkiller set_readme set_autorun
       set_deleted set_deleted_reported set_written set_written_reported set_hid_sent
       set_hid_reported set_display_queue set_rst_prev].

(** Draining the queue touches the display, the serial port and the queue
    only. *)
Lemma pending_alerts_flags (s s' : State) :
  alert_flags s' = alert_flags s -> pending_alerts s' = pending_alerts s.
Proof.
  unfold alert_flags, pending_alerts. intros H.
  injection H as -> -> -> -> -> -> -> -> ->. reflexivity.
Qed.

Lemma drain_keeps (fuel : nat) :
  forall s : State,
  let s' := drain fuel s in
  pixel s' = pixel s /\ alert_flags s' = alert_flags s /\
  rst_prev s' = rst_prev s /\ hid_event_num s' = hid_event_num s /\
  msc_disk s' = msc_disk s.
Proof.
  induction fuel as [|fuel IH]; intros s; cbn [drain]; [repeat split|].
  unfold queue_try_remove. destruct (q_items (display_queue s)) as [|m rest];
    [repeat split|].
  match goal with |- context [drain fuel ?s1] => specialize (IH s1) end.
  cbv zeta in IH. destruct IH as (P & A & R & N & M).
  cbv zeta. rewrite P, A, R, N, M. repeat split.
Qed.

(** Each report of [loop]: what it shows and which fields it moves. *)
Lemma report_usbkiller_alert (s : State) :
  let s' := report_usbkiller s in
  oled s' = oled s ++ (if usbkiller s then [MSG_KILLER] else []) /\
  pixel s' = pixel s ++ (if usbkiller s then [RED] else []) /\
  usbkiller s' = false /\ readme s' = readme s /\ autorun s' = autorun s /\
  deleted s' = deleted s /\ deleted_reported s' = deleted_reported s /\
  written s' = written s /\ written_reported s' = written_reported s /\
  hid_sent s' = hid_sent s /\ hid_reported s' = hid_reported s /\
  hid_event_num s' = hid_event_num s /\ display_queue s' = display_queue s /\
  rst_prev s' = rst_prev s /\ msc_disk s' = msc_disk s.
Proof.
  unfold report_usbkiller. destruct (usbkiller s) eqn:E; cbv zeta; alert_fields;
    rewrite ?app_nil_r; repeat split; exact E.
Qed.

Lemma report_readme_alert (s : State) :
  let s' := report_readme s in
  oled s' = oled s ++ (if readme s then [MSG_README] else []) /\
  pixel s' = pixel s ++ (if readme s then [BLUE] else []) /\
  usbkiller s' = usbkiller s /\ readme s' = false /\ autorun s' = autorun s /\
  deleted s' = deleted s /\ deleted_reported s' = deleted_reported s /\
  written s' = written s /\ written_reported s' = written_reported s /\
  hid_sent s' = hid_sent s /\ hid_reported s' = hid_reported s /\
  hid_event_num s' = hid_event_num s /\ display_queue s' = display_queue s /\
  rst_prev s' = rst_prev s /\ msc_disk s' = msc_disk s.
Proof.
  unfold report_readme. destruct (readme s) eqn:E; cbv zeta; alert_fields;
    rewrite ?app_nil_r; repeat split; exact E.
Qed.

Lemma report_autorun_alert (s : State) :
  let s' := report_autorun s in
  oled s' = oled s ++ (if autorun s then [MSG_AUTORUN] else []) /\
  pixel s' = pixel s ++ (if autorun s then [BLUE] else []) /\
  usbkiller s' = usbkiller s /\ readme s' = readme s /\ autorun s' = false /\
  deleted s' = deleted s /\ deleted_reported s' = deleted_reported s /\
  written s' = written s /\ written_reported s' = written_reported s /\
  hid_sent s' = hid_sent s /\ hid_reported s' = hid_reported s /\
  hid_event_num s' = hid_event_num s /\ display_queue s' = display_queue s /\
  rst_prev s' = rst_prev s /\ msc_disk s' = msc_disk s.
Proof.
  unfold report_autorun. destruct (autorun s) eqn:E; cbv zeta; alert_fields;
    rewrite ?app_nil_r; repeat split; exact E.
Qed.

Lemma report_deleted_alert (s : State) :
  let s' := report_deleted s in
  let fire := deleted s && negb (deleted_reported s) in
  oled s' = oled s ++ (if fire then [MSG_DELETING] else []) /\
  pixel s' = pixel s ++ (if fire then [BLUE] else []) /\
  usbkiller s' = usbkiller s /\ readme s' = readme s /\ autorun s' = autorun s /\
  deleted s' = deleted s && deleted_reported s /\
  deleted_reported s' = deleted_reported s || deleted s /\
  written s' = written s /\ written_reported s' = written_reported s /\
  hid_sent s' = hid_sent s /\ hid_reported s' = hid_reported s /\
  hid_event_num s' = hid_event_num s /\ display_queue s' = display_queue s /\
  rst_prev s' = rst_prev s /\ msc_disk s' = msc_disk s.
Proof.
  unfold report_deleted.
  destruct (deleted s) eqn:E, (deleted_reported s) eqn:F; cbv zeta; cbn [andb negb orb];
    alert_fields; rewrite ?app_nil_r, ?E, ?F; repeat split.
Qed.

Lemma report_written_alert (s : State) :
  let s' := report_written s in
  let fire := written s && negb (written_reported s) in
  oled s' = oled s ++ (if fire then [MSG_WRITING] else []) /\
  pixel s' = pixel s ++ (if fire then [BLUE] else []) /\
  usbkiller s' = usbkiller s /\ readme s' = readme s /\ autorun s' = autorun s /\
  deleted s' = deleted s /\ deleted_reported s' = deleted_reported s /\
  written s' = written s && written_reported s /\
  written_reported s' = written_reported s || written s /\
  hid_sent s' = hid_sent s /\ hid_reported s' = hid_reported s /\
  hid_event_num s' = hid_event_num s /\ display_queue s' = display_queue s /\
  rst_prev s' = rst_prev s /\ msc_disk s' = msc_disk s.
Proof.
  unfold report_written.
  destruct (written s) eqn:E, (written_reported s) eqn:F; cbv zeta; cbn [andb negb orb];
    alert_fields; rewrite ?app_nil_r, ?E, ?F; repeat split.
Qed.

Lemma report_hid_alert (s : State) :
  let s' := report_hid s in
  let fire := hid_sent s && negb (hid_reported s) in
  oled s' = oled s ++ (if fire then [MSG_HID] else []) /\
  pixel s' = pixel s ++ (if fire then [RED] else []) /\
  usbkiller s' = usbkiller s /\ readme s' = readme s /\ autorun s' = autorun s /\
  deleted s' = deleted s /\ deleted_reported s' = deleted_reported s /\
  written s' = written s /\ written_reported s' = written_reported s /\
  hid_sent s' = hid_sent s && hid_reported s /\
  hid_reported s' = hid_reported s || hid_sent s /\
  hid_event_num s' = hid_event_num s /\ display_queue s' = display_queue s /\
  rst_prev s' = rst_prev s /\ msc_disk s' = msc_disk s.
Proof.
  unfold report_hid.
  destruct (hid_sent s) eqn:E, (hid_reported s) eqn:F; cbv zeta; cbn [andb negb orb];
    alert_fields; rewrite ?app_nil_r, ?E, ?F; repeat split.
Qed.

(** The six reports of a pass: every pending alert is shown, in order, and
    none is left. *)
Lemma loop_reports_alerts (s : State) :
  let s' := loop_reports s in
  oled s' = oled s ++ map fst (pending_alerts s) /\
  pixel s' = pixel s ++ map snd (pending_alerts s) /\
  alert_flags s' =
    (false, false, false, deleted s && deleted_reported s,
     deleted_reported s || deleted s, written s && written_reported s,
     written_reported s || written s, hid_sent s && hid_reported s,
     hid_reported s || hid_sent s) /\
  hid_event_num s' = hid_event_num s /\
  display_queue s' = display_queue s /\ rst_prev s' = rst_prev s /\
  msc_disk s' = msc_disk s.
Proof.
  unfold loop_reports.
  pose proof (report_usbkiller_alert s) as K. set (s1 := report_usbkiller s) in *.
  pose proof (report_readme_alert s1) as R. set (s2 := report_readme s1) in *.
  pose proof (report_autorun_alert s2) as A. set (s3 := report_autorun s2) in *.
  pose proof (report_deleted_alert s3) as D. set (s4 := report_deleted s3) in *.
  pose proof (report_written_alert s4) as W. set (s5 := report_written s4) in *.
  pose proof (report_hid_alert s5) as H. set (s6 := report_hid s5) in *.
  clearbody s1 s2 s3 s4 s5 s6. cbv zeta in *.
  destruct K as (Ko & Kp & K1 & K2 & K3 & K4 & K5 & K6 & K7 & K8 & K9 & Kn & Kq & Kr & Km).
  destruct R as (Ro & Rp & R1 & R2 & R3 & R4 & R5 & R6 & R7 & R8 & R9 & Rn & Rq & Rr & Rm).
  destruct A as (Ao & Ap & A1 & A2 & A3 & A4 & A5 & A6 & A7 & A8 & A9 & An & Aq & Ar & Am).
  destruct D as (Do & Dp & D1 & D2 & D3 & D4 & D5 & D6 & D7 & D8 & D9 & Dn & Dq & Dr & Dm).
  destruct W as (Wo & Wp & W1 & W2 & W3 & W4 & W5 & W6 & W7 & W8 & W9 & Wn & Wq & Wr & Wm).
  destruct H as (Ho & Hp & H1 & H2 & H3 & H4 & H5 & H6 & H7 & H8 & H9 & Hn & Hq & Hr & Hm).
  unfold pending_alerts, alert_flags.
  rewrite Ho, Wo, Do, Ao, Ro, Ko, Hp, Wp, Dp, Ap, Rp, Kp.
  rewrite H1, H2, H3, H4, H5, H6, H7, H8, H9, Hn, Hq, Hr, Hm.
  rewrite W1, W2, W3, W4, W5, W6, W7, W8, W9, Wn, Wq, Wr, Wm.
  rewrite D1, D2, D3, D4, D5, D6, D7, D8, D9, Dn, Dq, Dr, Dm.
  rewrite A1, A2, A3, A4, A5, A6, A7, A8, A9, An, Aq, Ar, Am.
  rewrite R1, R2, R3, R4, R5, R6, R7, R8, R9, Rn, Rq, Rr, Rm.
  rewrite K1, K2, K3, K4, K5, K6, K7, K8, K9, Kn, Kq, Kr, Km.
  clear. rewrite !map_app, <- !app_assoc.
  split; [|split; [|repeat split]];
    destruct (usbkiller s), (readme s), (autorun s),
      (deleted s && negb (deleted_reported s)), (written s && negb (written_reported s)),
      (hid_sent s && negb (hid_reported s)); reflexivity.
Qed.

(** After the six reports no alert is pending. *)
Lemma no_alert_left (s : State) : pending_alerts (loop_reports s) = [].
Proof.
  destruct (loop_reports_alerts s) as (_ & _ & F & _). unfold alert_flags in F.
  injection F as F1 F2 F3 F4 F5 F6 F7 F8 F9. unfold pending_alerts.
  rewrite F1, F2, F3, F4, F5, F6, F7, F8, F9.
  destruct (deleted s), (deleted_reported s), (written s), (written_reported s),
    (hid_sent s), (hid_reported s); reflexivity.
Qed.

Lemma poll_btn_rst_keeps (rst_now : bool) (s : State) :
  let s' := fst (poll_btn_rst rst_now s) in
  snd (poll_btn_rst rst_now s) = rst_prev s && negb rst_now /\
  rst_prev s' = rst_now /\
  oled s' = oled s /\ pixel s' = pixel s /\ alert_flags s' = alert_flags s /\
  hid_event_num s' = hid_event_num s /\ display_queue s' = display_queue s /\
  msc_disk s' = msc_disk s.
Proof.
  unfold poll_btn_rst. destruct rst_now, (rst_prev s) eqn:E; cbn; repeat split; auto.
Qed.

Lemma poll_bootsel_keeps (i : loop_in) (s : State) :
  let s' := fst (poll_bootsel (bootsel i) s) in
  snd (poll_bootsel (bootsel i) s) = (if bootsel_short i then Rebooting else Looping) /\
  oled s' = oled s ++ bootsel_text i s /\
  pixel s' = pixel s /\ alert_flags s' = alert_flags s /\
  rst_prev s' = rst_prev s /\ display_queue s' = display_queue s /\
  hid_event_num s' = hid_event_num s /\ msc_disk s' = msc_disk s.
Proof.
  unfold poll_bootsel, bootsel_text, bootsel_short.
  destruct (bootsel i) as [d|]; [destruct (u32 d >? 2000)|]; cbn;
    rewrite ?app_nil_r; repeat split.
Qed.

(** One pass of [loop], block by block. *)
Lemma loop_blocks (i : loop_in) (s : State) :
  let s' := fst (loop i s) in
  q_items (display_queue s') = [] /\
  rst_prev s' = btn_rst i /\
  if reset_pressed i s then
    snd (loop i s) = Rebooting /\
    oled s' = oled s ++ queued_texts s /\
    pixel s' = pixel s /\
    pending_alerts s' = pending_alerts s
  else
    snd (loop i s) = (if bootsel_short i then Rebooting else Looping) /\
    oled s' = oled s ++ queued_texts s ++ map fst (pending_alerts s) ++ bootsel_text i s /\
    pixel s' = pixel s ++ map snd (pending_alerts s) /\
    pending_alerts s' = [].
Proof.
  unfold loop, drain_queue, reset_pressed, queued_texts.
  destruct (drain_spec (q_items (display_queue s)) s eq_refl) as [Do Dq].
  destruct (drain_keeps (length (q_items (display_queue s))) s)
    as (Dp & Da & Dr & Dn & _).
  apply pending_alerts_flags in Da.
  set (s0 := drain (length (q_items (display_queue s))) s) in *. clearbody s0.
  destruct (poll_btn_rst_keeps (btn_rst i) s0)
    as (Bc & Br & Bo & Bp & Ba & Bn & Bq & _).
  apply pending_alerts_flags in Ba.
  destruct (poll_btn_rst (btn_rst i) s0) as [s1 pressed]. cbn [fst snd] in *.
  subst pressed. rewrite Dr.
  destruct (rst_prev s && negb (btn_rst i)); cbn [fst snd].
  - rewrite Bq, Dq, Br, Bo, Do, Bp, Dp, Ba, Da. repeat split.
  - destruct (loop_reports_alerts s1) as (Lo & Lp & _ & Ln & Lq & Lr & _).
    pose proof (no_alert_left s1) as La.
    fold (loop_reports s1).
    destruct (poll_bootsel_keeps i (loop_reports s1)) as (Pc & Po & Pp & Pa & Pr & Pq & _).
    apply pending_alerts_flags in Pa.
    cbv zeta in *.
    rewrite Pq, Lq, Bq, Dq, Pr, Lr, Br, Pc, Po, Lo, Bo, Do, Pp, Lp, Bp, Dp, Pa, La, Ba, Da.
    unfold bootsel_text. rewrite Ln, Bn, Dn, <- !app_assoc. repeat split.
Qed.

(** X12.  One pass of [loop].  The queue is emptied onto the display,
    oldest text first.  If the pass sees [BTN_RST] go low it ends in
    [swreset] at once: no alert is shown and the pending ones stay pending.
    Otherwise every pending alert is shown, in the order USB killer, README,
    AUTORUN, DELETING, WRITING, HID, each setting the pixel to its colour
    (so the pixel ends on the colour of the last alert shown), none is left
    pending, and BOOTSEL held for more than two seconds shows the event
    counter while a shorter press shows RESETTING and ends in [swreset]. *)
Theorem loop_pass (i : loop_in) (s : State) :
  let s' := fst (loop i s) in
  q_items (display_queue s') = [] /\
  rst_prev s' = btn_rst i /\
  if reset_pressed i s then
    snd (loop i s) = Rebooting /\
    oled s' = oled s ++ queued_texts s /\
    pixel s' = pixel s /\
    pending_alerts s' = pending_alerts s
  else
    snd (loop i s) = (if bootsel_short i then Rebooting else Looping) /\
    oled s' = oled s ++ queued_texts s ++ map fst (pending_alerts s) ++ bootsel_text i s /\
    pixel s' = pixel s ++ map snd (pending_alerts s) /\
    pending_alerts s' = [].
Proof. apply loop_blocks. Qed.

(** ** The HID alert, once per device session *)

Lemma shown_app (msg : string) (s : State) (l : list string) (n : nat) :
  n = length (filter (fun x => x = msg) l) ->
  forall s', oled s' = oled s ++ l -> shown msg s' = (shown msg s + n)%nat.
Proof. intros -> s' H. unfold shown. now rewrite H, filter_app, length_app. Qed.

Lemma pending_hid_alerts (s : State) :
  length (filter (fun x => x = MSG_HID) (map fst (pending_alerts s))) =
    Nat.b2n (hid_sent s && negb (hid_reported s)).
Proof.
  unfold pending_alerts. rewrite !map_app, !filter_app, !length_app.
  assert (Z0 : forall (b : bool) (m : string) (c : Z * Z * Z), m <> MSG_HID ->
            length (filter (fun x => x = MSG_HID) (map fst (if b then [(m, c)] else [])))
            = 0%nat).
  { intros b m c Hm. destruct b; [|reflexivity]. cbn [map fst].
    rewrite filter_cons. destruct (decide (m = MSG_HID)); [contradiction|reflexivity]. }
  rewrite !Z0 by discriminate.
  destruct (hid_sent s && negb (hid_reported s)); reflexivity.
Qed.

Lemma bootsel_text_no_hid (i : loop_in) (s : State) :
  length (filter (fun x => x = MSG_HID) (bootsel_text i s)) = 0%nat.
Proof.
  unfold bootsel_text. destruct (bootsel i) as [d|]; [|reflexivity].
  rewrite filter_cons.
  destruct (decide ((if u32 d >? 2000 then hid_evt_text (hid_event_num s)
                     else MSG_RESETTING) = MSG_HID)) as [E|]; [|reflexivity].
  exfalso. destruct (u32 d >? 2000); [|discriminate E].
  destruct (hid_evt_text_prefix (hid_event_num s)) as [rest Hrest].
  rewrite Hrest in E. discriminate E.
Qed.

(** A pass of [loop] on an empty queue shows the HID alert exactly when a
    report has arrived and the alert was not made yet. *)
Lemma loop_hid_alert (i : loop_in) (s : State) :
  q_items (display_queue s) = [] ->
  let s' := fst (loop i s) in
  let fire := negb (reset_pressed i s) && hid_sent s && negb (hid_reported s) in
  shown MSG_HID s' = (shown MSG_HID s + Nat.b2n fire)%nat /\
  hid_reported s' = hid_reported s || fire.
Proof.
  intros Hq. cbv zeta.
  pose proof (loop_blocks i s) as L. cbv zeta in L. destruct L as (_ & _ & L).
  assert (Hr : hid_reported (fst (loop i s)) =
               if reset_pressed i s then hid_reported s
               else hid_reported s || hid_sent s).
  { unfold loop, drain_queue, reset_pressed.
    destruct (drain_keeps (length (q_items (display_queue s))) s)
      as (_ & Da & Dr & _).
    set (s0 := drain (length (q_items (display_queue s))) s) in *. clearbody s0.
    destruct (poll_btn_rst_keeps (btn_rst i) s0) as (Bc & _ & _ & _ & Ba & _).
    destruct (poll_btn_rst (btn_rst i) s0) as [s1 pressed]. cbn [fst snd] in *.
    subst pressed. rewrite Dr. rewrite Da in Ba. unfold alert_flags in Ba.
    injection Ba as _ _ _ _ _ _ _ Hs Hh.
    destruct (rst_prev s && negb (btn_rst i)); cbn [fst snd]; [exact Hh|].
    destruct (loop_reports_alerts s1) as (_ & _ & Lf & _).
    fold (loop_reports s1).
    destruct (poll_bootsel_keeps i (loop_reports s1)) as (_ & _ & _ & Pf & _).
    cbv zeta in *. rewrite Lf in Pf. unfold alert_flags in Pf.
    injection Pf as _ _ _ _ _ _ _ _ Ph. now rewrite Ph, Hs, Hh. }
  unfold queued_texts in L. rewrite Hq in L. cbn [map app] in L.
  rewrite Hr. destruct (reset_pressed i s); cbn [negb andb Nat.b2n].
  - destruct L as (_ & Lo & _). rewrite app_nil_r in Lo.
    unfold shown. rewrite Lo, orb_false_r. split; [lia | reflexivity].
  - destruct L as (_ & Lo & _).
    rewrite (shown_app MSG_HID s _ _ eq_refl _ Lo).
    rewrite filter_app, length_app, pending_hid_alerts, bootsel_text_no_hid.
    destruct (hid_sent s), (hid_reported s); cbn; split; (lia || reflexivity).
Qed.

Lemma read_keeps_hid (s s' : State) (lba bufsize r : Z) (buffer buffer' : bytes) :
  msc_read_callback lba buffer bufsize s = Some (s', buffer', r) ->
  hid_reported s' = hid_reported s.
Proof.
  unfold msc_read_callback, mbind, option_bind. intros H.
  destruct (lba =? BLOCK_README), (lba =? BLOCK_AUTORUN), (lba <? DISK_BLOCK_NUM - 1);
    bind_inv; reflexivity.
Qed.

Lemma write_keeps_hid (s s' : State) (lba bufsize r : Z) (buffer : bytes) :
  msc_write_callback lba buffer bufsize s = Some (s', r) ->
  hid_reported s' = hid_reported s.
Proof.
  unfold msc_write_callback, mbind, option_bind. intros H.
  destruct (lba =? 7), (lba >? 10), (lba <? DISK_BLOCK_NUM - 1);
    bind_inv; repeat case_match; reflexivity.
Qed.

Lemma hid_report_keeps_hid (k2a : list (Z * Z)) (itf : Z) (report : bytes) (ok : bool)
    (s s' : State) :
  tuh_hid_report_received_cb k2a itf report ok s = Some s' ->
  hid_reported s' = hid_reported s.
Proof.
  unfold tuh_hid_report_received_cb, process_kbd_report, mbind, option_bind.
  intros H.
  destruct (itf =? HID_ITF_PROTOCOL_KEYBOARD), (itf =? HID_ITF_PROTOCOL_MOUSE),
    (kbd_printed (set_hid_sent true s)), ok;
    bind_inv; reflexivity.
Qed.

Section HidAlertFacts.

Variable keycode2ascii : list (Z * Z).

Lemma step_hid_alert (m m' : machine) (e : event) (k : nat) :
  step keycode2ascii m e m' ->
  q_items (display_queue (snd m)) = [] ->
  (shown MSG_HID (snd m) <= k + Nat.b2n (hid_reported (snd m)))%nat ->
  (shown MSG_HID (snd m') <= k + hid_umounts [e] + Nat.b2n (hid_reported (snd m')))%nat.
Proof.
  intros Hstep Hq Hinv.
  destruct Hstep as
    [ i s s' c Hloop | s | c pin s | c lba buffer bufsize s s' buffer' r Hb Hrd
    | c lba buffer bufsize s s' r Hb Hwr | c s Hb | c a i v p itf ok s s' Hm
    | c itf report ok s s' Hr | c a i s | c a s | c idx s ];
    cbn [fst snd hid_umounts] in *.
  - destruct (loop_hid_alert i s Hq) as (Hs & Hh). rewrite Hloop in Hs, Hh.
    cbn [fst] in Hs, Hh. rewrite Hs, Hh.
    destruct (negb (reset_pressed i s)), (hid_sent s), (hid_reported s); cbn in *; lia.
  - lia.
  - unfold detectUSBKiller, shown in *.
    destruct pin; cbn [negb oled hid_reported set_usbkiller]; lia.
  - rewrite (read_keeps_hid _ _ _ _ _ _ _ Hrd).
    destruct (read_view _ _ _ _ _ _ _ Hrd) as (Hv & _). unfold report_view in Hv.
    injection Hv as Ho _. unfold shown. rewrite Ho. fold (shown MSG_HID s). lia.
  - rewrite (write_keeps_hid _ _ _ _ _ _ Hwr).
    destruct (write_view _ _ _ _ _ _ Hwr) as (Hv & _). unfold report_view in Hv.
    injection Hv as Ho _. unfold shown. rewrite Ho. fold (shown MSG_HID s). lia.
  - unfold msc_flush_callback. lia.
  - unfold tuh_hid_mount_cb in Hm.
    destruct (protocol_str !! Z.to_nat itf) as [name|]; [|discriminate Hm].
    rewrite bind_Some in Hm. injection Hm as <-.
    destruct ok; cbn -[shown];
      rewrite (shown_snoc MSG_HID (nl +:+ "[!!] HID Device") s) by reflexivity;
      decide_msgs; cbn; lia.
  - rewrite (hid_report_keeps_hid _ _ _ _ _ _ Hr).
    destruct (hid_report_view _ _ _ _ _ _ Hr) as (Hv & _). unfold report_view in Hv.
    injection Hv as Ho _. unfold shown. rewrite Ho. fold (shown MSG_HID s). lia.
  - cbn -[shown]. change (shown MSG_HID (tuh_hid_umount_cb a i s)) with (shown MSG_HID s).
    destruct (hid_reported s); cbn in *; lia.
  - cbn -[shown].
    rewrite (shown_snoc MSG_HID (nl +:+ "[++] Mass Device") s) by reflexivity.
    decide_msgs. cbn. lia.
  - cbn -[shown].
    rewrite (shown_snoc MSG_HID (nl +:+ "[++] CDC Device") s) by reflexivity.
    decide_msgs. cbn. lia.
Qed.

Lemma run_hid_alert (m m' : machine) (tr : list event) :
  run keycode2ascii m tr m' ->
  forall k : nat,
  notified_once (snd m) ->
  (shown MSG_HID (snd m) <= k + Nat.b2n (hid_reported (snd m)))%nat ->
  (shown MSG_HID (snd m') <= k + hid_umounts tr + Nat.b2n (hid_reported (snd m')))%nat.
Proof.
  induction 1 as [m | m e m1 tr m2 Hstep _ IH]; intros k Hinv Hk.
  - cbn [hid_umounts]. lia.
  - pose proof (step_hid_alert _ _ _ k Hstep (proj1 Hinv) Hk) as H1.
    destruct (step_notified_once _ _ _ _ Hstep Hinv) as (Hinv1 & _).
    specialize (IH (k + hid_umounts [e])%nat Hinv1 H1).
    replace (hid_umounts (e :: tr)) with (hid_umounts [e] + hid_umounts tr)%nat
      by (destruct e; reflexivity).
    lia.
Qed.

Variable XXH32 : bytes -> Z -> Z.

Lemma boot_no_hid_alert (image : bytes) (m : machine) :
  boot XXH32 image = Some m -> shown MSG_HID (snd m) = 0%nat.
Proof.
  unfold boot, setup, mbind, option_bind. cbn [msc_disk set_display_queue power_on].
  intros H. destruct (hashed_bytes image) as [input|]; [|discriminate H].
  destruct (XXH32 input 0 =? valid_hash); injection H as <-; cbn [fst snd];
    unfold cls; rewrite !shown_printout; decide_msgs; reflexivity.
Qed.

(** X13.  The HID alert is made once per device session: over every run
    of the machine from boot, "HID Sending data" has been shown at most
    once more than HID devices have been unmounted, and not more often than
    that while the alert of the current session is still to be made. *)
Theorem hid_alert_once_per_session
    (image : bytes) (m m' : machine) (tr : list event) :
  boot XXH32 image = Some m ->
  run keycode2ascii m tr m' ->
  (shown MSG_HID (snd m') <= hid_umounts tr + Nat.b2n (hid_reported (snd m')))%nat /\
  (shown MSG_HID (snd m') <= hid_umounts tr + 1)%nat.
Proof.
  intros Hboot Hrun.
  destruct (boot_spec XXH32 image m Hboot) as (input & _ & _ & _ & Hinv & _).
  pose proof (boot_no_hid_alert image m Hboot) as H0.
  pose proof (run_hid_alert _ _ _ Hrun 0%nat Hinv) as H.
  rewrite H0 in H. specialize (H ltac:(lia)).
  split; [lia|]. destruct (hid_reported (snd m')); cbn in H; lia.
Qed.

End HidAlertFacts.

Lemma hid_alert_once_per_session_witness :
  exists m m',
    boot accepting_hash short_image = Some m /\
    run letter_rows m two_sessions m' /\
    shown MSG_HID (snd m') = 2%nat /\
    (shown MSG_HID (snd m') <= hid_umounts two_sessions +
                               Nat.b2n (hid_reported (snd m')))%nat /\
    (shown MSG_HID (snd m') <= hid_umounts two_sessions + 1)%nat.
Proof.
  destruct (boot accepting_hash short_image) as [m|] eqn:Hboot;
    [|vm_compute in Hboot; discriminate Hboot].
  pose proof Hboot as Hm. vm_compute in Hm. injection Hm as Hm.
  evar (m' : machine).
  assert (Hrun : run letter_rows m two_sessions m').
  { subst m m'. unfold two_sessions.
    eapply run_cons; [apply step_hid_report; vm_compute; reflexivity|].
    eapply run_cons; [apply step_loop; vm_compute; reflexivity|].
    eapply run_cons; [apply step_hid_umount|].
    eapply run_cons; [apply step_hid_report; vm_compute; reflexivity|].
    eapply run_cons; [apply step_loop; vm_compute; reflexivity|].
    apply run_nil. }
  exists m, m'. split; [reflexivity|]. split; [exact Hrun|].
  split; [vm_compute; reflexivity|].
  exact (hid_alert_once_per_session letter_rows accepting_hash short_image m m' two_sessions
           Hboot Hrun).
Defined.

(** ** [hexDump] *)

Lemma dump_char_nonzero (d : Z) : dump_char d <> 0.
Proof.
  unfold dump_char. destruct (Z.leb_spec 32 d); cbn [andb]; [|discriminate].
  destruct (d <=? 126); [lia|discriminate].
Qed.

(** X14.  The dump of a 16-byte line, the only size the sketch asks for
    ([MAX_DUMP_BYTES]): the two hexadecimal digits of each byte, a space
    after the eighth and after the sixteenth byte, then the sixteen bytes
    as text with every byte outside the printable ASCII range shown as a
    dot, a line end, and an empty line. *)
Theorem hexDump_line (data : bytes) :
  length data = 16%nat ->
  hexDump data =
    flat_map hex_pair (take 8 data) ++ [Txt " "] ++
    flat_map hex_pair (drop 8 data) ++ [Txt " "] ++
    map Chr (map dump_char data) ++ [Nl; Nl].
Proof.
  intros Hlen.
  destruct data as
    [|b0 [|b1 [|b2 [|b3 [|b4 [|b5 [|b6 [|b7 [|b8 [|b9 [|b10 [|b11 [|b12 [|b13 [|b14 [|b15 [|b16 rest]]]]]]]]]]]]]]]]];
    try discriminate Hlen. clear Hlen.
  unfold hexDump.
  cbn -[println_chars Z.shiftr Z.land Z.leb].
  unfold println_chars.
  match goal with
  | |- context [c_str ?tab] =>
      change (c_str tab)
        with (c_str (map dump_char [b0; b1; b2; b3; b4; b5; b6; b7; b8; b9;
                                    b10; b11; b12; b13; b14; b15] ++ [0]))
  end.
  rewrite c_str_terminated; [reflexivity|].
  repeat (apply Forall_cons; split; [apply dump_char_nonzero|]). apply Forall_nil_2.
Qed.

Lemma hexDump_line_witness :
  hexDump [72; 105; 33; 0; 1; 2; 3; 4; 5; 6; 7; 8; 9; 10; 200; 255] =
    flat_map hex_pair [72; 105; 33; 0; 1; 2; 3; 4] ++ [Txt " "] ++
    flat_map hex_pair [5; 6; 7; 8; 9; 10; 200; 255] ++ [Txt " "] ++
    map Chr [72; 105; 33; 46; 46; 46; 46; 46; 46; 46; 46; 46; 46; 46; 46; 46] ++ [Nl; Nl].
Proof.
  apply (hexDump_line [72; 105; 33; 0; 1; 2; 3; 4; 5; 6; 7; 8; 9; 10; 200; 255]).
  reflexivity.
Defined.

Lemma hex_digits_app (a b : list sout) :
  hex_digits (a ++ b) = hex_digits a ++ hex_digits b.
Proof.
  induction a as [|x a IH]; [reflexivity|].
  destruct x; cbn [app hex_digits]; rewrite IH; reflexivity.
Qed.

Lemma hex_digits_chars (a : bytes) : hex_digits (println_chars a) = [].
Proof.
  unfold println_chars. rewrite hex_digits_app.
  induction (c_str a) as [|c l IH]; [reflexivity|exact IH].
Qed.

Lemma hex_digits_spaces (n : nat) : hex_digits (repeat (Txt "   ") n) = [].
Proof. induction n as [|n IH]; [reflexivity|exact IH]. Qed.

(** A turn of the loop adds the two digits of its byte and nothing else
    in hexadecimal. *)
Lemma hexDump_step_digits (data : bytes) (size : nat) (acc : bytes * list sout) (i : nat) :
  hex_digits (snd (hexDump_step data size acc i)) =
    hex_digits (snd acc) ++
    [Z.shiftr (default 0 (data !! i)) 4; Z.land (default 0 (data !! i)) 0x0F].
Proof.
  destruct acc as [tab out]. unfold hexDump_step. cbn [snd].
  repeat match goal with
         | |- context [if ?c then _ else _] => destruct c
         end; cbn [snd];
    rewrite ?hex_digits_app, ?hex_digits_chars, ?hex_digits_spaces, ?app_nil_r;
    reflexivity.
Qed.

Lemma hexDump_fold_digits (data : bytes) (size : nat) (idx : list nat) :
  forall acc : bytes * list sout,
  hex_digits (snd (fold_left (hexDump_step data size) idx acc)) =
    hex_digits (snd acc) ++
    flat_map (fun i => [Z.shiftr (default 0 (data !! i)) 4;
                        Z.land (default 0 (data !! i)) 0x0F]) idx.
Proof.
  induction idx as [|i idx IH]; intros acc; cbn [fold_left flat_map].
  - now rewrite app_nil_r.
  - rewrite IH, hexDump_step_digits, <- app_assoc. reflexivity.
Qed.

Lemma pair_up_digits (data : bytes) :
  Forall (fun b => 0 <= b < 256) data ->
  pair_up (flat_map (fun b => [Z.shiftr b 4; Z.land b 0x0F]) data) = data.
Proof.
  induction 1 as [|b data Hb _ IH]; [reflexivity|].
  cbn [flat_map app pair_up]. rewrite IH. f_equal.
  rewrite Z.shiftr_div_pow2 by lia. change 0x0F with (Z.ones 4).
  rewrite Z.land_ones by lia. change (2 ^ 4) with 16.
  pose proof (Z.div_mod b 16 ltac:(lia)). lia.
Qed.

(** X15.  The dump is faithful, whatever the size: the hexadecimal digits
    it prints, read two by two, are the bytes dumped, in order. *)
Theorem hexDump_digits (data : bytes) :
  Forall (fun b => 0 <= b < 256) data ->
  pair_up (hex_digits (hexDump data)) = data.
Proof.
  intros Hrange. unfold hexDump. rewrite hex_digits_app, hexDump_fold_digits.
  cbn [snd hex_digits app]. rewrite app_nil_r.
  replace (flat_map _ (seq 0 (length data)))
    with (flat_map (fun b => [Z.shiftr b 4; Z.land b 0x0F]) data).
  - apply pair_up_digits, Hrange.
  - clear Hrange.
    assert (G : forall pre, flat_map (fun b => [Z.shiftr b 4; Z.land b 0x0F]) data =
              flat_map (fun i => [Z.shiftr (default 0 ((pre ++ data) !! i)) 4;
                                  Z.land (default 0 ((pre ++ data) !! i)) 0x0F])
                       (seq (length pre) (length data))).
    { induction data as [|b data IH]; intros pre; [reflexivity|].
      cbn [length seq flat_map]. rewrite list_lookup_middle by reflexivity.
      cbn [default app]. do 2 f_equal.
      specialize (IH (pre ++ [b])). rewrite length_app, <- app_assoc in IH.
      cbn [length app] in IH. rewrite Nat.add_1_r in IH. exact IH. }
    exact (G []).
Qed.

Lemma hexDump_digits_witness :
  pair_up (hex_digits (hexDump [0; 1; 0x7F; 0xE5; 255])) = [0; 1; 0x7F; 0xE5; 255].
Proof.
  apply (hexDump_digits [0; 1; 0x7F; 0xE5; 255]). repeat constructor; lia.
Defined.

(** ** The reach of the self test *)

Section SelftestReach.

Variable XXH32 : bytes -> Z -> Z.

(** X16.  The self test looks at the [BYTES_TO_HASH] bytes that start 11
    bytes into block [BYTES_TO_HASH_OFFSET] and at nothing else: two images
    that agree on this range boot to the same verdict, with the storage
    interface begun for both or for neither, whatever the rest of the
    images holds. *)
Theorem selftest_reads_hashed_range_only (image image' : bytes) :
  (block_addr BYTES_TO_HASH_OFFSET + 11 + Z.to_nat BYTES_TO_HASH <= length image)%nat ->
  (block_addr BYTES_TO_HASH_OFFSET + 11 + Z.to_nat BYTES_TO_HASH <= length image')%nat ->
  take (Z.to_nat BYTES_TO_HASH) (drop (block_addr BYTES_TO_HASH_OFFSET + 11) image) =
  take (Z.to_nat BYTES_TO_HASH) (drop (block_addr BYTES_TO_HASH_OFFSET + 11) image') ->
  exists m m',
    boot XXH32 image = Some m /\ boot XXH32 image' = Some m' /\
    fst m = fst m' /\ msc_begun (snd m) = msc_begun (snd m').
Proof.
  intros Hlen Hlen' Hsame.
  assert (Hin : hashed_bytes image =
                Some (take (Z.to_nat BYTES_TO_HASH)
                        (drop (block_addr BYTES_TO_HASH_OFFSET + 11) image)))
    by (unfold hashed_bytes; apply mem_read_ok; exact Hlen).
  assert (Hin' : hashed_bytes image' =
                 Some (take (Z.to_nat BYTES_TO_HASH)
                         (drop (block_addr BYTES_TO_HASH_OFFSET + 11) image')))
    by (unfold hashed_bytes; apply mem_read_ok; exact Hlen').
  destruct (boot_total XXH32 image _ Hin) as [m Hm].
  destruct (boot_total XXH32 image' _ Hin') as [m' Hm'].
  exists m, m'. split; [exact Hm|]. split; [exact Hm'|].
  destruct (boot_spec XXH32 image m Hm) as (input & Hi & Hg & Hc & _).
  destruct (boot_spec XXH32 image' m' Hm') as (input' & Hi' & Hg' & Hc' & _).
  rewrite Hin in Hi. rewrite Hin' in Hi'. injection Hi as Ei. injection Hi' as Ei'.
  assert (E : input = input') by (rewrite <- Ei, <- Ei'; exact Hsame).
  rewrite Hg, Hg', Hc, Hc', E. split; reflexivity.
Qed.

End SelftestReach.

Lemma selftest_reads_hashed_range_only_witness :
  exists m m',
    boot accepting_hash short_image = Some m /\
    boot accepting_hash (<[0%nat := 0xEB]> short_image ++ repeat 0xAA 100%nat) = Some m' /\
    fst m = fst m' /\ msc_begun (snd m) = msc_begun (snd m').
Proof.
  apply (selftest_reads_hashed_range_only accepting_hash short_image
           (<[0%nat := 0xEB]> short_image ++ repeat 0xAA 100%nat)).
  - vm_compute. lia.
  - vm_compute. lia.
  - vm_compute. reflexivity.
Defined.

(** ** Device strings *)

(** The conversion loop, once more, with what it leaves alone: while the
    output stays behind the unit being read, the bytes after the last code
    unit are not written. *)
Lemma convert_loop_within (pad rest : bytes) :
  forall (done : list Z) (m : bytes) (i p : nat),
    i = length done ->
    p = length (flat_map utf8_encode done) ->
    Forall (fun u => 0 <= u < 2 ^ 16) rest ->
    take p m = flat_map utf8_encode done ->
    drop (2 * i + 2) m = flat_map le16 rest ++ pad ->
    (forall k, (k <= length rest)%nat ->
       (length (flat_map utf8_encode (done ++ take k rest)) <= 2 * (i + k) + 2)%nat) ->
    exists m',
      convert_loop m 1 i (length rest) p = Some m' /\
      length m' = length m /\
      take (length (flat_map utf8_encode (done ++ rest))) m'
        = flat_map utf8_encode (done ++ rest) /\
      drop (2 * (i + length rest) + 2) m' = pad.
Proof.
  induction rest as [|u rest IH]; intros done m i p Hi Hp Hrange Htake Hdrop Hroom.
  - exists m. rewrite app_nil_r, <- Hp. cbn [length]. rewrite Nat.add_0_r.
    split; [reflexivity|]. split; [reflexivity|]. split; [exact Htake|exact Hdrop].
  - inversion Hrange as [|? ? Hu Hrange']; subst.
    cbn [length convert_loop flat_map] in *. rewrite <- app_assoc in Hdrop.
    assert (Hlen : (2 * length done + 2 + 2 + length (flat_map le16 rest ++ pad)
                    <= length m)%nat).
    { apply (f_equal length) in Hdrop. rewrite length_drop in Hdrop. cbn in Hdrop. lia. }
    rewrite (read_u16_le16 m (flat_map le16 rest ++ pad) (1 + length done) u Hu)
      by (rewrite <- Hdrop; f_equal; lia).
    rewrite bind_Some.
    pose proof (Hroom 1%nat ltac:(lia)) as Hroom1.
    cbn [take] in Hroom1. rewrite take_0, flat_map_app, length_app in Hroom1.
    cbn [flat_map] in Hroom1. rewrite app_nil_r in Hroom1.
    set (p := length (flat_map utf8_encode done)) in *.
    set (sz := length (utf8_encode u)) in *.
    rewrite store_bytes_spec by (fold sz; lia). fold sz. rewrite bind_Some.
    set (m1 := take p m ++ utf8_encode u ++ drop (p + sz) m).
    assert (Hlen1 : length m1 = length m).
    { subst m1. rewrite !length_app, length_take, length_drop. fold sz. lia. }
    destruct (IH (done ++ [u]) m1 (S (length done)) (p + sz)%nat)
      as (m' & Hc & Hl & Ht & Hd).
    + rewrite length_app. cbn. lia.
    + rewrite flat_map_app, length_app. cbn [flat_map]. rewrite app_nil_r. reflexivity.
    + exact Hrange'.
    + subst m1. rewrite app_assoc, take_app_length'.
      * rewrite flat_map_app, Htake. cbn [flat_map]. rewrite app_nil_r. reflexivity.
      * rewrite length_app, length_take. fold sz. lia.
    + subst m1. rewrite app_assoc, drop_app_ge by (rewrite length_app, length_take; fold sz; lia).
      rewrite length_app, length_take, drop_drop. fold sz.
      replace (p + sz + (2 * S (length done) + 2 - (p `min` length m + sz)))%nat
        with (2 * length done + 2 + 2)%nat by lia.
      rewrite <- drop_drop, Hdrop. reflexivity.
    + intros k Hk. specialize (Hroom (S k) ltac:(lia)).
      cbn [take] in Hroom. rewrite <- app_assoc. cbn [app].
      replace (S (length done) + k)%nat with (length done + S k)%nat by lia. exact Hroom.
    + exists m'. split; [exact Hc|]. split; [congruence|].
      rewrite <- app_assoc in Ht. split; [exact Ht|].
      replace (2 * (length done + S (length rest)) + 2)%nat
        with (2 * (S (length done) + length rest) + 2)%nat by lia.
      exact Hd.
Qed.

Lemma utf8_encode_small (l : list Z) :
  Forall (fun u => 0 < u < 0x800) l ->
  (length (flat_map utf8_encode l) <= 2 * length l)%nat /\
  Forall (fun b => b <> 0) (flat_map utf8_encode l).
Proof.
  induction 1 as [|u l Hu _ [IHl IHn]]; [split; [cbn; lia|constructor]|].
  cbn [flat_map length]. rewrite length_app.
  assert (H : (length (utf8_encode u) <= 2)%nat /\ Forall (fun b => b <> 0) (utf8_encode u)).
  { unfold utf8_encode. destruct (Z.ltb_spec u 128).
    - split; [cbn; lia|]. constructor; [|constructor].
      change 0xff with (Z.ones 8). rewrite Z.land_ones, Z.mod_small by lia. lia.
    - destruct (Z.ltb_spec u 2048); [|lia]. split; [cbn; lia|].
      assert (Hb : forall hi x, hi = 0xC0 \/ hi = 0x80 -> 0 <= x < 64 ->
                     u8 (Z.lor hi x) <> 0).
      { intros hi x Hhi Hx. unfold u8.
        assert (E : Z.lor hi x = hi + x).
        { rewrite <- Z.lxor_lor, <- Z.add_nocarry_lxor; [reflexivity| |];
            apply Z.bits_inj'; intros n Hn; rewrite Z.land_spec, Z.bits_0;
            destruct (Z_lt_dec n 6) as [L|L].
          - replace (Z.testbit hi n) with false; [reflexivity|].
            assert (n = 0 \/ n = 1 \/ n = 2 \/ n = 3 \/ n = 4 \/ n = 5)
              as [->|[->|[->|[->|[->| ->]]]]] by lia;
              destruct Hhi as [-> | ->]; reflexivity.
          - replace (Z.testbit x n) with false; [apply andb_false_r|].
            symmetry. destruct (Z.eq_dec x 0) as [->|]; [apply Z.bits_0|].
            apply Z.bits_above_log2; [lia|].
            assert (Z.log2 x < 6) by (apply Z.log2_lt_pow2; lia). lia.
          - replace (Z.testbit hi n) with false; [reflexivity|].
            assert (n = 0 \/ n = 1 \/ n = 2 \/ n = 3 \/ n = 4 \/ n = 5)
              as [->|[->|[->|[->|[->| ->]]]]] by lia;
              destruct Hhi as [-> | ->]; reflexivity.
          - replace (Z.testbit x n) with false; [apply andb_false_r|].
            symmetry. destruct (Z.eq_dec x 0) as [->|]; [apply Z.bits_0|].
            apply Z.bits_above_log2; [lia|].
            assert (Z.log2 x < 6) by (apply Z.log2_lt_pow2; lia). lia. }
        rewrite E. destruct Hhi as [-> | ->]; rewrite Z.mod_small; lia. }
      assert (R1 : 0 <= Z.land (Z.shiftr u 6) 0x1F < 64).
      { change 0x1F with (Z.ones 5). rewrite Z.land_ones by lia.
        pose proof (Z.mod_pos_bound (Z.shiftr u 6) (2 ^ 5) ltac:(lia)). lia. }
      assert (R2 : 0 <= Z.land (Z.shiftr u 0) 0x3F < 64).
      { change 0x3F with (Z.ones 6). rewrite Z.land_ones by lia.
        pose proof (Z.mod_pos_bound (Z.shiftr u 0) (2 ^ 6) ltac:(lia)). lia. }
      constructor; [apply Hb; auto|]. constructor; [apply Hb; auto|constructor]. }
  destruct H as [H1 H2]. split; [lia|]. apply Forall_app. split; assumption.
Qed.

(** A descriptor of code units below 0x800 is decoded inside its own
    bytes: what follows the descriptor is not written. *)
Lemma decoder_within_descriptor (units pad : bytes) (buf_len : Z) :
  Forall (fun u => 0 < u < 0x800) units ->
  (length units <= 126)%nat ->
  exists m,
    utf16_to_utf8 (string_descriptor units ++ pad) buf_len = Some m /\
    length m = length (string_descriptor units ++ pad) /\
    take (S (length (flat_map utf8_encode units))) m = flat_map utf8_encode units ++ [0] /\
    drop (2 + 2 * length units) m = pad.
Proof.
  intros Hsmall Hn.
  assert (Hrange : Forall (fun u => 0 <= u < 2 ^ 16) units).
  { eapply Forall_impl; [exact Hsmall|]. cbn. intros u Hu. lia. }
  assert (Hroom : forall k, (k <= length units)%nat ->
            (length (flat_map utf8_encode (take k units)) <= 2 * k)%nat).
  { intros k Hk.
    destruct (utf8_encode_small (take k units) (Forall_take _ _ _ Hsmall)) as [H _].
    rewrite length_take in H. lia. }
  set (m0 := string_descriptor units ++ pad).
  assert (Hdrop : drop (2 * 0 + 2) m0 = flat_map le16 units ++ pad) by reflexivity.
  assert (Hlen0 : length m0 = (2 + 2 * length units + length pad)%nat).
  { apply (f_equal length) in Hdrop. rewrite length_drop, length_app in Hdrop.
    subst m0. unfold string_descriptor in *. rewrite !length_app in *. cbn [length] in *.
    assert (length (flat_map le16 units) = (2 * length units)%nat).
    { clear. induction units as [|u us IH]; cbn; lia. }
    lia. }
  unfold utf16_to_utf8.
  assert (Hfirst : read_u16 m0 0 = Some ((2 + 2 * Z.of_nat (length units)) + 256 * 3))
    by reflexivity.
  rewrite Hfirst, bind_Some, descriptor_units_of_length by exact Hn.
  unfold _count_utf8_bytes, _convert_utf16le_to_utf8. rewrite Nat2Z.id.
  set (total := length (flat_map utf8_encode units)) in *.
  assert (Htotal : (total <= 2 * length units)%nat).
  { specialize (Hroom (length units) ltac:(lia)). rewrite firstn_all in Hroom. exact Hroom. }
  rewrite (count_loop_spec pad units m0 0 0 Hrange Hdrop) by lia.
  rewrite bind_Some. fold total. rewrite Z.add_0_l, bind_Some.
  rewrite int32_of_small by lia. unfold u32 at 1. rewrite Z.mod_small by lia.
  destruct (convert_loop_within pad units [] m0 0 0 eq_refl eq_refl Hrange eq_refl Hdrop)
    as (m1 & Hconv & Hlen1 & Htake1 & Hdrop1).
  { intros k Hk. cbn [app]. specialize (Hroom k Hk). lia. }
  cbn [app] in Htake1. fold total in Htake1. cbn [Nat.add] in Hdrop1.
  rewrite Hconv, bind_Some, Nat2Z.id. unfold mem_set.
  destruct (decide (total < length m1)%nat) as [Hin|]; [|lia].
  eexists. split; [reflexivity|]. split; [rewrite length_insert; exact Hlen1|]. split.
  - rewrite (take_S_r _ total 0) by (apply list_lookup_insert_eq; exact Hin).
    rewrite take_insert_ge by lia. rewrite Htake1. reflexivity.
  - rewrite drop_insert_lt by lia.
    replace (2 + 2 * length units)%nat with (2 * length units + 2)%nat by lia.
    exact Hdrop1.
Qed.

Lemma c_string_terminated (chars rest : bytes) :
  Forall (fun c => c <> 0) chars -> c_string (chars ++ 0 :: rest) = Some chars.
Proof.
  induction 1 as [|c chars Hc _ IH]; cbn; [reflexivity|].
  destruct (Z.eqb_spec c 0); [contradiction|]. rewrite IH. reflexivity.
Qed.

(** One string block on a well-formed descriptor that fits the buffer. *)
Lemma string_block_spec (index : Z) (units : list Z) (off size : nat) (m : bytes) :
  index <> 0 ->
  Forall (fun u => 0 < u < 0x800) units ->
  (2 + 2 * length units <= size)%nat -> (size <= 254)%nat ->
  (off + size <= length m)%nat ->
  exists m',
    string_block index (Some (string_descriptor units)) off size m =
      Some (m', [Txt " --- "] ++ map Chr (flat_map utf8_encode units) ++ [Txt cr]) /\
    length m' = length m /\
    take off m' = take off m /\
    drop (off + (2 + 2 * length units)) m' = drop (off + (2 + 2 * length units)) m /\
    take (S (length (flat_map utf8_encode units))) (drop off m') =
      flat_map utf8_encode units ++ [0].
Proof.
  intros Hidx Hsmall Hfit Hsize Hin.
  unfold string_block. apply Z.eqb_neq in Hidx. rewrite Hidx.
  assert (Hlen : length (string_descriptor units) = (2 + 2 * length units)%nat).
  { unfold string_descriptor. rewrite length_app. cbn [length].
    assert (length (flat_map le16 units) = (2 * length units)%nat).
    { clear. induction units as [|u us IH]; cbn; lia. }
    lia. }
  rewrite take_ge by lia.
  assert (Lt : length (take off m) = off) by (rewrite length_take; lia).
  rewrite mem_write_ok by lia. rewrite bind_Some.
  rewrite take_app_length' by (symmetry; exact Lt).
  rewrite drop_app_length' by (symmetry; exact Lt).
  rewrite Hlen.
  destruct (decoder_within_descriptor units (drop (off + (2 + 2 * length units)) m)
              (Z.of_nat size) Hsmall ltac:(lia)) as (d & Hd & Hl & Ht & Hp).
  rewrite Hd, bind_Some.
  destruct (utf8_encode_small units Hsmall) as [Hsz Hnz].
  assert (Hd' : d = (flat_map utf8_encode units ++ [0]) ++
                    drop (S (length (flat_map utf8_encode units))) d).
  { rewrite <- Ht. symmetry. apply take_drop. }
  assert (Hs : c_string d = Some (flat_map utf8_encode units)).
  { rewrite Hd', <- app_assoc. cbn [app]. apply c_string_terminated, Hnz. }
  rewrite Hs, bind_Some.
  eexists. split; [reflexivity|].
  rewrite length_app, Hlen, length_drop in Hl.
  split; [rewrite length_app, Lt; lia|].
  split; [rewrite take_app_length'; [reflexivity|symmetry; exact Lt]|].
  split.
  - rewrite drop_app_ge by lia. rewrite Lt.
    replace (off + (2 + 2 * length units) - off)%nat with (2 + 2 * length units)%nat by lia.
    exact Hp.
  - rewrite drop_app_length' by (symmetry; exact Lt). exact Ht.
Qed.

Lemma chars_of_app (a b : list sout) : chars_of (a ++ b) = chars_of a ++ chars_of b.
Proof.
  induction a as [|x a IH]; [reflexivity|].
  destruct x; cbn [app chars_of]; rewrite IH; reflexivity.
Qed.

Lemma chars_of_map (l : bytes) : chars_of (map Chr l) = l.
Proof. induction l as [|c l IH]; [reflexivity|]. cbn. now rewrite IH. Qed.

Lemma take_of_take (a b : nat) (l l' : bytes) :
  (a <= b)%nat -> take b l' = take b l -> take a l' = take a l.
Proof.
  intros Hab H.
  replace a with (a `min` b)%nat by lia.
  rewrite <- !take_take. now rewrite H.
Qed.

Lemma drop_of_drop (a b : nat) (l l' : bytes) :
  (a <= b)%nat -> drop a l' = drop a l -> drop b l' = drop b l.
Proof.
  intros Hab H. replace b with (a + (b - a))%nat by lia.
  rewrite <- !drop_drop. now rewrite H.
Qed.

Lemma field_of_take (off n b : nat) (l l' : bytes) :
  (off + n <= b)%nat -> take b l' = take b l ->
  take n (drop off l') = take n (drop off l).
Proof.
  intros Hb H. rewrite !take_drop_commute.
  f_equal. apply (take_of_take _ b); [lia|exact H].
Qed.

Lemma c_string_of_take (chars l : bytes) :
  Forall (fun c => c <> 0) chars ->
  take (S (length chars)) l = chars ++ [0] ->
  c_string l = Some chars.
Proof.
  intros Hnz Ht. rewrite <- (take_drop (S (length chars)) l), Ht, <- app_assoc.
  cbn [app]. apply c_string_terminated, Hnz.
Qed.

Lemma desc_device_at_total (m : bytes) (off : nat) :
  (off + 18 <= length m)%nat -> exists desc, desc_device_at m off = Some desc.
Proof.
  intros H. unfold desc_device_at. rewrite mem_read_ok by exact H. rewrite bind_Some.
  assert (L : length (take 18 (drop off m)) = 18%nat)
    by (rewrite length_take, length_drop; lia).
  destruct (take 18 (drop off m)) as [|b0 l]; [discriminate L|].
  do 17 (destruct l as [|? l]; [discriminate L|]).
  destruct l; [|discriminate L]. eexists. reflexivity.
Qed.

(** X17.  Device strings that fit their buffers: when the three string
    descriptors of a device are well formed, of code units from 1 to 0x7FF,
    and fit [manufacturer], [product] and [serial] with their two-byte
    headers, [print_device_descriptor] returns, the characters it prints
    are the UTF-8 bytes of the three strings in turn, each buffer is left
    holding its string as a C string, and no byte of [dev_info] before
    [manufacturer] or from [mounted] on is changed. *)
Theorem device_strings_decoded
    (daddr : Z) (dev_info : bytes) (desc : tusb_desc_device_t) (um up us : list Z) :
  1 <= daddr ->
  let dev := (Z.to_nat (daddr - 1) * DEV_INFO_SIZE)%nat in
  (dev + DEV_INFO_SIZE <= length dev_info)%nat ->
  desc_device_at dev_info dev = Some desc ->
  iManufacturer desc <> 0 -> iProduct desc <> 0 -> iSerialNumber desc <> 0 ->
  short_string SIZE_MANUFACTURER um ->
  short_string SIZE_PRODUCT up ->
  short_string SIZE_SERIAL us ->
  exists m out,
    print_device_descriptor true daddr (Some (string_descriptor um))
      (Some (string_descriptor up)) (Some (string_descriptor us)) dev_info
      = Some (m, out) /\
    chars_of out = flat_map utf8_encode (um ++ up ++ us) /\
    length m = length dev_info /\
    take (dev + OFF_MANUFACTURER) m = take (dev + OFF_MANUFACTURER) dev_info /\
    drop (dev + OFF_MOUNTED) m = drop (dev + OFF_MOUNTED) dev_info /\
    c_string (drop (dev + OFF_MANUFACTURER) m) = Some (flat_map utf8_encode um) /\
    c_string (drop (dev + OFF_PRODUCT) m) = Some (flat_map utf8_encode up) /\
    c_string (drop (dev + OFF_SERIAL) m) = Some (flat_map utf8_encode us).
Proof.
  intros Hd dev Hin Hdesc Him Hip His [Sm Fm] [Sp Fp] [Ss Fs].
  unfold print_device_descriptor, dev_entry. cbn [negb].
  destruct (Z.leb_spec 1 daddr) as [_|]; [|lia].
  rewrite bind_Some. fold dev. rewrite Hdesc, bind_Some. cbv zeta.
  clearbody dev.
  unfold DEV_INFO_SIZE, OFF_MANUFACTURER, OFF_PRODUCT, OFF_SERIAL, OFF_MOUNTED,
    SIZE_MANUFACTURER, SIZE_PRODUCT, SIZE_SERIAL in *.
  destruct (string_block_spec (iManufacturer desc) um (dev + 18) 64 dev_info
              Him Sm Fm ltac:(lia) ltac:(lia)) as (m1 & B1 & L1 & T1 & D1 & C1).
  rewrite B1, bind_Some. cbn [fst snd].
  destruct (string_block_spec (iProduct desc) up (dev + 82) 96 m1
              Hip Sp Fp ltac:(lia) ltac:(lia)) as (m2 & B2 & L2 & T2 & D2 & C2).
  rewrite B2, bind_Some. cbn [fst snd].
  destruct (string_block_spec (iSerialNumber desc) us (dev + 178) 32 m2
              His Ss Fs ltac:(lia) ltac:(lia)) as (m3 & B3 & L3 & T3 & D3 & C3).
  rewrite B3, bind_Some. cbn [fst snd].
  destruct (utf8_encode_small um Sm) as [Zm Nm].
  destruct (utf8_encode_small up Sp) as [Zp Np].
  destruct (utf8_encode_small us Ss) as [Zs Ns].
  eexists _, _. split; [reflexivity|].
  split.
  { rewrite !chars_of_app, !chars_of_map, !flat_map_app. cbn [chars_of app].
    rewrite !app_nil_r, <- ?app_assoc. reflexivity. }
  split; [congruence|].
  split.
  { rewrite (take_of_take (dev + 18) (dev + 178) m2 m3 ltac:(lia) T3).
    rewrite (take_of_take (dev + 18) (dev + 82) m1 m2 ltac:(lia) T2). exact T1. }
  split.
  { rewrite (drop_of_drop (dev + 178 + (2 + 2 * length us)) (dev + 210) m2 m3
               ltac:(lia) D3).
    rewrite (drop_of_drop (dev + 82 + (2 + 2 * length up)) (dev + 210) m1 m2
               ltac:(lia) D2).
    exact (drop_of_drop (dev + 18 + (2 + 2 * length um)) (dev + 210) dev_info m1
             ltac:(lia) D1). }
  split; [|split].
  - apply c_string_of_take; [exact Nm|].
    rewrite (field_of_take (dev + 18) (S (length (flat_map utf8_encode um))) (dev + 178)
               m2 m3 ltac:(lia) T3).
    rewrite (field_of_take (dev + 18) (S (length (flat_map utf8_encode um))) (dev + 82)
               m1 m2 ltac:(lia) T2). exact C1.
  - apply c_string_of_take; [exact Np|].
    rewrite (field_of_take (dev + 82) (S (length (flat_map utf8_encode up))) (dev + 178)
               m2 m3 ltac:(lia) T3). exact C2.
  - apply c_string_of_take; [exact Ns|]. exact C3.
Qed.

Lemma device_strings_decoded_witness :
  let dev_info :=
    repeat 0 212%nat ++
    [18; 1; 0; 2; 0; 0; 0; 64; 0x51; 0x09; 0xD5; 0x16; 0; 1; 1; 2; 3; 1] ++
    repeat 0x55 194%nat in
  exists m out,
    print_device_descriptor true 2 (Some (string_descriptor [75; 105; 0xF1]))
      (Some (string_descriptor [68; 84])) (Some (string_descriptor [49; 50; 51])) dev_info
      = Some (m, out) /\
    chars_of out = [75; 105; 0xC3; 0xB1; 68; 84; 49; 50; 51] /\
    length m = 424%nat /\
    take (212 + OFF_MANUFACTURER) m = take (212 + OFF_MANUFACTURER) dev_info /\
    drop (212 + OFF_MOUNTED) m = drop (212 + OFF_MOUNTED) dev_info /\
    c_string (drop (212 + OFF_MANUFACTURER) m) = Some [75; 105; 0xC3; 0xB1] /\
    c_string (drop (212 + OFF_PRODUCT) m) = Some [68; 84] /\
    c_string (drop (212 + OFF_SERIAL) m) = Some [49; 50; 51].
Proof.
  cbv zeta.
  apply (device_strings_decoded 2
           (repeat 0 212%nat ++
            [18; 1; 0; 2; 0; 0; 0; 64; 0x51; 0x09; 0xD5; 0x16; 0; 1; 1; 2; 3; 1] ++
            repeat 0x55 194%nat)
           {| bLength := 18; bDescriptorType := 1; bcdUSB := 0x200; bDeviceClass := 0;
              bDeviceSubClass := 0; bDeviceProtocol := 0; bMaxPacketSize0 := 64;
              idVendor := 0x0951; idProduct := 0x16D5; bcdDevice := 0x100;
              iManufacturer := 1; iProduct := 2; iSerialNumber := 3;
              bNumConfigurations := 1 |}
           [75; 105; 0xF1] [68; 84] [49; 50; 51]).
  - lia.
  - vm_compute. lia.
  - reflexivity.
  - discriminate.
  - discriminate.
  - discriminate.
  - split; [repeat constructor; lia | vm_compute; lia].
  - split; [repeat constructor; lia | vm_compute; lia].
  - split; [repeat constructor; lia | vm_compute; lia].
Defined.

(** ** The entries of [dev_info] and the protocol names *)

(** X18.  [tuh_mount_cb] and [tuh_umount_cb] store one byte, the
    [mounted] flag of the entry of the device, and nothing else; the entry
    has to lie in [dev_info], and address 0 has none. *)
Theorem mounted_flag_only (daddr : Z) (dev_info : bytes) :
  0 <= daddr ->
  let dev := (Z.to_nat (daddr - 1) * DEV_INFO_SIZE)%nat in
  (if (1 <=? daddr) && bool_decide (dev + OFF_MOUNTED < length dev_info)%nat then
     exists out1 out2,
       tuh_mount_cb daddr dev_info = Some (<[(dev + OFF_MOUNTED)%nat := 1]> dev_info, out1) /\
       tuh_umount_cb daddr (<[(dev + OFF_MOUNTED)%nat := 1]> dev_info)
         = Some (<[(dev + OFF_MOUNTED)%nat := 0]> dev_info, out2)
   else
     tuh_mount_cb daddr dev_info = None /\ tuh_umount_cb daddr dev_info = None).
Proof.
  intros Hd dev. unfold tuh_mount_cb, tuh_umount_cb, dev_entry. fold dev.
  destruct (1 <=? daddr); cbn [andb]; [|split; reflexivity].
  rewrite !bind_Some. unfold mem_set. rewrite length_insert.
  destruct (bool_decide_reflect (dev + OFF_MOUNTED < length dev_info)%nat) as [Hin|Hout].
  - destruct (decide (dev + OFF_MOUNTED < length dev_info)%nat); [|contradiction].
    rewrite !bind_Some, list_insert_insert_eq. eexists _, _. split; reflexivity.
  - destruct (decide (dev + OFF_MOUNTED < length dev_info)%nat); [contradiction|].
    split; reflexivity.
Qed.

Lemma mounted_flag_only_witness :
  exists out1 out2,
    tuh_mount_cb 1 (repeat 0 212%nat) = Some (<[210%nat := 1]> (repeat 0 212%nat), out1) /\
    tuh_umount_cb 1 (<[210%nat := 1]> (repeat 0 212%nat)) =
      Some (<[210%nat := 0]> (repeat 0 212%nat), out2).
Proof.
  apply (mounted_flag_only 1 (repeat 0 212%nat)). lia.
Defined.

(** X19.  [tuh_hid_mount_cb] looks the interface protocol up in a table of
    three names: for the protocols 0, 1 and 2 it returns, having shown
    "HID Device", set the pixel to red and printed the name; for a device
    whose interface descriptor carries any other protocol byte the lookup
    reads outside [protocol_str]. *)
Theorem hid_mount_protocol_name
    (a i v p itf : Z) (ok : bool) (s : State) :
  0 <= itf ->
  (itf < 3 ->
   exists s' name out,
     tuh_hid_mount_cb a i v p itf ok s = Some s' /\
     protocol_str !! Z.to_nat itf = Some name /\
     oled s' = oled s ++ [nl +:+ "[!!] HID Device"] /\
     pixel s' = pixel s ++ [RED] /\
     serial s' = serial s ++ out /\ In (Txt name) out) /\
  (3 <= itf -> tuh_hid_mount_cb a i v p itf ok s = None).
Proof.
  intros H0. unfold tuh_hid_mount_cb. split; intros H.
  - assert (Hn : (Z.to_nat itf < length protocol_str)%nat) by (cbn; lia).
    destruct (lookup_lt_is_Some_2 _ _ Hn) as [name Hname].
    rewrite Hname, bind_Some.
    destruct ok; eexists _, name, _; (split; [reflexivity|]); (split; [reflexivity|]);
      cbn; (split; [reflexivity|]); (split; [reflexivity|]);
      (split; [rewrite <- ?app_assoc; reflexivity|]); cbn; auto 20.
  - rewrite (proj2 (lookup_ge_None protocol_str (Z.to_nat itf))) by (cbn; lia).
    reflexivity.
Qed.

Lemma hid_mount_protocol_name_witness :
  (1 < 3 ->
   exists s' name out,
     tuh_hid_mount_cb 1 0 0x046D 0xC31C 1 true (power_on []) = Some s' /\
     protocol_str !! Z.to_nat 1 = Some name /\
     oled s' = oled (power_on []) ++ [nl +:+ "[!!] HID Device"] /\
     pixel s' = pixel (power_on []) ++ [RED] /\
     serial s' = serial (power_on []) ++ out /\ In (Txt name) out) /\
  (3 <= 1 -> tuh_hid_mount_cb 1 0 0x046D 0xC31C 1 true (power_on []) = None).
Proof.
  apply (hid_mount_protocol_name 1 0 0x046D 0xC31C 1 true (power_on [])). lia.
Defined.

(** ** The table of suspicious devices (revision 0.4.0) *)

(** The loop returns the name of the first row that matches. *)
Lemma check_rows_first (v p : Z) (rows : list Rev040.suspicious_device_t) :
  Rev040.check_rows v p rows =
    match List.find (Rev040.row_matches v p) rows with
    | Some dev => Rev040.name dev
    | None => None
    end.
Proof.
  induction rows as [|dev rest IH]; [reflexivity|].
  cbn [Rev040.check_rows List.find]. unfold Rev040.row_matches at 1.
  destruct (Rev040.vid dev =? v); cbn [andb]; [|exact IH].
  destruct (_ || _); [reflexivity | exact IH].
Qed.

(** Every row below the end marker has a name. *)
Lemma suspicious_rows_named (dev : Rev040.suspicious_device_t) :
  In dev (take Rev040.SUSPICIOUS_COUNT Rev040.SUSPICIOUS_DEVICES) ->
  exists text, Rev040.name dev = Some text.
Proof.
  intros Hin. cbn in Hin.
  repeat (destruct Hin as [<- | Hin]; [eexists; reflexivity|]).
  destruct Hin.
Qed.

(** X20.  [check_suspicious_device] flags a device exactly when a row
    below the end marker has its vendor identifier and either its product
    identifier or the wildcard 0x0000; a pair that the table lists with a
    product identifier of its own is flagged under the name of that very
    row (no earlier wildcard hides it); and the identifiers 0000:0000 of
    the end marker are not flagged. *)
Theorem suspicious_device_lookup (v p : Z) :
  ((exists text, Rev040.check_suspicious_device v p = Some text) <->
   (exists dev, In dev (take Rev040.SUSPICIOUS_COUNT Rev040.SUSPICIOUS_DEVICES) /\
                Rev040.vid dev = v /\
                (Rev040.pid dev = 0 \/ Rev040.pid dev = p))) /\
  (forall dev, In dev (take Rev040.SUSPICIOUS_COUNT Rev040.SUSPICIOUS_DEVICES) ->
     Rev040.pid dev <> 0 ->
     Rev040.check_suspicious_device (Rev040.vid dev) (Rev040.pid dev) =
       Rev040.name dev) /\
  Rev040.check_suspicious_device 0 0 = None.
Proof.
  split; [|split].
  - unfold Rev040.check_suspicious_device. rewrite check_rows_first. split.
    + intros [text Ht].
      destruct (List.find _ _) as [dev|] eqn:Hf; [|discriminate Ht].
      apply List.find_some in Hf as [Hin Hm]. exists dev.
      unfold Rev040.row_matches in Hm.
      apply andb_prop in Hm as [Hv Hp]. apply orb_prop in Hp.
      split; [exact Hin|]. split; [lia|]. destruct Hp; [left | right]; lia.
    + intros (dev & Hin & Hv & Hp).
      destruct (List.find _ _) as [dev'|] eqn:Hf.
      * apply List.find_some in Hf as [Hin' _].
        exact (suspicious_rows_named dev' Hin').
      * exfalso. apply (List.find_none _ _ Hf) in Hin.
        unfold Rev040.row_matches in Hin.
        apply andb_false_iff in Hin as [Hin|Hin]; [lia|].
        apply orb_false_iff in Hin. destruct Hp; lia.
  - intros dev Hin Hp. cbn in Hin.
    repeat (destruct Hin as [<- | Hin];
            [first [reflexivity | exfalso; apply Hp; reflexivity]|]).
    destruct Hin.
  - reflexivity.
Qed.

(** ** The UTF-8 output is unambiguous *)

Lemma lor_disjoint (hi x : Z) (k : Z) :
  0 <= k -> hi mod 2 ^ k = 0 -> 0 <= x < 2 ^ k -> Z.lor hi x = hi + x.
Proof.
  intros Hk Hhi Hx.
  assert (Hland : Z.land hi x = 0).
  { apply Z.bits_inj'. intros n Hn. rewrite Z.land_spec, Z.bits_0.
    destruct (Z.lt_ge_cases n k) as [Hlt|Hge].
    - replace (Z.testbit hi n) with false; [reflexivity|].
      symmetry. rewrite <- (Z.mod_pow2_bits_low hi k n) by lia.
      rewrite Hhi. apply Z.bits_0.
    - replace (Z.testbit x n) with false; [apply andb_false_r|].
      symmetry. destruct (Z.eq_dec x 0) as [->|Hx0]; [apply Z.bits_0|].
      apply Z.bits_above_log2; [lia|].
      apply Z.lt_le_trans with k; [|exact Hge].
      apply Z.log2_lt_pow2; lia. }
  rewrite <- Z.lxor_lor by exact Hland.
  symmetry. apply Z.add_nocarry_lxor. exact Hland.
Qed.

(** The bytes of a code unit, in arithmetic. *)
Lemma utf8_encode_arith (u : Z) :
  0 <= u < 2 ^ 16 ->
  utf8_encode u =
    if u <? 0x80 then [u]
    else if u <? 0x800 then [0xC0 + u / 64; 0x80 + u mod 64]
    else [0xE0 + u / 4096; 0x80 + (u / 64) mod 64; 0x80 + u mod 64].
Proof.
  intros Hu. unfold utf8_encode, u8.
  change 0xff with (Z.ones 8). change 0x1F with (Z.ones 5).
  change 0x3F with (Z.ones 6). change 0x0F with (Z.ones 4).
  rewrite !Z.land_ones, !Z.shiftr_div_pow2 by lia.
  change (2 ^ 0) with 1. rewrite Z.div_1_r.
  change (2 ^ 6) with 64. change (2 ^ 12) with 4096. change (2 ^ 5) with 32.
  change (2 ^ 4) with 16. change (2 ^ 8) with 256. change (2 ^ 16) with 65536 in Hu.
  destruct (Z.ltb_spec u 0x80) as [H1|H1].
  - rewrite Z.mod_small by lia. reflexivity.
  - assert (Hlow := Z.mod_pos_bound u 64 ltac:(lia)).
    assert (Hmid := Z.mod_pos_bound (u / 64) 64 ltac:(lia)).
    destruct (Z.ltb_spec u 0x800) as [H2|H2].
    + assert (Hq : 0 <= u / 64 < 32)
        by (split; [apply Z.div_pos; lia | apply Z.div_lt_upper_bound; lia]).
      rewrite (Z.mod_small (u / 64) 32) by lia.
      rewrite (lor_disjoint 0xC0 (u / 64) 5) by (try reflexivity; lia).
      rewrite (lor_disjoint 0x80 (u mod 64) 6) by (try reflexivity; lia).
      rewrite (Z.mod_small (0xC0 + u / 64) 256) by lia.
      rewrite (Z.mod_small (0x80 + u mod 64) 256) by lia. reflexivity.
    + assert (Hq : 0 <= u / 4096 < 16)
        by (split; [apply Z.div_pos; lia | apply Z.div_lt_upper_bound; lia]).
      rewrite (Z.mod_small (u / 4096) 16) by lia.
      rewrite (lor_disjoint 0xE0 (u / 4096) 4) by (try reflexivity; lia).
      rewrite (lor_disjoint 0x80 ((u / 64) mod 64) 6) by (try reflexivity; lia).
      rewrite (lor_disjoint 0x80 (u mod 64) 6) by (try reflexivity; lia).
      rewrite (Z.mod_small (0xE0 + u / 4096) 256) by lia.
      rewrite (Z.mod_small (0x80 + (u / 64) mod 64) 256) by lia.
      rewrite (Z.mod_small (0x80 + u mod 64) 256) by lia. reflexivity.
Qed.

(** Reading the head of a text that starts with the bytes of a code unit
    gives the unit back, and the rest of the text. *)
Lemma utf8_head_encode (u : Z) (rest : bytes) :
  0 <= u < 2 ^ 16 ->
  utf8_head (utf8_encode u ++ rest) = Some (u, rest).
Proof.
  intros Hu. rewrite utf8_encode_arith by exact Hu.
  change (2 ^ 16) with 65536 in Hu.
  destruct (Z.ltb_spec u 0x80) as [H1|H1].
  - cbn [app utf8_head]. destruct (Z.ltb_spec u 0x80); [reflexivity | lia].
  - destruct (Z.ltb_spec u 0x800) as [H2|H2]; cbn [app utf8_head].
    + assert (Hq : 0 <= u / 64 < 32)
        by (split; [apply Z.div_pos; lia | apply Z.div_lt_upper_bound; lia]).
      destruct (Z.ltb_spec (0xC0 + u / 64) 0x80); [lia|].
      destruct (Z.ltb_spec (0xC0 + u / 64) 0xE0); [|lia].
      f_equal. f_equal. rewrite (Z.div_mod u 64) at 3 by lia. lia.
    + assert (Hq : 0 <= u / 4096 < 16)
        by (split; [apply Z.div_pos; lia | apply Z.div_lt_upper_bound; lia]).
      destruct (Z.ltb_spec (0xE0 + u / 4096) 0x80); [lia|].
      destruct (Z.ltb_spec (0xE0 + u / 4096) 0xE0); [lia|].
      f_equal. f_equal.
      assert (E1 := Z.div_mod u 64 ltac:(lia)).
      assert (E2 := Z.div_mod (u / 64) 64 ltac:(lia)).
      assert (E3 : u / 64 / 64 = u / 4096)
        by (rewrite Z.div_div by lia; reflexivity).
      lia.
Qed.

(** X21.  The UTF-8 text that the decoder produces is unambiguous: two
    sequences of 16-bit code units with the same bytes are the same
    sequence. *)
Theorem utf8_output_unambiguous (us vs : list Z) :
  Forall (fun u => 0 <= u < 2 ^ 16) us ->
  Forall (fun u => 0 <= u < 2 ^ 16) vs ->
  flat_map utf8_encode us = flat_map utf8_encode vs ->
  us = vs.
Proof.
  intros Hus. revert vs.
  induction Hus as [|u us Hu Hus IH]; intros vs Hvs E.
  - destruct Hvs as [|v vs Hv Hvs]; [reflexivity|].
    exfalso. apply (f_equal (@length Z)) in E. cbn [flat_map] in E.
    rewrite length_app in E.
    pose proof (utf8_encode_length_le v). cbn [length] in E. lia.
  - destruct Hvs as [|v vs Hv Hvs].
    + exfalso. apply (f_equal (@length Z)) in E. cbn [flat_map] in E.
      rewrite length_app in E.
      pose proof (utf8_encode_length_le u). cbn [length] in E. lia.
    + cbn [flat_map] in E. apply (f_equal utf8_head) in E.
      rewrite !utf8_head_encode in E by assumption.
      injection E as Eu Er. f_equal; [exact Eu|].
      apply IH; assumption.
Qed.

Lemma utf8_output_unambiguous_witness :
  flat_map utf8_encode [0x41; 0xE9; 0x20AC] = flat_map utf8_encode [0x41; 0xE9; 0x20AC] /\
  [0x41; 0xE9; 0x20AC] = [0x41; 0xE9; 0x20AC].
Proof.
  split; [reflexivity|].
  apply (utf8_output_unambiguous [0x41; 0xE9; 0x20AC] [0x41; 0xE9; 0x20AC]).
  - repeat constructor; lia.
  - repeat constructor; lia.
  - reflexivity.
Defined.
